(** * Android activity monitor: the collection pipeline of [android-monitor.py]

    A shallow embedding of the store ([DatabaseManager]), of the collectors'
    polling loops and of their threshold, diffing and parsing code, followed
    by the properties that the design document states about them.

    Conventions of the embedding.
    - Python [int] is [Z]; Python [float] (timestamps, percentages, rates,
      mtimes) is idealised as an exact rational [Q]: rounding, infinities
      and NaN are not modelled.
    - Python [str] is [string], read as a sequence of code points below 256.
    - A Python [dict] whose iteration order is observable is an association
      list in insertion order; a [dict] used only through lookup and store
      is a [gmap].
    - A raised exception is the [Raise] case of [result]; [time.time()] and
      the value of [self.running] seen by a loop are inputs of the model. *)

From Stdlib Require Import Ascii String DecimalString QArith Qround.
From stdpp Require Import gmap strings list fin_maps sorting.

(** ** Values, rows and exceptions *)

(** What the collectors put in a row: [None], an [int], a [float], a [str]. *)
Inductive value : Type :=
| VNone
| VInt (z : Z)
| VFloat (q : Q)
| VStr (s : string).

(** A row handed to [insert_batch]: a [dict] from column name to value. *)
Definition row : Type := list (string * value).

Fixpoint dict_get {A : Type} (d : list (string * A)) (k : string) : option A :=
  match d with
  | [] => None
  | (k', v) :: d' => if String.eqb k' k then Some v else dict_get d' k
  end.

(** [d[k] = v]: a key that is present keeps its place. *)
Fixpoint dict_set {A : Type} (k : string) (v : A) (d : list (string * A))
  : list (string * A) :=
  match d with
  | [] => [(k, v)]
  | (k', v') :: d' =>
      if String.eqb k' k then (k, v) :: d' else (k', v') :: dict_set k v d'
  end.

Definition dict_keys {A : Type} (d : list (string * A)) : list string := map fst d.

Definition dict_mem {A : Type} (d : list (string * A)) (k : string) : bool :=
  match dict_get d k with Some _ => true | None => false end.

(** [row.get(col)]: a missing key reads as [None]. *)
Definition row_get (r : row) (col : string) : value :=
  match dict_get r col with Some v => v | None => VNone end.

Inductive exn : Type :=
| OperationalError   (* sqlite3: no such table, no such column, name clash *)
| ProgrammingError   (* sqlite3: operation on a closed connection *)
| ValueError         (* datetime: field out of range; int: not a number *)
| IndexError         (* list index out of range *)
| OSError.           (* the operating system refused: no such program, ... *)

Inductive result (A : Type) : Type :=
| Ok (a : A)
| Raise (e : exn).
Arguments Ok {A} a.
Arguments Raise {A} e.

(** Code that threads a state [S] and may raise: the state reached when the
    exception is raised is kept, as Python keeps the mutations made before
    a [raise]. Sequencing is stdpp's [x ← m; k]. *)
Definition StE (S A : Type) : Type := S -> result A * S.

#[export] Instance StE_ret {S : Type} : MRet (StE S) := fun _ a s => (Ok a, s).
#[export] Instance StE_bind {S : Type} : MBind (StE S) := fun _ _ f m s =>
  match m s with
  | (Ok a, s') => f a s'
  | (Raise e, s') => (Raise e, s')
  end.

Definition raise {S A : Type} (e : exn) : StE S A := fun s => (Raise e, s).

(** A call into the environment whose outcome is given. *)
Definition outcome {S A : Type} (r : result A) : StE S A := fun s => (r, s).
Definition get_state {S : Type} : StE S S := fun s => (Ok s, s).
Definition put_state {S : Type} (s : S) : StE S unit := fun _ => (Ok tt, s).

(** Running [m] on a component of the state. *)
Definition zoom {S T A : Type} (get : S -> T) (set : T -> S -> S) (m : StE T A)
  : StE S A :=
  fun s => let (r, t) := m (get s) in (r, set t s).

(** [for x in l: body(x)] *)
Fixpoint for_each {S A : Type} (l : list A) (body : A -> StE S unit) : StE S unit :=
  match l with
  | [] => mret tt
  | x :: l' => _ ← body x; for_each l' body
  end.

(** ** The store: [DatabaseManager] over an SQLite connection *)

Module DatabaseManager.

(** A column definition: name and declared type. *)
Definition column : Type := (string * string)%type.

Inductive stmt : Type :=
| CreateTableIfNotExists (name : string) (cols : list column)
| CreateIndexIfNotExists (name table col : string).

(** What went over the connection, oldest first. *)
Inductive db_op : Type :=
| OpExecute (s : stmt)
| OpExecutemany (query : string) (values : list (list value))
| OpCommit.

(** The connection and the database file behind it: whether the connection
    is closed, the schema, the rows of each table as (column, value) lists
    over the inserted columns (a column that was not inserted is NULL), and
    the log of operations. *)
Record Database : Type := mkDatabase {
  db_closed : bool;
  db_tables : gmap string (list column);
  db_indexes : gmap string (string * string);
  db_rows : gmap string (list row);
  db_log : list db_op
}.

Definition empty_db : Database :=
  mkDatabase false ∅ ∅ ∅ [].

Definition log_op (o : db_op) : StE Database unit := fun db =>
  (Ok tt, mkDatabase (db_closed db) (db_tables db) (db_indexes db) (db_rows db)
                     (db_log db ++ [o])).

(** Every operation on a closed connection raises. *)
Definition check_open : StE Database unit := fun db =>
  if db_closed db then (Raise ProgrammingError, db) else (Ok tt, db).

Definition has_column (cols : list column) (c : string) : bool :=
  existsb (fun cd => String.eqb (fst cd) c) cols.

(** SQLite on [CREATE TABLE IF NOT EXISTS]: an existing table of that name
    makes the statement a no-op, an index of that name is an error. *)
Definition create_table (name : string) (cols : list column) : StE Database unit :=
  fun db =>
  match db_tables db !! name with
  | Some _ => (Ok tt, db)
  | None =>
      match db_indexes db !! name with
      | Some _ => (Raise OperationalError, db)
      | None =>
          (Ok tt, mkDatabase (db_closed db) (<[name := cols]> (db_tables db))
                    (db_indexes db) (<[name := []]> (db_rows db)) (db_log db))
      end
  end.

(** SQLite on [CREATE INDEX IF NOT EXISTS]: the table must exist, the name
    must not be a table's, an existing index of that name makes the
    statement a no-op, and the indexed column must be one of the table's. *)
Definition create_index (name table col : string) : StE Database unit :=
  fun db =>
  match db_tables db !! table with
  | None => (Raise OperationalError, db)
  | Some cols =>
      match db_tables db !! name with
      | Some _ => (Raise OperationalError, db)
      | None =>
          match db_indexes db !! name with
          | Some _ => (Ok tt, db)
          | None =>
              if has_column cols col
              then (Ok tt, mkDatabase (db_closed db) (db_tables db)
                             (<[name := (table, col)]> (db_indexes db))
                             (db_rows db) (db_log db))
              else (Raise OperationalError, db)
          end
      end
  end.

(** [conn.execute(sql)] *)
Definition execute (s : stmt) : StE Database unit :=
  _ ← check_open;
  _ ← log_op (OpExecute s);
  match s with
  | CreateTableIfNotExists name cols => create_table name cols
  | CreateIndexIfNotExists name table col => create_index name table col
  end.

(** [conn.commit()] *)
Definition commit : StE Database unit :=
  _ ← check_open;
  log_op OpCommit.

(** The effect of [INSERT INTO table (columns) VALUES (?,..)] run once per
    element of [values]: the statement is prepared first (the table and
    every named column must exist), then one row is appended per element. *)
Definition insert_rows (table : string) (columns : list string)
    (values : list (list value)) : StE Database unit :=
  fun db =>
  match db_tables db !! table with
  | None => (Raise OperationalError, db)
  | Some cols =>
      if forallb (has_column cols) columns
      then
        let old := default [] (db_rows db !! table) in
        let new := map (fun vs => combine columns vs) values in
        (Ok tt, mkDatabase (db_closed db) (db_tables db) (db_indexes db)
                  (<[table := old ++ new]> (db_rows db)) (db_log db))
      else (Raise OperationalError, db)
  end.

(** [conn.executemany(query, values)] for the INSERT built by [insert_batch] *)
Definition executemany (query : string) (table : string) (columns : list string)
    (values : list (list value)) : StE Database unit :=
  _ ← check_open;
  _ ← log_op (OpExecutemany query values);
  insert_rows table columns values.

Definition execute_all (ss : list stmt) : StE Database unit :=
  for_each ss execute.

Definition id_column : column := ("id", "INTEGER PRIMARY KEY AUTOINCREMENT").

(** The [schemas] dictionary of [init_database], in its order. *)
Definition schemas : list (string * list column) :=
  [ ("logcat_entries",
     [id_column; ("timestamp", "REAL"); ("level", "TEXT"); ("tag", "TEXT");
      ("pid", "INTEGER"); ("message", "TEXT"); ("raw_entry", "TEXT")]);
    ("network_stats",
     [id_column; ("timestamp", "REAL"); ("interface", "TEXT");
      ("bytes_sent", "INTEGER"); ("bytes_recv", "INTEGER");
      ("packets_sent", "INTEGER"); ("packets_recv", "INTEGER");
      ("errors_in", "INTEGER"); ("errors_out", "INTEGER")]);
    ("process_stats",
     [id_column; ("timestamp", "REAL"); ("pid", "INTEGER"); ("name", "TEXT");
      ("cpu_percent", "REAL"); ("memory_percent", "REAL");
      ("memory_rss", "INTEGER"); ("memory_vms", "INTEGER");
      ("num_threads", "INTEGER"); ("status", "TEXT")]);
    ("memory_stats",
     [id_column; ("timestamp", "REAL"); ("total", "INTEGER");
      ("available", "INTEGER"); ("percent", "REAL"); ("used", "INTEGER");
      ("free", "INTEGER"); ("swap_total", "INTEGER"); ("swap_used", "INTEGER");
      ("swap_free", "INTEGER")]);
    ("battery_stats",
     [id_column; ("timestamp", "REAL"); ("level", "INTEGER"); ("status", "TEXT");
      ("temperature", "REAL"); ("voltage", "REAL"); ("technology", "TEXT");
      ("health", "TEXT")]);
    ("filesystem_events",
     [id_column; ("timestamp", "REAL"); ("event_type", "TEXT"); ("path", "TEXT");
      ("size", "INTEGER"); ("permissions", "TEXT"); ("owner", "TEXT")]);
    ("app_events",
     [id_column; ("timestamp", "REAL"); ("package_name", "TEXT");
      ("event_type", "TEXT"); ("component", "TEXT"); ("data", "TEXT")]);
    ("alerts",
     [id_column; ("timestamp", "REAL"); ("module", "TEXT"); ("severity", "TEXT");
      ("message", "TEXT"); ("data", "TEXT")]) ].

(** The [indexes] list of [init_database]: name, table, column. *)
Definition indexes : list (string * string * string) :=
  [ ("idx_logcat_timestamp", "logcat_entries", "timestamp");
    ("idx_network_timestamp", "network_stats", "timestamp");
    ("idx_process_timestamp", "process_stats", "timestamp");
    ("idx_memory_timestamp", "memory_stats", "timestamp");
    ("idx_battery_timestamp", "battery_stats", "timestamp");
    ("idx_fs_timestamp", "filesystem_events", "timestamp");
    ("idx_app_timestamp", "app_events", "timestamp");
    ("idx_alerts_timestamp", "alerts", "timestamp") ].

Definition table_stmts : list stmt :=
  map (fun s => CreateTableIfNotExists (fst s) (snd s)) schemas.

Definition index_stmts : list stmt :=
  map (fun i => CreateIndexIfNotExists (fst (fst i)) (snd (fst i)) (snd i)) indexes.

(** [sqlite3.connect(self.db_path)]: a fresh, open connection to the same
    database file. *)
Definition connect : StE Database unit := fun db =>
  (Ok tt, mkDatabase false (db_tables db) (db_indexes db) (db_rows db) (db_log db)).

(** [DatabaseManager.init_database] *)
Definition init_database : StE Database unit :=
  _ ← connect;
  _ ← execute_all table_stmts;
  _ ← execute_all index_stmts;
  commit.

(** [','.join(l)] *)
Fixpoint join (sep : string) (l : list string) : string :=
  match l with
  | [] => EmptyString
  | [s] => s
  | s :: l' => s +:+ sep +:+ join sep l'
  end.

(** The text of the INSERT statement built by [insert_batch]. *)
Definition insert_query (table : string) (columns : list string) : string :=
  "INSERT INTO " +:+ table +:+ " (" +:+ join "," columns +:+ ") VALUES ("
    +:+ join "," (map (fun _ => "?") columns) +:+ ")".

(** [DatabaseManager.insert_batch] *)
Definition insert_batch (table : string) (data : list row) : StE Database unit :=
  match data with
  | [] => mret tt
  | first :: _ =>
      let columns := dict_keys first in
      let query := insert_query table columns in
      let values := map (fun r => map (fun col => row_get r col) columns) data in
      _ ← executemany query table columns values;
      commit
  end.

(** [DatabaseManager.close] *)
Definition close : StE Database unit := fun db =>
  (Ok tt, mkDatabase true (db_tables db) (db_indexes db) (db_rows db) (db_log db)).

End DatabaseManager.

(** ** Strings: character classes and the string methods the parsers use *)

Definition code (c : ascii) : N := N_of_ascii c.

(** [str.isspace] and the class [\s] of [re], on code points below 256:
    TAB LF VT FF CR, the separators 28 to 31, space, NEL and NBSP. *)
Definition is_space (c : ascii) : bool :=
  let n := code c in
  ((9 <=? n) && (n <=? 13) || (28 <=? n) && (n <=? 32) || (n =? 133) || (n =? 160))%N.

(** The class [\d] of [re], on code points below 256. *)
Definition is_digit (c : ascii) : bool :=
  let n := code c in ((48 <=? n) && (n <=? 57))%N.

Definition is_char (a c : ascii) : bool := Ascii.eqb a c.
Definition not_char (a c : ascii) : bool := negb (Ascii.eqb a c).
Definition not_space (c : ascii) : bool := negb (is_space c).
Definition newline : ascii := "010"%char.

Fixpoint string_forall (p : ascii -> bool) (s : string) : bool :=
  match s with
  | EmptyString => true
  | String c s' => p c && string_forall p s'
  end.

(** The first [n] characters of [s]. *)
Fixpoint string_take (n : nat) (s : string) : string :=
  match n, s with
  | S n', String c s' => String c (string_take n' s')
  | _, _ => EmptyString
  end.

Fixpoint lstrip (s : string) : string :=
  match s with
  | String c s' => if is_space c then lstrip s' else s
  | EmptyString => EmptyString
  end.

Fixpoint rstrip (s : string) : string :=
  match s with
  | EmptyString => EmptyString
  | String c s' =>
      match rstrip s' with
      | EmptyString => if is_space c then EmptyString else String c EmptyString
      | r => String c r
      end
  end.

(** [s.strip()] *)
Definition strip (s : string) : string := rstrip (lstrip s).

(** [s.split(sep)] for a one-character separator: empty fields are kept. *)
Fixpoint split_on (sep : ascii) (s : string) : list string :=
  match s with
  | EmptyString => [EmptyString]
  | String c s' =>
      if Ascii.eqb c sep then EmptyString :: split_on sep s'
      else match split_on sep s' with
           | f :: fs => String c f :: fs
           | [] => [String c EmptyString]
           end
  end.

(** [s.split()]: the maximal runs of non-whitespace characters. *)
Fixpoint split_ws_aux (cur : string) (s : string) : list string :=
  match s with
  | EmptyString => match cur with EmptyString => [] | _ => [cur] end
  | String c s' =>
      if is_space c
      then match cur with
           | EmptyString => split_ws_aux EmptyString s'
           | _ => cur :: split_ws_aux EmptyString s'
           end
      else split_ws_aux (cur +:+ String c EmptyString) s'
  end.

Definition split_ws (s : string) : list string := split_ws_aux EmptyString s.

(** [s.replace(a, b)] for one-character [a] and [b]. *)
Fixpoint replace_char (a b : ascii) (s : string) : string :=
  match s with
  | EmptyString => EmptyString
  | String c s' => String (if Ascii.eqb c a then b else c) (replace_char a b s')
  end.

Fixpoint int_digits (acc : Z) (s : string) : option Z :=
  match s with
  | EmptyString => Some acc
  | String c s' =>
      if is_digit c then int_digits (10 * acc + Z.of_N (code c - 48)) s'
      else None
  end.

(** [int(s)] for a string of decimal digits; anything else is a
    [ValueError] (signs, blanks and underscores never reach it here). *)
Definition int_of_string {S : Type} (s : string) : StE S Z :=
  match s with
  | EmptyString => raise ValueError
  | _ => match int_digits 0 s with
         | Some z => mret z
         | None => raise ValueError
         end
  end.

(** [l[i]] *)
Definition getitem {S A : Type} (l : list A) (i : nat) : StE S A :=
  match l !! i with
  | Some x => mret x
  | None => raise IndexError
  end.

(** ** Regular expressions: a backtracking matcher in continuation style

    A pattern takes the continuation that matches what follows it and the
    text still to be read, and gives the captured groups of the first match
    in the order in which [re] tries them: a greedy repetition takes the
    longest run first and gives characters back one at a time. *)

Definition cont : Type := string -> option (list string).
Definition regex : Type := cont -> cont.

(** One character of a class. *)
Definition chr (p : ascii -> bool) : regex := fun k s =>
  match s with
  | String c s' => if p c then k s' else None
  | EmptyString => None
  end.

(** A literal text. *)
Fixpoint lit (t : string) : regex := fun k =>
  match t with
  | EmptyString => k
  | String c t' => chr (is_char c) (lit t' k)
  end.

(** [p*], greedy. *)
Fixpoint star (p : ascii -> bool) (k : cont) (s : string) : option (list string) :=
  match s with
  | String c s' =>
      if p c
      then match star p k s' with
           | Some g => Some g
           | None => k s
           end
      else k s
  | EmptyString => k s
  end.

(** [p+], greedy. *)
Definition plus (p : ascii -> bool) : regex := fun k => chr p (star p k).

(** [p{n}] *)
Fixpoint rep (n : nat) (p : ascii -> bool) : regex := fun k =>
  match n with
  | O => k
  | S n' => chr p (rep n' p k)
  end.

(** [r1 r2 ... rn] *)
Fixpoint sequence (rs : list regex) : regex := fun k =>
  match rs with
  | [] => k
  | r :: rs' => r (sequence rs' k)
  end.

(** [(r)]: the text that [r] consumed is captured. *)
Definition group (r : regex) : regex := fun k s =>
  r (fun rest =>
       match k rest with
       | Some g => Some (string_take (String.length s - String.length rest) s :: g)
       | None => None
       end) s.

(** [.]: any character but a newline. *)
Definition dot (c : ascii) : bool := not_char newline c.

(** [pattern.match(s)]: a match that starts at the first character. *)
Definition re_match (r : regex) (s : string) : option (list string) :=
  r (fun _ => Some []) s.

(** [re.search(pattern, s)]: the match at the leftmost position that has one. *)
Fixpoint re_search (r : regex) (s : string) : option (list string) :=
  match re_match r s with
  | Some g => Some g
  | None =>
      match s with
      | EmptyString => None
      | String _ s' => re_search r s'
      end
  end.

(** ** Calendar, clock and the process environment *)

(** A naive [datetime]. *)
Record datetime : Type := mkDatetime {
  dt_year : Z; dt_month : Z; dt_day : Z;
  dt_hour : Z; dt_minute : Z; dt_second : Z
}.

Definition is_leap (y : Z) : bool :=
  ((y mod 4 =? 0) && (negb (y mod 100 =? 0) || (y mod 400 =? 0)))%Z.

Definition days_in_month (y m : Z) : Z :=
  (if m =? 2 then (if is_leap y then 29 else 28)
   else if (m =? 4) || (m =? 6) || (m =? 9) || (m =? 11) then 30
   else 31)%Z.

Definition valid_datetime (d : datetime) : bool :=
  ((1 <=? dt_year d) && (dt_year d <=? 9999)
   && (1 <=? dt_month d) && (dt_month d <=? 12)
   && (1 <=? dt_day d) && (dt_day d <=? days_in_month (dt_year d) (dt_month d))
   && (0 <=? dt_hour d) && (dt_hour d <=? 23)
   && (0 <=? dt_minute d) && (dt_minute d <=? 59)
   && (0 <=? dt_second d) && (dt_second d <=? 59))%Z.

(** [datetime(year, month, day, hour, minute, second)]: a field out of
    range is a [ValueError]. *)
Definition make_datetime {S : Type} (y m d h mi s : Z) : StE S datetime :=
  let dt := mkDatetime y m d h mi s in
  if valid_datetime dt then mret dt else raise ValueError.

(** What the interpreter and the operating system provide and the model
    does not look into: the time zone ([datetime.timestamp] of a naive
    datetime, the year of the local date of an instant), the printing of a
    float with a number of decimals, and [json.dumps]. *)
Class Platform : Type := {
  local_epoch : datetime -> Q;
  local_year : Q -> Z;
  format_float : nat -> Q -> string;
  json_dumps : row -> string
}.

(** What a collector thread shares with the rest of the process: the store,
    the wall clock (its [n]-th reading is [w_clock n]) and the diagnostics
    written by [logging.error]. *)
Record World : Type := mkWorld {
  w_db : DatabaseManager.Database;
  w_clock : nat -> Q;
  w_time_calls : nat;
  w_errors : list exn
}.

Definition set_db (db : DatabaseManager.Database) (w : World) : World :=
  mkWorld db (w_clock w) (w_time_calls w) (w_errors w).

(** [time.time()] *)
Definition time_time : StE World Q := fun w =>
  (Ok (w_clock w (w_time_calls w)),
   mkWorld (w_db w) (w_clock w) (S (w_time_calls w)) (w_errors w)).

(** [logging.error(f"... {e}")] *)
Definition logging_error (e : exn) : StE World unit := fun w =>
  (Ok tt, mkWorld (w_db w) (w_clock w) (w_time_calls w) (w_errors w ++ [e])).

(** [self.db.insert_batch(table, data)] *)
Definition db_insert_batch (table : string) (data : list row) : StE World unit :=
  zoom w_db set_db (DatabaseManager.insert_batch table data).

(** A collector object: its own fields next to the shared world. *)
Class Collector (S : Type) : Type := {
  world : S -> World;
  set_world : World -> S -> S
}.

Definition in_world {S A : Type} `{Collector S} (m : StE World A) : StE S A :=
  zoom world set_world m.

#[global] Instance World_collector : Collector World :=
  {| world := fun w => w; set_world := fun w _ => w |}.

(** [try: body  except Exception as e: logging.error(...)]: the value of
    [body], or [fallback] once the exception has been logged. *)
Definition try_except {S A : Type} `{Collector S} (body : StE S A) (fallback : A)
  : S -> A * S :=
  fun s =>
  match body s with
  | (Ok a, s') => (a, s')
  | (Raise e, s') => (fallback, snd (in_world (logging_error e) s'))
  end.

(** [[f(x) for x in l]] *)
Fixpoint list_comprehension {S A B : Type} (f : A -> StE S B) (l : list A)
  : StE S (list B) :=
  match l with
  | [] => mret []
  | x :: l' => y ← f x; ys ← list_comprehension f l'; mret (y :: ys)
  end.

(** [MonitorConfig]: the fields the collectors below read. *)
Record MonitorConfig : Type := mkConfig {
  logcat_buffer_size : nat;
  network_interfaces : list string;
  memory_detailed : bool;
  alert_memory_threshold : Q;
  alert_network_threshold : Q
}.

(** The defaults of the dataclass. *)
Definition default_config : MonitorConfig :=
  mkConfig 1000 [] true 85 100.

(** An alert row, as the [_create_alert] methods build it. *)
Definition alert_row (timestamp : Q) (module message data : string) : row :=
  [ ("timestamp", VFloat timestamp); ("module", VStr module);
    ("severity", VStr "WARNING"); ("message", VStr message);
    ("data", VStr data) ].

(** [x > y] on floats. *)
Definition Qgtb (x y : Q) : bool := negb (Qle_bool x y).

(** [deque(maxlen=n).append(x)]: the oldest entries fall out. *)
Definition deque_append {A : Type} (maxlen : nat) (x : A) (d : list A) : list A :=
  let d' := d ++ [x] in drop (length d' - maxlen) d'.

(** [l[start:]]: a negative [start] counts from the end, and a [start]
    beyond either end is clipped. *)
Definition slice_from {A : Type} (start : Z) (l : list A) : list A :=
  let n := Z.of_nat (length l) in
  let i := if (start <? 0)%Z then Z.max (n + start) 0 else Z.min start n in
  drop (Z.to_nat i) l.

(** [l[:stop]]: a negative [stop] counts from the end, and a [stop] beyond
    either end is clipped. *)
Definition slice_to {A : Type} (stop : Z) (l : list A) : list A :=
  let n := Z.of_nat (length l) in
  let i := if (stop <? 0)%Z then Z.max (n + stop) 0 else Z.min stop n in
  take (Z.to_nat i) l.

(** [l.sort(key=key, reverse=True)] for keys that are floats: the sort is
    stable, so that elements with equal keys keep their order, which fixes
    its result; it is written here as an insertion from the right. *)
Fixpoint insert_descending {A : Type} (key : A -> Q) (x : A) (l : list A) : list A :=
  match l with
  | [] => [x]
  | y :: l' =>
      if Qgtb (key y) (key x) then y :: insert_descending key x l' else x :: l
  end.

Definition sort_descending {A : Type} (key : A -> Q) (l : list A) : list A :=
  foldr (insert_descending key) [] l.

(** [str(n)] for an [int]. *)
Definition str_of_int (n : Z) : string := NilZero.string_of_int (Z.to_int n).

(** [s.split(sep, 1)] for a one-character separator, when [sep] is in
    [s]: what is before the first [sep] and what is after it. *)
Fixpoint split_once (sep : ascii) (s : string) : option (string * string) :=
  match s with
  | EmptyString => None
  | String c s' =>
      if Ascii.eqb c sep then Some (EmptyString, s')
      else match split_once sep s' with
           | Some (a, b) => Some (String c a, b)
           | None => None
           end
  end.

(** The digits of an [int] literal: an underscore may stand between two
    digits. *)
Fixpoint int_literal (acc : Z) (after_digit : bool) (s : string) : option Z :=
  match s with
  | EmptyString => if after_digit then Some acc else None
  | String c s' =>
      if is_digit c then int_literal (10 * acc + Z.of_N (code c - 48)) true s'
      else if Ascii.eqb c "_" then
             (if after_digit then int_literal acc false s' else None)
           else None
  end.

(** [int(s)] for any string: white space around the number is dropped, a
    sign may come first; anything else is a [ValueError]. *)
Definition int_of_text {S : Type} (s : string) : StE S Z :=
  let number :=
    match strip s with
    | String "-" s' => Z.opp <$> int_literal 0 false s'
    | String "+" s' => int_literal 0 false s'
    | s' => int_literal 0 false s'
    end in
  match number with
  | Some z => mret z
  | None => raise ValueError
  end.

(** What [str] prints for a float, which the model does not look into. *)
Class FloatStr : Type := float_str : Q -> string.
(** What [readline] gives a push-style loop at one iteration, with the
    value of [self.running] that the iteration then reads; [EOF] is the
    empty string that ends [iter(readline, '')]. *)
Inductive read : Type :=
| Line (line : string) (running : bool)
| EOF.

(** ** [LogcatMonitor] *)

Module LogcatMonitor.
Section WithPlatform.
Context {P : Platform}.

Record LogEntry : Type := mkLogEntry {
  timestamp : Q;
  level : string;
  tag : string;
  pid : Z;
  message : string;
  raw_entry : string
}.

Definition to_row (e : LogEntry) : row :=
  [ ("timestamp", VFloat (timestamp e)); ("level", VStr (level e));
    ("tag", VStr (tag e)); ("pid", VInt (pid e));
    ("message", VStr (message e)); ("raw_entry", VStr (raw_entry e)) ].

Record Self : Type := mkSelf {
  buffer : list LogEntry;
  self_world : World
}.

#[global] Instance Self_collector : Collector Self :=
  {| world := self_world; set_world := fun w s => mkSelf (buffer s) w |}.

(** [[VDIWEF]] *)
Definition is_level (c : ascii) : bool :=
  existsb (Ascii.eqb c) (list_ascii_of_string "VDIWEF").

(** [self.log_pattern]:
    [(\d{2}-\d{2}\s+\d{2}:\d{2}:\d{2}\.\d{3})\s+(\d+)\s+(\d+)\s+([VDIWEF])\s+([^:]+):\s*]
    followed by a last group that takes the rest of the line. *)
Definition log_pattern : regex :=
  sequence [ group (sequence [ rep 2 is_digit; lit "-"; rep 2 is_digit; plus is_space;
                     rep 2 is_digit; lit ":"; rep 2 is_digit; lit ":";
                     rep 2 is_digit; lit "."; rep 3 is_digit ]);
        plus is_space; group (plus is_digit);
        plus is_space; group (plus is_digit);
        plus is_space; group (chr is_level);
        plus is_space; group (plus (not_char ":"));
        lit ":"; star is_space; group (star dot) ].

(** [LogcatMonitor._parse_logcat_line]; [datetime.now()] is a reading of
    the clock, of which only the local year is used. *)
Definition _parse_logcat_line (line : string) : StE World (option LogEntry) :=
  match re_match log_pattern line with
  | Some [timestamp_str; pid; tid; level; tag; message] =>
      now ← time_time;
      let time_parts := split_ws timestamp_str in
      date_str ← getitem time_parts 0;
      let date_parts := split_on "-" date_str in
      time_str ← getitem time_parts 1;
      month_str ← getitem date_parts 0;
      month ← int_of_string month_str;
      day_str ← getitem date_parts 1;
      day ← int_of_string day_str;
      hms ← list_comprehension int_of_string
             (split_ws (replace_char "." " " (replace_char ":" " " time_str)));
      let hms := take 3 hms in
      dt ← make_datetime (local_year now) month day
             (nth 0 hms 0%Z) (nth 1 hms 0%Z) (nth 2 hms 0%Z);
      pid ← int_of_string pid;
      mret (Some (mkLogEntry (local_epoch dt) level tag pid message line))
  | _ => mret None
  end.

(** The state of the thread that runs [_monitor_loop]: inside the [for]
    loop with its local variables, or past the end of the function. *)
Inductive thread : Type :=
| Active (batch : list LogEntry) (last_flush : Q)
| Finished.

Definition buffer_append (cfg : MonitorConfig) (e : LogEntry) : StE Self unit :=
  fun s => (Ok tt, mkSelf (deque_append (logcat_buffer_size cfg) e (buffer s))
                          (self_world s)).

(** [self.db.insert_batch('logcat_entries', batch)] *)
Definition flush (batch : list LogEntry) : StE Self unit :=
  in_world (db_insert_batch "logcat_entries" (map to_row batch)).

(** The code after the [for] loop: [if batch: insert_batch(...)]. *)
Definition final_flush (batch : list LogEntry) : StE Self thread :=
  _ ← match batch with
      | [] => mret tt
      | _ => flush batch
      end;
  mret Finished.

(** [len(batch) >= 100 or time.time() - last_flush > 5] *)
Definition flush_due (batch : list LogEntry) (last_flush : Q) : StE Self bool :=
  if (100 <=? length batch)%nat then mret true
  else now ← in_world time_time; mret (Qgtb (now - last_flush) 5).

(** The body of the [for] loop once [self.running] has been read as true. *)
Definition iteration (cfg : MonitorConfig) (line : string)
    (batch : list LogEntry) (last_flush : Q) : StE Self thread :=
  entry ← in_world (_parse_logcat_line (strip line));
  match entry with
  | Some entry =>
      _ ← buffer_append cfg entry;
      let batch := batch ++ [entry] in
      due ← flush_due batch last_flush;
      if due : bool
      then
        _ ← flush batch;
        last_flush ← in_world time_time;
        mret (Active [] last_flush)
      else mret (Active batch last_flush)
  | None => mret (Active batch last_flush)
  end.

(** One read of the stream. An exception anywhere leaves the [try] block,
    which encloses the whole loop: it is logged and the function ends. *)
Definition step (cfg : MonitorConfig) (r : read) (ts : thread * Self)
  : thread * Self :=
  match ts with
  | (Finished, s) => (Finished, s)
  | (Active batch last_flush, s) =>
      try_except
        match r with
        | EOF => final_flush batch
        | Line line running =>
            if running then iteration cfg line batch last_flush
            else final_flush batch
        end
        Finished s
  end.

(** The start of [_monitor_loop]: [subprocess.Popen], whose outcome is
    [popen], then the initial values of the loop's variables. *)
Definition start (popen : result unit) (s : Self) : thread * Self :=
  try_except
    (_ ← outcome popen;
     last_flush ← in_world time_time;
     mret (Active [] last_flush))
    Finished s.

(** [LogcatMonitor._monitor_loop] on the reads of the stream so far. *)
Definition _monitor_loop (cfg : MonitorConfig) (popen : result unit)
    (reads : list read) (s : Self) : thread * Self :=
  fold_left (fun ts r => step cfg r ts) reads (start popen s).

(** [LogcatMonitor.get_recent_logs]: [list(self.buffer)[-count:]] *)
Definition get_recent_logs (count : Z) (s : Self) : list LogEntry :=
  slice_from (- count) (buffer s).

End WithPlatform.
End LogcatMonitor.

(** ** [AppMonitor] *)

Module AppMonitor.

Record AppEvent : Type := mkAppEvent {
  timestamp : Q;
  package_name : string;
  event_type : string;
  component : string;
  data : string
}.

Definition to_row (e : AppEvent) : row :=
  [ ("timestamp", VFloat (timestamp e)); ("package_name", VStr (package_name e));
    ("event_type", VStr (event_type e)); ("component", VStr (component e));
    ("data", VStr (data e)) ].

(** The [patterns] dictionary of [_parse_app_event], in its order:
    [START.*cmp=([^/]+)/([^\s]+)], [Displayed ([^:]+): \+(\d+)ms],
    [Force stopping ([^\s]+)], [Process ([^\s]+).*has crashed],
    [ANR in ([^\s]+)]. *)
Definition patterns : list (string * regex) :=
  [ ("start_activity",
     sequence [ lit "START"; star dot; lit "cmp="; group (plus (not_char "/"));
           lit "/"; group (plus not_space) ]);
    ("displayed",
     sequence [ lit "Displayed "; group (plus (not_char ":")); lit ": +";
           group (plus is_digit); lit "ms" ]);
    ("force_stop", sequence [ lit "Force stopping "; group (plus not_space) ]);
    ("crash",
     sequence [ lit "Process "; group (plus not_space); star dot; lit "has crashed" ]);
    ("anr", sequence [ lit "ANR in "; group (plus not_space) ]) ].

(** The [for] loop of [_parse_app_event] over [patterns.items()]. *)
Fixpoint first_event (timestamp : Q) (line : string) (ps : list (string * regex))
  : StE World (option AppEvent) :=
  match ps with
  | [] => mret None
  | (event_type, pattern) :: ps' =>
      match re_search pattern line with
      | Some groups =>
          if String.eqb event_type "start_activity" then
            g1 ← getitem groups 0;
            g2 ← getitem groups 1;
            mret (Some (mkAppEvent timestamp g1 "start_activity" g2 line))
          else if String.eqb event_type "displayed" then
            g1 ← getitem groups 0;
            package ← getitem (split_on "/" g1) 0;
            g2 ← getitem groups 1;
            mret (Some (mkAppEvent timestamp package "activity_displayed" g1
                          ("Launch time: " +:+ g2 +:+ "ms")))
          else if existsb (String.eqb event_type) ["force_stop"; "crash"; "anr"] then
            g1 ← getitem groups 0;
            mret (Some (mkAppEvent timestamp g1 event_type EmptyString line))
          else first_event timestamp line ps'
      | None => first_event timestamp line ps'
      end
  end.

(** [AppMonitor._parse_app_event] *)
Definition _parse_app_event (line : string) : StE World (option AppEvent) :=
  timestamp ← time_time;
  first_event timestamp line patterns.

Inductive thread : Type :=
| Active (batch : list AppEvent) (last_flush : Q)
| Finished.

(** [self.db.insert_batch('app_events', batch)] *)
Definition flush (batch : list AppEvent) : StE World unit :=
  db_insert_batch "app_events" (map to_row batch).

Definition final_flush (batch : list AppEvent) : StE World thread :=
  _ ← match batch with
      | [] => mret tt
      | _ => flush batch
      end;
  mret Finished.

(** [len(batch) >= 50 or time.time() - last_flush > 5] *)
Definition flush_due (batch : list AppEvent) (last_flush : Q) : StE World bool :=
  if (50 <=? length batch)%nat then mret true
  else now ← time_time; mret (Qgtb (now - last_flush) 5).

Definition iteration (line : string) (batch : list AppEvent) (last_flush : Q)
  : StE World thread :=
  event ← _parse_app_event (strip line);
  match event with
  | Some event =>
      let batch := batch ++ [event] in
      due ← flush_due batch last_flush;
      if due : bool
      then
        _ ← flush batch;
        last_flush ← time_time;
        mret (Active [] last_flush)
      else mret (Active batch last_flush)
  | None => mret (Active batch last_flush)
  end.

Definition step (r : read) (ts : thread * World) : thread * World :=
  match ts with
  | (Finished, w) => (Finished, w)
  | (Active batch last_flush, w) =>
      try_except
        match r with
        | EOF => final_flush batch
        | Line line running =>
            if running then iteration line batch last_flush
            else final_flush batch
        end
        Finished w
  end.

Definition start (popen : result unit) (w : World) : thread * World :=
  try_except
    (_ ← outcome popen;
     last_flush ← time_time;
     mret (Active [] last_flush))
    Finished w.

(** [AppMonitor._monitor_loop] on the reads of the stream so far. *)
Definition _monitor_loop (popen : result unit) (reads : list read) (w : World)
  : thread * World :=
  fold_left (fun ts r => step r ts) reads (start popen w).

End AppMonitor.

(** ** [NetworkMonitor] *)

Module NetworkMonitor.
Section WithPlatform.
Context {P : Platform}.

(** One entry of [psutil.net_io_counters(pernic=True)]. *)
Record counters : Type := mkCounters {
  c_bytes_sent : Z; c_bytes_recv : Z;
  c_packets_sent : Z; c_packets_recv : Z;
  c_errin : Z; c_errout : Z
}.

Record NetworkSample : Type := mkSample {
  timestamp : Q;
  interface : string;
  bytes_sent : Z;
  bytes_recv : Z;
  packets_sent : Z;
  packets_recv : Z;
  errors_in : Z;
  errors_out : Z
}.

Definition to_row (s : NetworkSample) : row :=
  [ ("timestamp", VFloat (timestamp s)); ("interface", VStr (interface s));
    ("bytes_sent", VInt (bytes_sent s)); ("bytes_recv", VInt (bytes_recv s));
    ("packets_sent", VInt (packets_sent s)); ("packets_recv", VInt (packets_recv s));
    ("errors_in", VInt (errors_in s)); ("errors_out", VInt (errors_out s)) ].

Record Self : Type := mkSelf {
  last_stats : gmap string NetworkSample;
  self_world : World
}.

#[global] Instance Self_collector : Collector Self :=
  {| world := self_world; set_world := fun w s => mkSelf (last_stats s) w |}.

(** [self.last_stats[iface] = stat] *)
Definition set_last_stats (iface : string) (stat : NetworkSample) : StE Self unit :=
  fun s => (Ok tt, mkSelf (<[iface := stat]> (last_stats s)) (self_world s)).

(** [NetworkMonitor._collect_network_stats] on the counters that [psutil]
    reports: [self.config.network_interfaces or list(net_io.keys())]. The
    optional [_monitor_connections] writes debug messages only and catches
    its own exceptions; it is left out. *)
Definition _collect_network_stats (cfg : MonitorConfig)
    (net_io : result (list (string * counters))) : StE Self (list NetworkSample) :=
  timestamp ← in_world time_time;
  net_io ← outcome net_io;
  let interfaces :=
    match network_interfaces cfg with
    | [] => dict_keys net_io
    | l => l
    end in
  mret (omap (fun iface =>
                match dict_get net_io iface with
                | Some c => Some (mkSample timestamp iface
                                    (c_bytes_sent c) (c_bytes_recv c)
                                    (c_packets_sent c) (c_packets_recv c)
                                    (c_errin c) (c_errout c))
                | None => None
                end) interfaces).

(** [NetworkMonitor._create_alert] *)
Definition _create_alert (alert_type message : string) (data : row) : StE Self unit :=
  now ← in_world time_time;
  in_world (db_insert_batch "alerts" [alert_row now "network" message (json_dumps data)]).

(** [stat['timestamp'] - self.last_stats[iface]['timestamp']] *)
Definition time_diff (last stat : NetworkSample) : Q :=
  timestamp stat - timestamp last.

(** The local [bytes_rate] of [_check_thresholds], in bytes per second. *)
Definition bytes_rate (last stat : NetworkSample) : Q :=
  inject_Z ((bytes_sent stat - bytes_sent last) + (bytes_recv stat - bytes_recv last))
  / time_diff last stat.

(** The local [mb_rate] of [_check_thresholds]. *)
Definition mb_rate (last stat : NetworkSample) : Q :=
  bytes_rate last stat / inject_Z (1024 * 1024).

(** The body of the [for] loop of [_check_thresholds]. *)
Definition check_stat (cfg : MonitorConfig) (stat : NetworkSample) : StE Self unit :=
  let iface := interface stat in
  self ← get_state;
  _ ← match last_stats self !! iface with
      | Some last =>
          if Qgtb (time_diff last stat) 0
          then
            if Qgtb (mb_rate last stat) (alert_network_threshold cfg)
            then _create_alert "HIGH_NETWORK_USAGE"
                   ("Network usage on " +:+ iface +:+ ": "
                      +:+ format_float 2 (mb_rate last stat) +:+ " MB/s")
                   [ ("interface", VStr iface);
                     ("rate_mbps", VFloat (mb_rate last stat)) ]
            else mret tt
          else mret tt
      | None => mret tt
      end;
  set_last_stats iface stat.

(** [NetworkMonitor._check_thresholds] *)
Definition _check_thresholds (cfg : MonitorConfig) (stats : list NetworkSample)
  : StE Self unit :=
  for_each stats (check_stat cfg).

(** What one pass of the [while] loop meets: the value of [self.running]
    it tests and what [psutil] reports. *)
Record tick : Type := mkTick {
  running : bool;
  net_io : result (list (string * counters))
}.

(** The [try] block of the loop body. *)
Definition poll (cfg : MonitorConfig) (t : tick) : StE Self unit :=
  stats ← _collect_network_stats cfg (net_io t);
  match stats with
  | [] => mret tt
  | _ =>
      _ ← in_world (db_insert_batch "network_stats" (map to_row stats));
      _check_thresholds cfg stats
  end.

(** [NetworkMonitor._monitor_loop]: the [try] is inside the [while], so an
    exception ends one pass, not the loop. The loop is over when the list
    of ticks is used up or [self.running] is read as false. *)
Fixpoint _monitor_loop (cfg : MonitorConfig) (ticks : list tick) (s : Self) : Self :=
  match ticks with
  | [] => s
  | t :: ticks' =>
      if running t
      then _monitor_loop cfg ticks' (snd (try_except (poll cfg t) tt s))
      else s
  end.

End WithPlatform.
End NetworkMonitor.

(** ** [MemoryMonitor] *)

Module MemoryMonitor.
Section WithPlatform.
Context {P : Platform}.

(** What [psutil.virtual_memory()], [psutil.swap_memory()] and
    [_parse_meminfo] report: the last as (key of /proc/meminfo, bytes). *)
Record reading : Type := mkReading {
  r_total : Z; r_available : Z; r_percent : Q; r_used : Z; r_free : Z;
  r_swap_total : Z; r_swap_used : Z; r_swap_free : Z;
  r_meminfo : list (string * Z)
}.

(** The [stats] dictionary: its nine fixed keys and the [meminfo_*] keys
    that [stats.update(meminfo)] added. *)
Record MemoryStats : Type := mkStats {
  timestamp : Q;
  total : Z; available : Z; percent : Q; used : Z; free : Z;
  swap_total : Z; swap_used : Z; swap_free : Z;
  extended : list (string * Z)
}.

Definition to_row (s : MemoryStats) : row :=
  fold_left (fun d kv => dict_set ("meminfo_" +:+ fst kv) (VInt (snd kv)) d)
    (extended s)
    [ ("timestamp", VFloat (timestamp s)); ("total", VInt (total s));
      ("available", VInt (available s)); ("percent", VFloat (percent s));
      ("used", VInt (used s)); ("free", VInt (free s));
      ("swap_total", VInt (swap_total s)); ("swap_used", VInt (swap_used s));
      ("swap_free", VInt (swap_free s)) ].

(** [MemoryMonitor._collect_memory_stats] *)
Definition _collect_memory_stats (cfg : MonitorConfig) (r : result reading)
  : StE World MemoryStats :=
  r ← outcome r;
  timestamp ← time_time;
  mret (mkStats timestamp (r_total r) (r_available r) (r_percent r) (r_used r)
          (r_free r) (r_swap_total r) (r_swap_used r) (r_swap_free r)
          (if memory_detailed cfg then r_meminfo r else [])).

(** [MemoryMonitor._create_alert] *)
Definition _create_alert (alert_type message : string) (data : row) : StE World unit :=
  now ← time_time;
  db_insert_batch "alerts" [alert_row now "memory" message (json_dumps data)].

(** [MemoryMonitor._check_thresholds] *)
Definition _check_thresholds (cfg : MonitorConfig) (stats : MemoryStats)
  : StE World unit :=
  if Qgtb (percent stats) (alert_memory_threshold cfg)
  then _create_alert "HIGH_MEMORY_USAGE"
         ("System memory usage: " +:+ format_float 1 (percent stats) +:+ "%")
         (to_row stats)
  else mret tt.

Record tick : Type := mkTick {
  running : bool;
  psutil_reading : result reading
}.

(** The [try] block of the loop body; [if stats:] holds of a dictionary
    that has keys. *)
Definition poll (cfg : MonitorConfig) (t : tick) : StE World unit :=
  stats ← _collect_memory_stats cfg (psutil_reading t);
  _ ← db_insert_batch "memory_stats" [to_row stats];
  _check_thresholds cfg stats.

(** [MemoryMonitor._monitor_loop] *)
Fixpoint _monitor_loop (cfg : MonitorConfig) (ticks : list tick) (w : World) : World :=
  match ticks with
  | [] => w
  | t :: ticks' =>
      if running t
      then _monitor_loop cfg ticks' (snd (try_except (poll cfg t) tt w))
      else w
  end.

(** [meminfo[f'meminfo_{key}'] = bytes]; the keys are kept without their
    [meminfo_] prefix, which [to_row] adds. *)
Definition set_meminfo (key : string) (bytes : Z) : StE (list (string * Z)) unit :=
  fun meminfo => (Ok tt, dict_set key bytes meminfo).

(** The body of the loop of [_parse_meminfo] over the lines of the file,
    on the dictionary [meminfo]. *)
Definition parse_meminfo_line (line : string) : StE (list (string * Z)) unit :=
  match split_on ":" (strip line) with
  | [key; rest] =>
      value ← getitem (split_ws (strip rest)) 0;
      n ← int_of_text value;
      set_meminfo key (n * 1024)
  | _ => mret tt
  end.

(** [MemoryMonitor._parse_meminfo] on the outcome of opening and reading
    /proc/meminfo: an exception is logged, and the dictionary is returned
    as it then is. *)
Definition _parse_meminfo (file : result (list string)) : StE World (list (string * Z)) :=
  let (outcome, meminfo) :=
    (lines ← outcome file; for_each lines parse_meminfo_line) [] in
  _ ← match outcome with
      | Ok _ => mret tt
      | Raise e => logging_error e
      end;
  mret meminfo.

End WithPlatform.
End MemoryMonitor.

(** ** [FilesystemMonitor] *)

Module FilesystemMonitor.

(** The value that a scan keeps for a path. *)
Record file_stat : Type := mkFileStat {
  fs_size : Z;
  fs_mtime : Q;
  fs_permissions : string;
  fs_owner : Z
}.

Record FilesystemEvent : Type := mkEvent {
  timestamp : Q;
  event_type : string;
  path : string;
  size : Z;
  permissions : string;
  owner : string
}.

Definition to_row (e : FilesystemEvent) : row :=
  [ ("timestamp", VFloat (timestamp e)); ("event_type", VStr (event_type e));
    ("path", VStr (path e)); ("size", VInt (size e));
    ("permissions", VStr (permissions e)); ("owner", VStr (owner e)) ].

(** A snapshot: a dictionary from path to [file_stat], in insertion order. *)
Definition snapshot : Type := list (string * file_stat).

Record Self : Type := mkSelf {
  file_stats : snapshot;
  self_world : World
}.

#[global] Instance Self_collector : Collector Self :=
  {| world := self_world; set_world := fun w s => mkSelf (file_stats s) w |}.

(** [str(n)] for an [int]. *)
Definition str (n : Z) : string := NilZero.string_of_int (Z.to_int n).

(** The loop over the watch roots with [_scan_current_path]: [stated] is
    the sequence of (path, [os.stat] result) that the walk meets, and each
    is stored into the dictionary. *)
Definition scan_into (stated : list (string * file_stat)) (d : snapshot) : snapshot :=
  fold_left (fun d ps => dict_set (fst ps) (snd ps) d) stated d.

(** [FilesystemMonitor._scan_directories]: the initial scan, into
    [self.file_stats]. *)
Definition _scan_directories (stated : list (string * file_stat)) : StE Self unit :=
  fun s => (Ok tt, mkSelf (scan_into stated (file_stats s)) (self_world s)).

Definition created_event (timestamp : Q) (path : string) (new_stat : file_stat)
  : FilesystemEvent :=
  mkEvent timestamp "created" path (fs_size new_stat) (fs_permissions new_stat)
          (str (fs_owner new_stat)).

Definition modified_event (timestamp : Q) (path : string) (new_stat : file_stat)
  : FilesystemEvent :=
  mkEvent timestamp "modified" path (fs_size new_stat) (fs_permissions new_stat)
          (str (fs_owner new_stat)).

Definition deleted_event (timestamp : Q) (path : string) : FilesystemEvent :=
  mkEvent timestamp "deleted" path 0 EmptyString EmptyString.

(** The three [for] loops of [_detect_changes], in their order. *)
Definition new_files (timestamp : Q) (previous current : snapshot)
  : list FilesystemEvent :=
  omap (fun ps => if dict_mem previous (fst ps) then None
                  else Some (created_event timestamp (fst ps) (snd ps))) current.

Definition modified_files (timestamp : Q) (previous current : snapshot)
  : list FilesystemEvent :=
  omap (fun ps => match dict_get previous (fst ps) with
                  | Some old_stat =>
                      if negb (Qeq_bool (fs_mtime old_stat) (fs_mtime (snd ps)))
                      then Some (modified_event timestamp (fst ps) (snd ps))
                      else None
                  | None => None
                  end) current.

Definition deleted_files (timestamp : Q) (previous current : snapshot)
  : list FilesystemEvent :=
  omap (fun ps => if dict_mem current (fst ps) then None
                  else Some (deleted_event timestamp (fst ps))) previous.

(** [FilesystemMonitor._detect_changes] *)
Definition _detect_changes (stated : list (string * file_stat))
  : StE Self (list FilesystemEvent) :=
  timestamp ← in_world time_time;
  let current_stats := scan_into stated [] in
  self ← get_state;
  let events := new_files timestamp (file_stats self) current_stats
                ++ modified_files timestamp (file_stats self) current_stats
                ++ deleted_files timestamp (file_stats self) current_stats in
  _ ← put_state (mkSelf current_stats (self_world self));
  mret events.

Record tick : Type := mkTick {
  running : bool;
  stated : list (string * file_stat)
}.

(** The [try] block of the loop body. *)
Definition poll (t : tick) : StE Self unit :=
  events ← _detect_changes (stated t);
  match events with
  | [] => mret tt
  | _ => in_world (db_insert_batch "filesystem_events" (map to_row events))
  end.

Fixpoint loop (ticks : list tick) (s : Self) : Self :=
  match ticks with
  | [] => s
  | t :: ticks' =>
      if running t then loop ticks' (snd (try_except (poll t) tt s)) else s
  end.

(** [FilesystemMonitor._monitor_loop]: the initial scan, then the loop. *)
Definition _monitor_loop (initial : list (string * file_stat)) (ticks : list tick)
    (s : Self) : Self :=
  loop ticks (snd (_scan_directories initial s)).

End FilesystemMonitor.

(** ** [ProcessMonitor] *)

Module ProcessMonitor.
Section WithPlatform.
Context {P : Platform}.

(** The fields of [MonitorConfig] that the process collector reads. *)
Record ProcessConfig : Type := mkProcessConfig {
  process_top_n : Z;
  process_track_threads : bool;
  alert_cpu_threshold : Q;
  process_alert_memory_threshold : Q
}.

(** The defaults of the dataclass. *)
Definition default_process_config : ProcessConfig :=
  mkProcessConfig 20 true 80 85.

(** What the second loop of [_collect_process_stats] reads of a process:
    [memory_info()], [status()] and, when threads are tracked,
    [num_threads()]. *)
Record details : Type := mkDetails {
  d_rss : Z;
  d_vms : Z;
  d_status : string;
  d_num_threads : Z
}.

(** A process as [psutil] shows it during one pass: the attributes of
    [proc.info] (read as present), the outcome of
    [proc.cpu_percent(interval=0.1)] and the outcome of the calls of the
    second loop, [None] standing for [NoSuchProcess] or [AccessDenied]. *)
Record proc : Type := mkProc {
  p_pid : Z;
  p_name : string;
  p_memory_percent : Q;
  p_cpu_percent : option Q;
  p_details : option details
}.

(** An element of the list [processes]: [proc.info] with its
    [cpu_percent]. *)
Record pinfo : Type := mkPinfo {
  i_proc : proc;
  i_cpu_percent : Q
}.

Record ProcessStat : Type := mkStat {
  timestamp : Q;
  pid : Z;
  name : string;
  cpu_percent : Q;
  memory_percent : Q;
  memory_rss : Z;
  memory_vms : Z;
  status : string;
  num_threads : option Z
}.

Definition to_row (s : ProcessStat) : row :=
  [ ("timestamp", VFloat (timestamp s)); ("pid", VInt (pid s));
    ("name", VStr (name s)); ("cpu_percent", VFloat (cpu_percent s));
    ("memory_percent", VFloat (memory_percent s));
    ("memory_rss", VInt (memory_rss s)); ("memory_vms", VInt (memory_vms s));
    ("status", VStr (status s)) ]
  ++ match num_threads s with
     | Some n => [("num_threads", VInt n)]
     | None => []
     end.

(** The first loop: the processes whose [cpu_percent] could be read. *)
Definition measured (procs : list proc) : list pinfo :=
  omap (fun p => match p_cpu_percent p with
                 | Some c => Some (mkPinfo p c)
                 | None => None
                 end) procs.

(** The body of the second loop, [None] when the process is skipped. *)
Definition stat_of (cfg : ProcessConfig) (timestamp : Q) (i : pinfo)
  : option ProcessStat :=
  match p_details (i_proc i) with
  | Some d =>
      Some (mkStat timestamp (p_pid (i_proc i)) (p_name (i_proc i))
              (i_cpu_percent i) (p_memory_percent (i_proc i))
              (d_rss d) (d_vms d) (d_status d)
              (if process_track_threads cfg then Some (d_num_threads d) else None))
  | None => None
  end.

(** [ProcessMonitor._collect_process_stats] *)
Definition _collect_process_stats (cfg : ProcessConfig) (procs : list proc)
  : StE World (list ProcessStat) :=
  timestamp ← time_time;
  let processes := sort_descending i_cpu_percent (measured procs) in
  mret (omap (stat_of cfg timestamp) (slice_to (process_top_n cfg) processes)).

(** [ProcessMonitor._create_alert] *)
Definition _create_alert (alert_type message : string) (data : row) : StE World unit :=
  now ← time_time;
  db_insert_batch "alerts" [alert_row now "process" message (json_dumps data)].

(** The body of the [for] loop of [_check_thresholds]. *)
Definition check_stat (cfg : ProcessConfig) (stat : ProcessStat) : StE World unit :=
  _ ← (if Qgtb (cpu_percent stat) (alert_cpu_threshold cfg)
       then _create_alert "HIGH_CPU_USAGE"
              ("Process " +:+ name stat +:+ " (PID: " +:+ str_of_int (pid stat)
                 +:+ ") using " +:+ format_float 1 (cpu_percent stat) +:+ "% CPU")
              (to_row stat)
       else mret tt);
  if Qgtb (memory_percent stat) (process_alert_memory_threshold cfg)
  then _create_alert "HIGH_MEMORY_USAGE"
         ("Process " +:+ name stat +:+ " (PID: " +:+ str_of_int (pid stat)
            +:+ ") using " +:+ format_float 1 (memory_percent stat) +:+ "% memory")
         (to_row stat)
  else mret tt.

(** [ProcessMonitor._check_thresholds] *)
Definition _check_thresholds (cfg : ProcessConfig) (stats : list ProcessStat)
  : StE World unit :=
  for_each stats (check_stat cfg).

Record tick : Type := mkTick {
  running : bool;
  procs : list proc
}.

(** The [try] block of the loop body. *)
Definition poll (cfg : ProcessConfig) (t : tick) : StE World unit :=
  stats ← _collect_process_stats cfg (procs t);
  match stats with
  | [] => mret tt
  | _ =>
      _ ← db_insert_batch "process_stats" (map to_row stats);
      _check_thresholds cfg stats
  end.

(** [ProcessMonitor._monitor_loop] *)
Fixpoint _monitor_loop (cfg : ProcessConfig) (ticks : list tick) (w : World) : World :=
  match ticks with
  | [] => w
  | t :: ticks' =>
      if running t
      then _monitor_loop cfg ticks' (snd (try_except (poll cfg t) tt w))
      else w
  end.

End WithPlatform.
End ProcessMonitor.

(** ** [BatteryMonitor] *)

Module BatteryMonitor.
Section WithPlatform.
Context {P : Platform} {F : FloatStr}.

(** [stats[key] = v] *)
Definition set_stat (key : string) (v : value) : StE row unit :=
  fun stats => (Ok tt, dict_set key v stats).

(** The body of the loop over the lines of [dumpsys battery], on the
    dictionary [stats]. *)
Definition parse_line (line : string) : StE row unit :=
  let line := strip line in
  match split_once ":" line with
  | Some (key, value) =>
      let key := strip key in
      let value := strip value in
      if String.eqb key "level" then
        n ← int_of_text value; set_stat "level" (VInt n)
      else if String.eqb key "status" then set_stat "status" (VStr value)
      else if String.eqb key "temperature" then
        n ← int_of_text value; set_stat "temperature" (VFloat (inject_Z n / 10))
      else if String.eqb key "voltage" then
        n ← int_of_text value; set_stat "voltage" (VFloat (inject_Z n / 1000))
      else if String.eqb key "technology" then set_stat "technology" (VStr value)
      else if String.eqb key "health" then set_stat "health" (VStr value)
      else mret tt
  | None => mret tt
  end.

(** What [subprocess.run(['dumpsys', 'battery'], ...)] returns. *)
Record completed : Type := mkCompleted {
  returncode : Z;
  stdout : string
}.

(** What [psutil.sensors_battery()] returns when there is a battery. *)
Record sensors : Type := mkSensors {
  percent : Q;
  power_plugged : bool
}.

(** What a pass meets: the outcome of [dumpsys] and, should it be asked,
    that of [psutil]. *)
Record reading : Type := mkReading {
  dumpsys : result completed;
  sensors_battery : result (option sensors)
}.

(** The [try] block of [_collect_battery_stats], on the dictionary
    [stats]. *)
Definition collect (r : reading) : StE row unit :=
  result ← outcome (dumpsys r);
  _ ← (if (returncode result =? 0)%Z
       then for_each (split_on newline (stdout result)) parse_line
       else mret tt);
  stats ← get_state;
  if dict_mem stats "level" then mret tt
  else
    battery ← outcome (sensors_battery r);
    match battery with
    | Some battery =>
        _ ← set_stat "level" (VFloat (percent battery));
        set_stat "status"
          (VStr (if power_plugged battery then "Charging" else "Discharging"))
    | None => mret tt
    end.

(** [BatteryMonitor._collect_battery_stats]: an exception of the [try]
    block is logged, and the dictionary is returned as it then is. *)
Definition _collect_battery_stats (r : reading) : StE World row :=
  timestamp ← time_time;
  let (outcome, stats) := collect r [("timestamp", VFloat timestamp)] in
  _ ← match outcome with
      | Ok _ => mret tt
      | Raise e => logging_error e
      end;
  mret stats.

(** [BatteryMonitor._create_alert] *)
Definition _create_alert (alert_type message : string) (data : row) : StE World unit :=
  now ← time_time;
  db_insert_batch "alerts" [alert_row now "battery" message (json_dumps data)].

(** A level as a number, and as [str] prints it; a level is an [int] from
    [dumpsys] and a [float] from [psutil]. *)
Definition level_number (v : value) : option Q :=
  match v with
  | VInt n => Some (inject_Z n)
  | VFloat q => Some q
  | _ => None
  end.

Definition level_str (v : value) : string :=
  match v with
  | VInt n => str_of_int n
  | VFloat q => float_str q
  | VStr s => s
  | VNone => "None"
  end.

(** [BatteryMonitor._check_thresholds] *)
Definition _check_thresholds (alert_battery_threshold : Q) (stats : row)
  : StE World unit :=
  match dict_get stats "level" with
  | Some level =>
      match level_number level with
      | Some n =>
          if Qgtb alert_battery_threshold n
          then _create_alert "LOW_BATTERY"
                 ("Battery level: " +:+ level_str level +:+ "%") stats
          else mret tt
      | None => mret tt
      end
  | None => mret tt
  end.

Record tick : Type := mkTick {
  running : bool;
  battery : reading
}.

(** The [try] block of the loop body; [if stats:] holds, the dictionary
    having its timestamp. *)
Definition poll (alert_battery_threshold : Q) (t : tick) : StE World unit :=
  stats ← _collect_battery_stats (battery t);
  _ ← db_insert_batch "battery_stats" [stats];
  _check_thresholds alert_battery_threshold stats.

(** [BatteryMonitor._monitor_loop] *)
Fixpoint _monitor_loop (alert_battery_threshold : Q) (ticks : list tick) (w : World)
  : World :=
  match ticks with
  | [] => w
  | t :: ticks' =>
      if running t
      then _monitor_loop alert_battery_threshold ticks'
             (snd (try_except (poll alert_battery_threshold t) tt w))
      else w
  end.

End WithPlatform.
End BatteryMonitor.

(** ** [AndroidMonitor] and [main] *)

Module AndroidMonitor.

(** [MonitorModule] *)
Inductive MonitorModule : Type :=
| LOGCAT | NETWORK | PROCESS | MEMORY | BATTERY | FILESYSTEM | SENSORS | APPS.

(** The value of an attribute of a [MonitorConfig]. *)
Inductive setting : Type :=
| SBool (b : bool)
| SInt (n : Z)
| SFloat (q : Q)
| SStr (s : string)
| SList (l : list string).

(** A [MonitorConfig] object: its attributes, by name. *)
Definition config : Type := list (string * setting).

(** [MonitorConfig()]: the defaults of the dataclass, after
    [__post_init__]. *)
Definition MonitorConfig : config :=
  [ ("output_dir", SStr "/data/data/com.termux/files/home/android_monitor");
    ("db_path", SStr "monitor_data.db");
    ("log_level", SStr "INFO");
    ("enable_logcat", SBool true); ("enable_network", SBool true);
    ("enable_process", SBool true); ("enable_memory", SBool true);
    ("enable_battery", SBool true); ("enable_filesystem", SBool true);
    ("enable_sensors", SBool true); ("enable_apps", SBool true);
    ("logcat_buffer_size", SInt 1000); ("logcat_filters", SList []);
    ("logcat_priority", SStr "V");
    ("network_interval", SInt 5); ("network_capture_packets", SBool false);
    ("network_interfaces", SList []);
    ("process_interval", SInt 10); ("process_top_n", SInt 20);
    ("process_track_threads", SBool true);
    ("memory_interval", SInt 30); ("memory_detailed", SBool true);
    ("battery_interval", SInt 60); ("battery_track_apps", SBool true);
    ("fs_watch_paths",
     SList ["/data/data/com.termux/files/home"; "/sdcard/Download"; "/sdcard/DCIM"]);
    ("fs_interval", SInt 5); ("fs_recursive", SBool true);
    ("alert_cpu_threshold", SFloat 80); ("alert_memory_threshold", SFloat 85);
    ("alert_battery_threshold", SFloat 20); ("alert_network_threshold", SFloat 100) ].

(** The truth value of an attribute in an [if]. *)
Definition truthy (v : option setting) : bool :=
  match v with
  | Some (SBool b) => b
  | Some (SInt n) => negb (n =? 0)%Z
  | Some (SFloat q) => negb (Qeq_bool q 0)
  | Some (SStr s) => negb (String.eqb s EmptyString)
  | Some (SList l) => match l with [] => false | _ => true end
  | None => false
  end.

(** A collector object: its module and the configuration object that it
    was made with. *)
Definition monitor : Type := (MonitorModule * config)%type.

(** The orchestrator object. *)
Record Self : Type := mkSelf {
  self_config : config;
  monitors : list monitor
}.

(** [AndroidMonitor._init_monitors]: the dictionary [self.monitors], in
    its order. *)
Definition _init_monitors (cfg : config) : list monitor :=
  (if truthy (dict_get cfg "enable_logcat") then [(LOGCAT, cfg)] else [])
  ++ (if truthy (dict_get cfg "enable_network") then [(NETWORK, cfg)] else [])
  ++ (if truthy (dict_get cfg "enable_process") then [(PROCESS, cfg)] else [])
  ++ (if truthy (dict_get cfg "enable_memory") then [(MEMORY, cfg)] else [])
  ++ (if truthy (dict_get cfg "enable_battery") then [(BATTERY, cfg)] else [])
  ++ (if truthy (dict_get cfg "enable_filesystem") then [(FILESYSTEM, cfg)] else [])
  ++ (if truthy (dict_get cfg "enable_apps") then [(APPS, cfg)] else []).

(** [AndroidMonitor._load_config]; [file] is what is found at the path:
    nothing, or the outcome of reading it into a [MonitorConfig]. *)
Definition _load_config (config_path : option string) (file : option (result config))
  : result config :=
  match config_path with
  | Some path =>
      if String.eqb path EmptyString then Ok MonitorConfig
      else match file with
           | Some loaded => loaded
           | None => Ok MonitorConfig
           end
  | None => Ok MonitorConfig
  end.

(** [AndroidMonitor(config_path)]: the configuration is loaded and the
    collectors are made from it. The output directory, the logging
    set-up, the database and the signal handlers are left out. *)
Definition new (config_path : option string) (file : option (result config))
  : result Self :=
  match _load_config config_path file with
  | Ok cfg => Ok (mkSelf cfg (_init_monitors cfg))
  | Raise e => Raise e
  end.

(** The parsed command line. *)
Record Args : Type := mkArgs {
  a_config : option string;
  a_output_dir : string;
  a_log_level : string;
  a_disable_logcat : bool;
  a_disable_network : bool;
  a_disable_process : bool;
  a_disable_memory : bool;
  a_disable_battery : bool;
  a_disable_filesystem : bool;
  a_disable_apps : bool;
  a_preset : option string
}.

(** [if flag: config.key = v] *)
Definition set_if (flag : bool) (key : string) (v : setting) (cfg : config) : config :=
  if flag then dict_set key v cfg else cfg.

(** The configuration that [main] builds from the command line. *)
Definition command_line_config (args : Args) : config :=
  let cfg := MonitorConfig in
  let cfg := set_if (negb (String.eqb (a_output_dir args) EmptyString))
               "output_dir" (SStr (a_output_dir args)) cfg in
  let cfg := set_if (negb (String.eqb (a_log_level args) EmptyString))
               "log_level" (SStr (a_log_level args)) cfg in
  let cfg := set_if (a_disable_logcat args) "enable_logcat" (SBool false) cfg in
  let cfg := set_if (a_disable_network args) "enable_network" (SBool false) cfg in
  let cfg := set_if (a_disable_process args) "enable_process" (SBool false) cfg in
  let cfg := set_if (a_disable_memory args) "enable_memory" (SBool false) cfg in
  let cfg := set_if (a_disable_battery args) "enable_battery" (SBool false) cfg in
  let cfg := set_if (a_disable_filesystem args) "enable_filesystem" (SBool false) cfg in
  let cfg := set_if (a_disable_apps args) "enable_apps" (SBool false) cfg in
  match a_preset args with
  | Some "minimal" =>
      dict_set "memory_interval" (SInt 60)
        (dict_set "network_interval" (SInt 30)
           (dict_set "process_interval" (SInt 30)
              (dict_set "enable_filesystem" (SBool false)
                 (dict_set "enable_sensors" (SBool false)
                    (dict_set "enable_logcat" (SBool false) cfg)))))
  | Some "performance" =>
      dict_set "memory_detailed" (SBool true)
        (dict_set "process_interval" (SInt 5)
           (dict_set "process_top_n" (SInt 50)
              (dict_set "enable_filesystem" (SBool false)
                 (dict_set "enable_sensors" (SBool false) cfg))))
  | Some "security" =>
      dict_set "fs_recursive" (SBool true)
        (dict_set "network_capture_packets" (SBool true)
           (dict_set "logcat_filters"
              (SList ["AuthService:*"; "PackageManager:*"; "ActivityManager:*"])
              (dict_set "enable_sensors" (SBool false) cfg)))
  | _ => cfg
  end.

(** [main], up to [monitor.run()]: the orchestrator that is run. *)
Definition main (args : Args) (file : option (result config)) : result Self :=
  let cfg := command_line_config args in
  let chosen :=
    match a_config args with
    | Some path =>
        if String.eqb path EmptyString then Ok cfg
        else match new (a_config args) file with
             | Ok loaded => Ok (self_config loaded)
             | Raise e => Raise e
             end
    | None => Ok cfg
    end in
  match chosen with
  | Ok cfg =>
      match new None file with
      | Ok monitor => Ok (mkSelf cfg (monitors monitor))
      | Raise e => Raise e
      end
  | Raise e => Raise e
  end.

End AndroidMonitor.

(** ** A reference platform

    An instance of [Platform] for the examples: the time zone is UTC, a
    float is printed by rounding the rational to the requested number of
    decimals (half to even), and [json.dumps] prints an object with its
    floats at six decimals. *)

Module Reference.

(** Days from 1970-01-01 to the given civil date. *)
Definition days_from_civil (y m d : Z) : Z :=
  (let y' := if m <=? 2 then y - 1 else y in
   let era := y' / 400 in
   let yoe := y' - era * 400 in
   let mp := (m + 9) mod 12 in
   let doy := (153 * mp + 2) / 5 + d - 1 in
   let doe := yoe * 365 + yoe / 4 - yoe / 100 + doy in
   era * 146097 + doe - 719468)%Z.

Definition utc_epoch (d : datetime) : Q :=
  inject_Z (days_from_civil (dt_year d) (dt_month d) (dt_day d) * 86400
            + dt_hour d * 3600 + dt_minute d * 60 + dt_second d).

(** The civil year of the day that is [days] days after 1970-01-01. *)
Definition year_of_days (days : Z) : Z :=
  (let z := days + 719468 in
   let era := z / 146097 in
   let doe := z - era * 146097 in
   let yoe := (doe - doe / 1460 + doe / 36524 - doe / 146096) / 365 in
   let doy := doe - (365 * yoe + yoe / 4 - yoe / 100) in
   let mp := (5 * doy + 2) / 153 in
   let m := if mp <? 10 then mp + 3 else mp - 9 in
   yoe + era * 400 + (if m <=? 2 then 1 else 0))%Z.

Definition utc_year (t : Q) : Z := year_of_days (Qfloor t / 86400).

Definition str (n : Z) : string := NilZero.string_of_int (Z.to_int n).

(** The nearest integer, a tie going to the even one. *)
Definition round_half_even (q : Q) : Z :=
  let f := Qfloor q in
  let r := (q - inject_Z f)%Q in
  match (r ?= 1 # 2)%Q with
  | Lt => f
  | Gt => (f + 1)%Z
  | Eq => if Z.even f then f else (f + 1)%Z
  end.

Fixpoint zero_pad (width : nat) (s : string) : string :=
  match width with
  | O => s
  | S w => if (String.length s <? width)%nat then zero_pad w ("0" +:+ s) else s
  end.

Definition fixed (decimals : nat) (q : Q) : string :=
  let scale := (10 ^ Z.of_nat decimals)%Z in
  let n := round_half_even (q * inject_Z scale) in
  let a := Z.abs n in
  (if (n <? 0)%Z then "-" else EmptyString)
    +:+ str (a / scale)
    +:+ match decimals with
        | O => EmptyString
        | _ => "." +:+ zero_pad decimals (str (a mod scale))
        end.

Definition quote : string := String (ascii_of_nat 34) EmptyString.

Definition json_value (v : value) : string :=
  match v with
  | VNone => "null"
  | VInt z => str z
  | VFloat q => fixed 6 q
  | VStr s => quote +:+ s +:+ quote
  end.

Definition json_object (d : row) : string :=
  "{" +:+ DatabaseManager.join ", "
            (map (fun kv => quote +:+ fst kv +:+ quote +:+ ": " +:+ json_value (snd kv)) d)
      +:+ "}".

#[export] Instance platform : Platform :=
  {| local_epoch := utc_epoch;
     local_year := utc_year;
     format_float := fixed;
     json_dumps := json_object |}.

(** A process that has just opened a new database file, with a clock that
    reads [t0], [t0 + dt], [t0 + 2 dt], ... *)
Definition new_world (t0 dt : Q) : World :=
  mkWorld (snd (DatabaseManager.init_database DatabaseManager.empty_db))
          (fun n => (t0 + inject_Z (Z.of_nat n) * dt)%Q) 0 [].

(** [str] of a float, printed with one decimal. *)
#[export] Instance float_repr : FloatStr := fixed 1.

End Reference.

(** * The vocabulary of the statements *)

(** ** The store *)

Section StoreVocabulary.
Import DatabaseManager.

(** The part of the store that the schema statements can change. *)
Definition same_content (a b : Database) : Prop :=
  db_tables a = db_tables b /\ db_indexes a = db_indexes b /\ db_rows a = db_rows b.

(** A schema statement is settled when running it changes nothing. *)
Definition settled (s : stmt) (db : Database) : Prop :=
  match s with
  | CreateTableIfNotExists name _ => is_Some (db_tables db !! name)
  | CreateIndexIfNotExists name table _ =>
      is_Some (db_tables db !! table) /\ db_tables db !! name = None
      /\ is_Some (db_indexes db !! name)
  end.

(** The rows of a table. *)
Definition table_rows (table : string) (db : Database) : list row :=
  default [] (db_rows db !! table).

(** What [insert_batch] stores for a record when the INSERT names [columns]. *)
Definition stored_row (columns : list string) (r : row) : row :=
  combine columns (map (row_get r) columns).

(** The store after [init_database] on a new file. *)
Definition fresh_db : Database := snd (init_database empty_db).

(** The store accepts the batches of the collectors: the connection is
    open and every table of [schemas] is there with its columns. *)
Definition store_ready (db : Database) : Prop :=
  db_closed db = false
  /\ forall name cols, dict_get schemas name = Some cols ->
                       db_tables db !! name = Some cols.

End StoreVocabulary.

(** ** The collectors *)

(** Code that reads its arguments only: whatever it returns or raises,
    the state is the one it started from. *)
Definition reads_only {S A : Type} (m : StE S A) : Prop :=
  forall s, snd (m s) = s.

(** The world one reading of the clock later. *)
Definition tick_clock (w : World) : World :=
  mkWorld (w_db w) (w_clock w) (S (w_time_calls w)) (w_errors w).





Section NetworkVocabulary.
Context {P : Platform}.
Import NetworkMonitor.

(** The alert that [_check_thresholds] raises for a pair of samples, when
    the clock reads [now]. *)
Definition network_alert (now : Q) (last stat : NetworkSample) : row :=
  alert_row now "network"
    ("Network usage on " +:+ interface stat +:+ ": "
       +:+ format_float 2 (mb_rate last stat) +:+ " MB/s")
    (json_dumps [ ("interface", VStr (interface stat));
                  ("rate_mbps", VFloat (mb_rate last stat)) ]).

(** The collector once [stat] is the last sample of its interface. *)
Definition remember (stat : NetworkSample) (s : Self) : Self :=
  mkSelf (<[interface stat := stat]> (last_stats s)) (self_world s).

Definition alerts (s : Self) : list row :=
  table_rows "alerts" (w_db (self_world s)).

End NetworkVocabulary.

(** ** Patterns and lines *)

(** [r] can take [t] from the front of [t +:+ rest], capturing [caps], and
    it is the first thing it tries that lets the rest of the pattern go
    through: whenever the continuation accepts [rest], the match is that
    one. *)
Definition takes (r : regex) (t : string) (caps : list string) (rest : string) : Prop :=
  forall (k : cont) (g : list string),
    k rest = Some g -> r k (t +:+ rest) = Some (caps ++ g).

(** The text does not go on with a character of the class. *)
Definition stops (p : ascii -> bool) (rest : string) : Prop :=
  match rest with
  | EmptyString => True
  | String c _ => p c = false
  end.

(** The character of a decimal digit. *)
Definition digit (n : Z) : ascii := ascii_of_N (48 + Z.to_N n).

Definition two_digits (n : Z) : string :=
  String (digit (n / 10)) (String (digit (n mod 10)) EmptyString).

Definition three_digits (n : Z) : string :=
  String (digit (n / 100)) (two_digits (n mod 100)).

Definition format_date (month day : Z) : string :=
  two_digits month +:+ "-" +:+ two_digits day.

Definition format_clock (hour minute second millis : Z) : string :=
  two_digits hour +:+ ":" +:+ two_digits minute +:+ ":" +:+ two_digits second
    +:+ "." +:+ three_digits millis.

(** The white space between the fields of a line: between date and time,
    before the process id, the thread id, the level and the tag (each at
    least one character), and after the colon that ends the tag (possibly
    none). *)
Record blanks : Type := mkBlanks {
  before_time : string;
  before_pid : string;
  before_tid : string;
  before_level : string;
  before_tag : string;
  before_message : string
}.

(** Single spaces, and one after the colon. *)
Definition single_spaces : blanks := mkBlanks " " " " " " " " " " " ".

(** A non-empty run of white space. *)
Definition is_blank (b : string) : Prop :=
  b <> EmptyString /\ string_forall is_space b = true.

Definition are_blanks (b : blanks) : Prop :=
  is_blank (before_time b) /\ is_blank (before_pid b) /\ is_blank (before_tid b)
  /\ is_blank (before_level b) /\ is_blank (before_tag b)
  /\ string_forall is_space (before_message b) = true.

(** The date and time at the start of a line: [MM-DD HH:MM:SS.mmm]. *)
Definition format_time (b : blanks) (month day hour minute second millis : Z)
  : string :=
  format_date month day +:+ before_time b
    +:+ format_clock hour minute second millis.

(** A line of the log written from its fields, in the layout that
    [log_pattern] reads: [MM-DD HH:MM:SS.mmm PID TID L TAG: MESSAGE]. *)
Definition format_logcat_line (b : blanks)
    (month day hour minute second millis : Z)
    (pid tid : string) (level : ascii) (tag message : string) : string :=
  format_time b month day hour minute second millis +:+ before_pid b +:+ pid
    +:+ before_tid b +:+ tid +:+ before_level b +:+ String level EmptyString
    +:+ before_tag b +:+ tag +:+ ":" +:+ before_message b +:+ message.

(** A non-empty run of decimal digits. *)
Definition is_number (s : string) : Prop :=
  s <> EmptyString /\ string_forall is_digit s = true.

(** A tag that the pattern gives back as it is: not empty, without a
    colon, and not starting with white space. *)
Definition is_tag (s : string) : Prop :=
  match s with
  | EmptyString => False
  | String c _ => is_space c = false /\ string_forall (not_char ":") s = true
  end.

(** A message that the pattern gives back as it is: one line, not
    starting with white space. *)
Definition is_message (s : string) : Prop :=
  stops is_space s /\ string_forall dot s = true.

(** ** More of the store and of the collectors *)

Section StoreVocabularyMore.
Import DatabaseManager.


End StoreVocabularyMore.

Section MemoryVocabulary.
Context {P : Platform}.
Import MemoryMonitor.





End MemoryVocabulary.

Section NetworkVocabularyMore.
Context {P : Platform}.
Import NetworkMonitor.

(** The interfaces that a poll looks at: the configured ones, or all that
    [psutil] reports when none is configured. *)
Definition polled_interfaces (cfg : MonitorConfig) (io : list (string * counters))
  : list string :=
  match network_interfaces cfg with
  | [] => dict_keys io
  | l => l
  end.

(** The sample carries the counters that [io] has for its interface. *)
Definition sample_of (io : list (string * counters)) (now : Q) (st : NetworkSample)
  : Prop :=
  timestamp st = now
  /\ exists c, dict_get io (interface st) = Some c
               /\ bytes_sent st = c_bytes_sent c /\ bytes_recv st = c_bytes_recv c
               /\ packets_sent st = c_packets_sent c
               /\ packets_recv st = c_packets_recv c
               /\ errors_in st = c_errin c /\ errors_out st = c_errout c.

(** [last_stats] once the samples have been remembered, in their order. *)
Definition remember_all (stats : list NetworkSample) (m : gmap string NetworkSample)
  : gmap string NetworkSample :=
  fold_left (fun m st => <[interface st := st]> m) stats m.

End NetworkVocabularyMore.

Section FilesystemVocabularyMore.
Import FilesystemMonitor.

(** Two snapshots that hold the same paths, each with the same mtime. *)
Definition same_mtimes (previous current : snapshot) : Prop :=
  (forall p, dict_mem previous p = dict_mem current p)
  /\ forall p a b, dict_get previous p = Some a -> dict_get current p = Some b ->
                   (fs_mtime a == fs_mtime b)%Q.

End FilesystemVocabularyMore.

Section LogcatVocabularyMore.
Context {P : Platform}.
Import LogcatMonitor.

(** The last [n] elements of a list. *)
Definition keep_last {A : Type} (n : nat) (l : list A) : list A :=
  drop (length l - n) l.

(** A line in which the date and time are followed, after white space,
    by a character that is neither a digit nor white space. *)
Definition time_layout (raw : string) : Prop :=
  exists b month day hour minute second millis c rest,
    is_blank (before_time b) /\ is_blank (before_pid b)
    /\ (0 <= month < 100)%Z /\ (0 <= day < 100)%Z /\ (0 <= hour < 100)%Z
    /\ (0 <= minute < 100)%Z /\ (0 <= second < 100)%Z /\ (0 <= millis < 1000)%Z
    /\ is_digit c = false /\ is_space c = false
    /\ strip raw = format_time b month day hour minute second millis
                     +:+ before_pid b +:+ String c rest.

(** What a read of such a stream gives: a line of that kind, or its end. *)
Definition unparsed_read (r : read) : Prop :=
  match r with
  | Line raw _ => time_layout raw
  | EOF => True
  end.

(** The entries that the thread holds and has not stored yet. *)
Definition pending (thr : thread) : list LogEntry :=
  match thr with
  | Active batch _ => batch
  | Finished => []
  end.

End LogcatVocabularyMore.

Section PatternVocabulary.

(** Every match that the continuation finds has [n] groups. *)
Definition yields (n : nat) (k : cont) : Prop :=
  forall s g, k s = Some g -> length g = n.

(** The pattern puts [m] groups in front of those of what follows it. *)
Definition adds (m : nat) (r : regex) : Prop :=
  forall n k, yields n k -> yields (m + n) (r k).

End PatternVocabulary.

Section AppVocabularyMore.
Import AppMonitor.


(** The values of [event_type] that [_parse_app_event] writes. *)
Definition app_event_types : list string :=
  ["start_activity"; "activity_displayed"; "force_stop"; "crash"; "anr"].

End AppVocabularyMore.

Section ProcessVocabulary.
Context {P : Platform}.
Import ProcessMonitor.

(** The number of alerts that a row of [process_stats] calls for. *)
Definition process_breaches (cfg : ProcessConfig) (stat : ProcessStat) : nat :=
  (if Qgtb (cpu_percent stat) (alert_cpu_threshold cfg) then 1 else 0)
  + (if Qgtb (memory_percent stat) (process_alert_memory_threshold cfg) then 1 else 0).

End ProcessVocabulary.

Section BatteryVocabulary.
Context {P : Platform} {F : FloatStr}.
Import BatteryMonitor.





End BatteryVocabulary.

Section MeminfoVocabulary.

(** A line of /proc/meminfo written from its fields: [KEY:  NUMBER kB]. *)
Definition format_meminfo_line (key blank number : string) : string :=
  key +:+ ":" +:+ blank +:+ number +:+ " kB".

(** A key that the parser gives back as it is: without a colon and not
    starting with white space. *)
Definition is_meminfo_key (key : string) : Prop :=
  string_forall (not_char ":") key = true /\ stops is_space key.

(** A line of the file that is written from well-formed fields and
    says [bytes / 1024] kilobytes for [key]. *)
Record meminfo_entry : Type := mkMeminfoEntry {
  e_key : string;
  e_blank : string;
  e_number : string;
  e_kilobytes : Z
}.

Definition entry_line (e : meminfo_entry) : string :=
  format_meminfo_line (e_key e) (e_blank e) (e_number e) +:+ String newline EmptyString.

Definition well_formed_entry (e : meminfo_entry) : Prop :=
  is_meminfo_key (e_key e)
  /\ string_forall is_space (e_blank e) = true
  /\ is_number (e_number e)
  /\ int_digits 0 (e_number e) = Some (e_kilobytes e).

(** The dictionary that the entries make, in bytes. *)
Definition meminfo_of (entries : list meminfo_entry) : list (string * Z) :=
  fold_left (fun d e => dict_set (e_key e) (e_kilobytes e * 1024)%Z d) entries [].

End MeminfoVocabulary.

Section OrchestratorVocabulary.
Import AndroidMonitor.

(** The collectors that the default configuration enables. *)
Definition all_collectors : list MonitorModule :=
  [LOGCAT; NETWORK; PROCESS; MEMORY; BATTERY; FILESYSTEM; APPS].

End OrchestratorVocabulary.
(** ** Inputs of the examples *)

Module Examples.
Import Reference.


(** What [psutil] reports at [p] percent, with the given lines of
    /proc/meminfo. *)
Definition reading_at (p : Q) (meminfo : list (string * Z))
  : result MemoryMonitor.reading :=
  Ok (MemoryMonitor.mkReading 8000 1000 p 7000 500 0 0 0 meminfo).

(** A sample of wlan0. *)
Definition wlan0 (t : Q) (sent recv : Z) : NetworkMonitor.NetworkSample :=
  NetworkMonitor.mkSample t "wlan0" sent recv 0 0 0 0.

(** A collector that has seen one sample of wlan0, over a new store. *)
Definition after_first (first : NetworkMonitor.NetworkSample) : NetworkMonitor.Self :=
  NetworkMonitor.mkSelf {[ "wlan0" := first ]} (new_world 0 1).

Definition wlan0_counters (sent : Z) : result (list (string * NetworkMonitor.counters)) :=
  Ok [("wlan0", NetworkMonitor.mkCounters sent 0 0 0 0 0)].

(** A file last modified at [mtime]. *)
Definition file (mtime : Q) : FilesystemMonitor.file_stat :=
  FilesystemMonitor.mkFileStat 10 mtime "644" 1000.

(** A collector whose last scan gave [previous], at time 0. *)
Definition watching (previous : FilesystemMonitor.snapshot) : FilesystemMonitor.Self :=
  FilesystemMonitor.mkSelf previous (new_world 0 1).

Definition logcat_line : string :=
  "11-04 07:24:01.123  1234  5678 I ActivityManager: Start proc 4321".

Definition app_line : string :=
  "11-04 07:24:01.123  1234  5678 I ActivityManager: Force stopping com.example".


(** A process whose store has been closed (as [AndroidMonitor.stop] does
    once it has gone through the collectors), with a clock that advances
    by ten seconds at each reading. *)
Definition closed_world : World :=
  mkWorld (snd (DatabaseManager.close fresh_db))
          (fun n => inject_Z (10 * Z.of_nat n)) 0 [].

(** The clock reads 2026-11-04 07:30:00 UTC. *)
Definition morning : World := new_world 1793777400 1.

Definition start_proc_line : string :=
  "11-04 07:24:01.123 1234 5678 I ActivityManager: Start proc 4321".

Definition force_stop_line : string :=
  "11-04 07:24:01.123 1234 5678 I ActivityManager: Force stopping com.example".

(** A line in the layout of [log_pattern] with month 13. *)
Definition bad_month_line : string :=
  "13-04 07:24:01.123 1234 5678 I ActivityManager: Start proc 4321".

(** A line in the layout [MM-DD HH:MM:SS.mmm L/TAG(PID): MESSAGE]. *)
Definition time_layout_line : string :=
  "11-04 07:24:01.123 I/ActivityManager( 1234): Start proc 4321".

(** A store that holds one alert. *)
Definition one_alert_db : DatabaseManager.Database :=
  snd (DatabaseManager.insert_batch "alerts" [alert_row 0 "memory" "high" "{}"]
         (snd (DatabaseManager.init_database DatabaseManager.empty_db))).

(** Three processes: one idle, one busy and one that is gone before its
    CPU usage is read. *)
Definition three_processes : list ProcessMonitor.proc :=
  [ ProcessMonitor.mkProc 1 "init" 1 (Some 5%Q)
      (Some (ProcessMonitor.mkDetails 4096 8192 "sleeping" 1));
    ProcessMonitor.mkProc 2 "app" 90 (Some 95%Q)
      (Some (ProcessMonitor.mkDetails 4096 8192 "running" 12));
    ProcessMonitor.mkProc 3 "gone" 1 None None ].

(** What [dumpsys battery] prints, at 15 percent. *)
Definition dumpsys_output : string :=
  DatabaseManager.join (String newline EmptyString)
    [ "Current Battery Service state:"; "  AC powered: false"; "  level: 15";
      "  scale: 100"; "  status: 3"; "  health: 2"; "  voltage: 3900";
      "  temperature: 285"; "  technology: Li-ion"; EmptyString ].

Definition battery_at_15 : BatteryMonitor.reading :=
  BatteryMonitor.mkReading (Ok (BatteryMonitor.mkCompleted 0 dumpsys_output))
    (Ok (Some (BatteryMonitor.mkSensors 80 true))).

(** A device without [dumpsys], its battery at 5 percent. *)
Definition battery_without_dumpsys_reading : BatteryMonitor.reading :=
  BatteryMonitor.mkReading (Raise OSError) (Ok (Some (BatteryMonitor.mkSensors 5 false))).

Definition two_meminfo_entries : list meminfo_entry :=
  [ mkMeminfoEntry "MemTotal" "       " "16384" 16384;
    mkMeminfoEntry "MemFree" "         " "1024" 1024 ].

(** The command line [--disable-logcat --preset minimal]. *)
Definition disable_logcat_args : AndroidMonitor.Args :=
  AndroidMonitor.mkArgs None "/data/data/com.termux/files/home/android_monitor" "INFO"
    true false false false false false false (Some "minimal").
End Examples.

(** * Properties *)

Section Store.
Import DatabaseManager.

Lemma bind_Ok {S A B : Type} (m : StE S A) (f : A -> StE S B) s b s' :
  (m ≫= f) s = (Ok b, s') ->
  exists a s1, m s = (Ok a, s1) /\ f a s1 = (Ok b, s').
Proof.
  unfold mbind, StE_bind. destruct (m s) as [[a|e] s1]; [eauto | discriminate].
Qed.

Lemma bind_Ok_intro {S A B : Type} (m : StE S A) (f : A -> StE S B) s a s1 :
  m s = (Ok a, s1) -> (m ≫= f) s = f a s1.
Proof. unfold mbind, StE_bind. intros ->. reflexivity. Qed.

Lemma execute_Ok s db db' :
  execute s db = (Ok tt, db') ->
  db_closed db = false /\ db_closed db' = false /\ settled s db'
  /\ forall s2, settled s2 db -> settled s2 db'.
Proof.
  unfold execute, check_open, log_op. unfold mbind, StE_bind.
  destruct (db_closed db) eqn:Hc; [discriminate |].
  destruct s as [name cols | name table col]; simpl.
  - unfold create_table; simpl.
    destruct (db_tables db !! name) eqn:Ht.
    + intros [= <-]; simpl. repeat split; eauto.
    + destruct (db_indexes db !! name) eqn:Hi; [discriminate |].
      intros [= <-]; simpl. repeat split; auto.
      * rewrite lookup_insert_eq. eauto.
      * intros [n2 c2 | n2 t2 c2]; simpl.
        -- intros [x Hx]. destruct (decide (name = n2)) as [-> | Hne].
           ++ rewrite lookup_insert_eq; eauto.
           ++ rewrite lookup_insert_ne by done. eauto.
        -- intros ([x Hx] & Hn & Hidx). repeat split; auto.
           ++ destruct (decide (name = t2)) as [-> | Hne].
              ** rewrite lookup_insert_eq; eauto.
              ** rewrite lookup_insert_ne by done. eauto.
           ++ destruct (decide (name = n2)) as [-> | Hne].
              ** destruct Hidx as [y Hy]. congruence.
              ** rewrite lookup_insert_ne by done. auto.
  - unfold create_index; simpl.
    destruct (db_tables db !! table) eqn:Ht; [| discriminate].
    destruct (db_tables db !! name) eqn:Hn; [discriminate |].
    destruct (db_indexes db !! name) eqn:Hi.
    + intros [= <-]; simpl. repeat split; eauto.
    + destruct (has_column l col); [| discriminate].
      intros [= <-]; simpl. repeat split; eauto.
      * rewrite lookup_insert_eq; eauto.
      * intros [n2 c2 | n2 t2 c2]; simpl; auto.
        intros (Ha & Hb & [y Hy]). repeat split; auto.
        destruct (decide (name = n2)) as [-> | Hne].
        -- rewrite lookup_insert_eq; eauto.
        -- rewrite lookup_insert_ne by done. eauto.
Qed.

Lemma execute_settled s db :
  db_closed db = false -> settled s db ->
  exists db', execute s db = (Ok tt, db') /\ same_content db db'.
Proof.
  intros Hc Hs. unfold execute, check_open, log_op, mbind, StE_bind.
  rewrite Hc. destruct s as [name cols | name table col]; simpl in *.
  - unfold create_table; simpl. destruct Hs as [x ->].
    eexists; split; [reflexivity |]. repeat split.
  - unfold create_index; simpl. destruct Hs as ([x ->] & -> & [y ->]).
    eexists; split; [reflexivity |]. repeat split.
Qed.

Lemma execute_all_Ok ss : forall db db',
  execute_all ss db = (Ok tt, db') ->
  (db_closed db = false -> db_closed db' = false)
  /\ Forall (fun s => settled s db') ss
  /\ forall s2, settled s2 db -> settled s2 db'.
Proof.
  induction ss as [| s ss IH]; intros db db' H.
  - injection H as <-. auto.
  - unfold execute_all in H; simpl in H.
    apply bind_Ok in H as ([] & db1 & H1 & H2).
    apply execute_Ok in H1 as (Hc & Hc1 & Hs & Hmono).
    apply IH in H2 as (Hc2 & Hall & Hmono2).
    repeat split; auto.
Qed.

Lemma same_content_settled s a b : same_content a b -> settled s a -> settled s b.
Proof.
  intros (Ht & Hi & _). destruct s; simpl; rewrite Ht, ?Hi; auto.
Qed.

Lemma same_content_trans a b c : same_content a b -> same_content b c -> same_content a c.
Proof. unfold same_content. intros (? & ? & ?) (? & ? & ?). repeat split; congruence. Qed.

Lemma execute_all_settled ss : forall db,
  db_closed db = false -> Forall (fun s => settled s db) ss ->
  exists db', execute_all ss db = (Ok tt, db') /\ same_content db db'
              /\ db_closed db' = false.
Proof.
  induction ss as [| s ss IH]; intros db Hc Hall.
  - exists db. repeat split; auto.
  - inversion Hall as [| ? ? Hs Hrest]; subst.
    destruct (execute_settled s db Hc Hs) as (db1 & H1 & Hsame).
    pose proof (execute_Ok _ _ _ H1) as (_ & Hc1 & _ & _).
    destruct (IH db1 Hc1) as (db2 & H2 & Hsame2 & Hc2).
    { eapply Forall_impl; [exact Hrest |]. intros s2. simpl. apply same_content_settled, Hsame. }
    exists db2. split; [| split; [eapply same_content_trans; eauto | auto]].
    unfold execute_all; simpl. erewrite bind_Ok_intro by exact H1. exact H2.
Qed.

(** C9. Schema initialisation is idempotent. Once [init_database] has run
    without error, running it again raises no error and leaves the tables
    with their column definitions, the indexes and the rows as they are:
    the second run only adds to the log of executed statements. *)
Theorem init_database_idempotent (db db1 : Database) :
  init_database db = (Ok tt, db1) ->
  exists db2, init_database db1 = (Ok tt, db2) /\ same_content db1 db2.
Proof.
  intros H. unfold init_database in H.
  apply bind_Ok in H as ([] & d0 & H0 & H).
  apply bind_Ok in H as ([] & d1 & Ht & H).
  apply bind_Ok in H as ([] & d2 & Hi & H).
  injection H0 as <-.
  apply execute_all_Ok in Ht as (Hc1 & Hts & _). specialize (Hc1 eq_refl).
  apply execute_all_Ok in Hi as (Hc2 & His & Hmono). specialize (Hc2 Hc1).
  unfold commit, check_open, log_op, mbind, StE_bind in H. rewrite Hc2 in H.
  injection H as <-.
  set (d3 := mkDatabase _ _ _ _ _).
  assert (Hsame : same_content d2 d3) by (repeat split).
  assert (Hc3 : db_closed d3 = false) by exact Hc2.
  assert (Hts3 : Forall (fun s => settled s d3) table_stmts).
  { eapply Forall_impl; [exact Hts |]. intros s Hs. simpl.
    eapply same_content_settled; [exact Hsame | auto]. }
  assert (His3 : Forall (fun s => settled s d3) index_stmts).
  { eapply Forall_impl; [exact His |]. intros s Hs. simpl.
    eapply same_content_settled; [exact Hsame | auto]. }
  set (c3 := mkDatabase false (db_tables d3) (db_indexes d3) (db_rows d3) (db_log d3)).
  assert (Hsc : same_content d3 c3) by (repeat split).
  destruct (execute_all_settled table_stmts c3 eq_refl) as (e1 & He1 & Hs1 & Hce1).
  { eapply Forall_impl; [exact Hts3 |]. intros s. simpl. apply same_content_settled, Hsc. }
  destruct (execute_all_settled index_stmts e1 Hce1) as (e2 & He2 & Hs2 & Hce2).
  { eapply Forall_impl; [exact His3 |]. intros s Hs. simpl.
    eapply same_content_settled; [exact Hs1 |].
    eapply same_content_settled; [exact Hsc | exact Hs]. }
  eexists. split.
  - unfold init_database.
    erewrite bind_Ok_intro by reflexivity. fold c3.
    erewrite bind_Ok_intro by exact He1.
    erewrite bind_Ok_intro by exact He2.
    unfold commit, check_open, log_op, mbind, StE_bind. rewrite Hce2. reflexivity.
  - eapply same_content_trans; [exact Hsc |].
    eapply same_content_trans; [exact Hs1 |].
    eapply same_content_trans; [exact Hs2 |]. repeat split.
Qed.

Lemma init_database_idempotent_witness :
  exists db2, init_database (snd (init_database empty_db)) = (Ok tt, db2)
              /\ same_content (snd (init_database empty_db)) db2.
Proof.
  apply (init_database_idempotent empty_db). vm_compute. reflexivity.
Defined.

Lemma insert_batch_ready table first rest db cols :
  db_closed db = false ->
  db_tables db !! table = Some cols ->
  forallb (has_column cols) (dict_keys first) = true ->
  exists db',
    insert_batch table (first :: rest) db = (Ok tt, db')
    /\ table_rows table db'
       = table_rows table db ++ map (stored_row (dict_keys first)) (first :: rest)
    /\ db_closed db' = false
    /\ db_tables db' = db_tables db
    /\ db_indexes db' = db_indexes db
    /\ (forall t, t <> table -> db_rows db' !! t = db_rows db !! t).
Proof.
  intros Hc Ht Hcols.
  unfold insert_batch, executemany, commit, check_open, log_op, insert_rows,
    mbind, StE_bind.
  rewrite Hc. cbn [db_closed db_tables db_rows db_indexes db_log].
  rewrite Ht, Hcols. cbn [db_closed]. rewrite Hc.
  eexists. split; [reflexivity |].
  unfold table_rows; cbn [db_closed db_tables db_rows db_indexes db_log].
  rewrite lookup_insert_eq. cbn [default].
  repeat split; auto.
  - f_equal. rewrite map_map. reflexivity.
  - intros t Hne. rewrite lookup_insert_ne by done. reflexivity.
Qed.





End Store.

Section World.
Import DatabaseManager.

Lemma fresh_db_ready : store_ready fresh_db.
Proof.
  split; [vm_compute; reflexivity |].
  intros name cols H. unfold schemas in H. cbn [dict_get] in H.
  repeat match type of H with
         | (if String.eqb ?a name then _ else _) = _ =>
             destruct (String.eqb_spec a name) as [<- | _];
             [injection H as <-; vm_compute; reflexivity |]
         end.
  discriminate.
Qed.

Lemma Qgtb_true x y : Qgtb x y = true <-> (y < x)%Q.
Proof.
  unfold Qgtb. rewrite negb_true_iff, <- not_true_iff_false, Qle_bool_iff.
  split; [apply Qnot_le_lt | apply Qlt_not_le].
Qed.

Lemma Qgtb_false x y : Qgtb x y = false <-> (x <= y)%Q.
Proof.
  unfold Qgtb. rewrite negb_false_iff, Qle_bool_iff. reflexivity.
Qed.

(** A batch of rows that all carry the keys of the first one, in the same
    order, is stored as it is. *)
Lemma db_insert_batch_ready table cols first rest w :
  store_ready (w_db w) ->
  dict_get schemas table = Some cols ->
  forallb (has_column cols) (dict_keys first) = true ->
  Forall (fun r => stored_row (dict_keys first) r = r) (first :: rest) ->
  exists db',
    db_insert_batch table (first :: rest) w = (Ok tt, set_db db' w)
    /\ store_ready db'
    /\ table_rows table db' = table_rows table (w_db w) ++ first :: rest
    /\ forall t, t <> table -> table_rows t db' = table_rows t (w_db w).
Proof.
  intros [Hc Hs] Ht Hcols Hrows.
  destruct (insert_batch_ready table first rest (w_db w) cols Hc (Hs _ _ Ht) Hcols)
    as (db' & Hrun & Hnew & Hc' & Htabs & _ & Hother).
  exists db'. unfold db_insert_batch, zoom. rewrite Hrun.
  split; [reflexivity |]. split; [| split].
  - split; [exact Hc' |]. intros n c Hn. rewrite Htabs. auto.
  - rewrite Hnew. f_equal.
    clear -Hrows. induction Hrows as [| r l Hr _ IH]; cbn; [reflexivity |].
    rewrite Hr. f_equal. exact IH.
  - intros t Hne. unfold table_rows. rewrite Hother by exact Hne. reflexivity.
Qed.

Lemma db_insert_batch_closed table first rest w :
  db_closed (w_db w) = true ->
  db_insert_batch table (first :: rest) w = (Raise ProgrammingError, w).
Proof.
  intros Hc. unfold db_insert_batch, zoom, insert_batch, executemany, check_open,
    mbind, StE_bind. rewrite Hc. destruct w; reflexivity.
Qed.

End World.

Section Memory.
Context {P : Platform}.
Import DatabaseManager MemoryMonitor.


End Memory.

Section MemoryExamples.
Import DatabaseManager MemoryMonitor Reference Examples.


(** Two polls in a row at 90 percent, without the extended fields: both
    samples are stored and each raises its own alert. *)
Example memory_loop_alerts_at_each_breach :
  let w := MemoryMonitor._monitor_loop
             (mkConfig 1000 [] false 85 100)
             [ MemoryMonitor.mkTick true (reading_at 90 []);
               MemoryMonitor.mkTick true (reading_at 90 []) ]
             (new_world 0 1) in
  length (table_rows "memory_stats" (w_db w)) = 2%nat
  /\ length (table_rows "alerts" (w_db w)) = 2%nat
  /\ w_errors w = [].
Proof. vm_compute. repeat split. Qed.

(** With the extended fields (the default, [memory_detailed]) the sample
    carries keys that are no columns of [memory_stats]: the insert raises
    and the threshold check of that pass is not reached. *)
Example memory_loop_detailed_sample_not_stored :
  let w := MemoryMonitor._monitor_loop default_config
             [ MemoryMonitor.mkTick true (reading_at 90 [("MemTotal", 8000%Z)]) ]
             (new_world 0 1) in
  table_rows "memory_stats" (w_db w) = []
  /\ table_rows "alerts" (w_db w) = []
  /\ w_errors w = [OperationalError].
Proof. vm_compute. repeat split. Qed.

End MemoryExamples.

Section Network.
Context {P : Platform}.
Import DatabaseManager NetworkMonitor.

Lemma check_stat_first cfg stat s :
  last_stats s !! interface stat = None ->
  check_stat cfg stat s = (Ok tt, remember stat s).
Proof.
  intros Hnone. unfold check_stat, get_state, mbind, StE_bind.
  rewrite Hnone. reflexivity.
Qed.

Lemma check_stat_no_elapsed_time cfg stat last s :
  last_stats s !! interface stat = Some last ->
  (time_diff last stat <= 0)%Q ->
  check_stat cfg stat s = (Ok tt, remember stat s).
Proof.
  intros Hlast Hdt. apply Qgtb_false in Hdt.
  unfold check_stat, get_state, mbind, StE_bind. rewrite Hlast, Hdt. reflexivity.
Qed.

Lemma check_stat_quiet cfg stat last s :
  last_stats s !! interface stat = Some last ->
  (mb_rate last stat <= alert_network_threshold cfg)%Q ->
  check_stat cfg stat s = (Ok tt, remember stat s).
Proof.
  intros Hlast Hrate. apply Qgtb_false in Hrate.
  unfold check_stat, get_state, mbind, StE_bind. rewrite Hlast, Hrate.
  destruct (Qgtb (time_diff last stat) 0); reflexivity.
Qed.

Lemma check_stat_alert cfg stat last s :
  store_ready (w_db (self_world s)) ->
  last_stats s !! interface stat = Some last ->
  (0 < time_diff last stat)%Q ->
  (alert_network_threshold cfg < mb_rate last stat)%Q ->
  exists s',
    check_stat cfg stat s = (Ok tt, s')
    /\ last_stats s' = <[interface stat := stat]> (last_stats s)
    /\ alerts s'
       = alerts s ++ [network_alert (w_clock (self_world s)
                                            (w_time_calls (self_world s))) last stat]
    /\ store_ready (w_db (self_world s')).
Proof.
  intros Hready Hlast Hdt Hrate. apply Qgtb_true in Hdt, Hrate.
  unfold check_stat, get_state, mbind, StE_bind. rewrite Hlast, Hdt, Hrate.
  unfold _create_alert, in_world, zoom, mbind, StE_bind, time_time.
  cbn [world set_world Self_collector self_world last_stats].
  match goal with
  | |- context [db_insert_batch "alerts" [?a] ?w1] =>
      destruct (db_insert_batch_ready "alerts"
                  (default [] (dict_get schemas "alerts")) a [] w1)
        as (db' & Hrun & Hready' & Hrows & _);
        [exact Hready | reflexivity | reflexivity
        | apply Forall_cons_2; [reflexivity | apply Forall_nil_2] |];
        replace (db_insert_batch "alerts" [a] w1) with (Ok tt, set_db db' w1)
          by (symmetry; exact Hrun)
  end.
  eexists. cbn [set_world Self_collector self_world last_stats].
  split; [reflexivity |].
  unfold alerts. cbn [self_world last_stats w_db set_db].
  split; [reflexivity |]. split; [exact Hrows | exact Hready'].
Qed.



(** C1, as the code has it. The check is skipped, with no alert and no
    change but the remembered sample, on the first sample of an interface
    and when the timestamp did not increase. A pair in which a counter
    decreased goes through the same computation as any other pair: when the
    two deltas add up to a negative number the rate is negative and, the
    threshold being non-negative, no alert is stored. *)
Theorem network_check_skipped_or_signed (cfg : MonitorConfig)
    (stat : NetworkSample) (s : Self) :
  (last_stats s !! interface stat = None ->
     _check_thresholds cfg [stat] s = (Ok tt, remember stat s))
  /\ (forall last,
        last_stats s !! interface stat = Some last ->
        (timestamp stat <= timestamp last)%Q ->
        _check_thresholds cfg [stat] s = (Ok tt, remember stat s))
  /\ (forall last,
        last_stats s !! interface stat = Some last ->
        (timestamp last < timestamp stat)%Q ->
        ((bytes_sent stat - bytes_sent last)
         + (bytes_recv stat - bytes_recv last) < 0)%Z ->
        (0 <= alert_network_threshold cfg)%Q ->
        (bytes_rate last stat < 0)%Q
        /\ _check_thresholds cfg [stat] s = (Ok tt, remember stat s)).
Proof.
  unfold _check_thresholds. cbn [for_each]. unfold mbind, StE_bind.
  split; [| split].
  - intros Hnone. rewrite (check_stat_first cfg stat s Hnone). reflexivity.
  - intros last Hlast Hts.
    rewrite (check_stat_no_elapsed_time cfg stat last s Hlast); [reflexivity |].
    unfold time_diff. rewrite <- (Qplus_opp_r (timestamp last)).
    apply Qplus_le_l. exact Hts.
  - intros last Hlast Hts Hdelta Hthr.
    assert (Hdt : (0 < time_diff last stat)%Q).
    { unfold time_diff. rewrite <- (Qplus_opp_r (timestamp last)).
      apply Qplus_lt_l. exact Hts. }
    assert (Hneg : (bytes_rate last stat < 0)%Q).
    { unfold bytes_rate. apply Qlt_shift_div_r; [exact Hdt |].
      rewrite Qmult_0_l. change 0%Q with (inject_Z 0). rewrite <- Zlt_Qlt. exact Hdelta. }
    split; [exact Hneg |].
    rewrite (check_stat_quiet cfg stat last s Hlast); [reflexivity |].
    apply Qle_trans with (y := 0%Q); [| exact Hthr].
    unfold mb_rate. apply Qlt_le_weak. apply Qlt_shift_div_r; [reflexivity |].
    rewrite Qmult_0_l. exact Hneg.
Qed.

End Network.

Section NetworkExamples.
Import DatabaseManager NetworkMonitor Reference Examples.

Lemma after_first_ready first : store_ready (w_db (self_world (after_first first))).
Proof. exact fresh_db_ready. Qed.


(** The amended C1 at a first sample, at a repeated timestamp and at a
    pair whose counters fell from 100 to 0. *)
Lemma network_check_skipped_or_signed_witness :
  _check_thresholds default_config [wlan0 0 100 0]
    (mkSelf ∅ (new_world 0 1))
  = (Ok tt, remember (wlan0 0 100 0) (mkSelf ∅ (new_world 0 1)))
  /\ _check_thresholds default_config [wlan0 0 900 0] (after_first (wlan0 0 100 0))
     = (Ok tt, remember (wlan0 0 900 0) (after_first (wlan0 0 100 0)))
  /\ (bytes_rate (wlan0 0 100 0) (wlan0 1 0 0) < 0)%Q
  /\ _check_thresholds default_config [wlan0 1 0 0] (after_first (wlan0 0 100 0))
     = (Ok tt, remember (wlan0 1 0 0) (after_first (wlan0 0 100 0))).
Proof.
  destruct (network_check_skipped_or_signed default_config (wlan0 0 100 0)
              (mkSelf ∅ (new_world 0 1))) as (Hfirst & _ & _).
  destruct (network_check_skipped_or_signed default_config (wlan0 0 900 0)
              (after_first (wlan0 0 100 0))) as (_ & Hsame & _).
  destruct (network_check_skipped_or_signed default_config (wlan0 1 0 0)
              (after_first (wlan0 0 100 0))) as (_ & _ & Hreset).
  split; [| split].
  - apply Hfirst. reflexivity.
  - apply (Hsame (wlan0 0 100 0)).
    + reflexivity.
    + apply Qle_bool_iff. reflexivity.
  - apply (Hreset (wlan0 0 100 0)).
    + reflexivity.
    + reflexivity.
    + reflexivity.
    + apply Qle_bool_iff. reflexivity.
Defined.

(** C1 as stated fails: between these two samples of wlan0 [bytes_sent]
    fell from 1 to 0, a reset, while [bytes_recv] grew by 2^40 in one
    second. The pair is not skipped: a rate of 2^40 - 1 bytes per second
    is computed from it and a WARNING alert carrying that rate is stored. *)
Lemma network_reset_pair_raises_alert :
  let last := wlan0 0 1 0 in
  let stat := wlan0 1 0 1099511627776 in
  (bytes_sent stat < bytes_sent last)%Z
  /\ exists s',
       _check_thresholds default_config [stat] (after_first last) = (Ok tt, s')
       /\ alerts (after_first last) = []
       /\ alerts s' = [network_alert 0 last stat]
       /\ row_get (network_alert 0 last stat) "severity" = VStr "WARNING"
       /\ (bytes_rate last stat == 1099511627775)%Q.
Proof.
  intros last stat. split; [reflexivity |].
  destruct (check_stat_alert default_config stat last (after_first last))
    as (s' & Hrun & _ & Halerts & _).
  - apply after_first_ready.
  - reflexivity.
  - reflexivity.
  - reflexivity.
  - exists s'. unfold _check_thresholds. cbn [for_each]. unfold mbind, StE_bind.
    rewrite Hrun. split; [reflexivity |]. split; [vm_compute; reflexivity |].
    split; [exact Halerts |]. split; reflexivity.
Qed.

(** Two polls of the loop, five seconds apart on the clock: the first
    sample is only remembered, the second gives 600 MiB in the five seconds
    that the two timestamps are apart, and one alert. *)
Example network_loop_two_polls :
  let s := NetworkMonitor._monitor_loop default_config
             [ NetworkMonitor.mkTick true (wlan0_counters 0);
               NetworkMonitor.mkTick true (wlan0_counters 629145600) ]
             (NetworkMonitor.mkSelf ∅ (new_world 0 5)) in
  length (table_rows "network_stats" (w_db (self_world s))) = 2%nat
  /\ alerts s = [network_alert 10 (wlan0 0 0 0) (wlan0 5 629145600 0)]
  /\ (mb_rate (wlan0 0 0 0) (wlan0 5 629145600 0) == 120)%Q.
Proof. vm_compute. repeat split. Qed.

End NetworkExamples.

Section Dictionaries.
Context {A : Type}.
Implicit Types (d : list (string * A)) (k : string) (v : A).

Lemma dict_get_Some_elem d k v : dict_get d k = Some v -> (k, v) ∈ d.
Proof.
  induction d as [| [k' v'] d IH]; cbn; [discriminate |].
  destruct (String.eqb_spec k' k) as [-> | Hne].
  - intros [= ->]. left.
  - intros H. right. auto.
Qed.

Lemma dict_get_None_keys d k : dict_get d k = None <-> k ∉ dict_keys d.
Proof.
  induction d as [| [k' v'] d IH]; cbn.
  - split; [intros _; apply not_elem_of_nil | reflexivity].
  - rewrite not_elem_of_cons. destruct (String.eqb_spec k' k) as [-> | Hne].
    + split; [discriminate | intros [[] _]; reflexivity].
    + rewrite IH. split; [intros H; split; [congruence | exact H] | intros [_ H]; exact H].
Qed.

Lemma elem_dict_get d k v : NoDup (dict_keys d) -> (k, v) ∈ d -> dict_get d k = Some v.
Proof.
  induction d as [| [k' v'] d IH]; cbn; intros Hnd Hin.
  - apply elem_of_nil in Hin as [].
  - apply NoDup_cons in Hnd as [Hk' Hnd].
    apply elem_of_cons in Hin as [[= -> ->] | Hin].
    + rewrite String.eqb_refl. reflexivity.
    + destruct (String.eqb_spec k' k) as [-> | Hne]; [| auto].
      exfalso. apply Hk'. apply list_elem_of_fmap. exists (k, v). split; [reflexivity | exact Hin].
Qed.

Lemma dict_mem_true d k : dict_mem d k = true <-> exists v, dict_get d k = Some v.
Proof.
  unfold dict_mem. destruct (dict_get d k); split; eauto; try discriminate.
  intros [v [=]].
Qed.

Lemma dict_mem_false d k : dict_mem d k = false <-> dict_get d k = None.
Proof. unfold dict_mem. destruct (dict_get d k); split; auto; discriminate. Qed.

Lemma dict_keys_set k v d :
  dict_keys (dict_set k v d)
  = if bool_decide (k ∈ dict_keys d) then dict_keys d else dict_keys d ++ [k].
Proof.
  induction d as [| [k' v'] d IH]; cbn; [reflexivity |].
  destruct (String.eqb_spec k' k) as [-> | Hne]; cbn.
  - rewrite bool_decide_eq_true_2 by left. reflexivity.
  - fold (dict_keys (dict_set k v d)). fold (dict_keys d). rewrite IH.
    destruct (bool_decide (k ∈ dict_keys d)) eqn:Hk.
    + apply bool_decide_eq_true_1 in Hk.
      rewrite bool_decide_eq_true_2 by (right; exact Hk). reflexivity.
    + apply bool_decide_eq_false_1 in Hk.
      rewrite bool_decide_eq_false_2; [reflexivity |].
      intros Hin. apply elem_of_cons in Hin as [-> | Hin]; [congruence | auto].
Qed.

Lemma dict_set_NoDup k v d : NoDup (dict_keys d) -> NoDup (dict_keys (dict_set k v d)).
Proof.
  intros Hnd. rewrite dict_keys_set. case_bool_decide as Hk; [exact Hnd |].
  apply NoDup_app. split; [exact Hnd |]. split; [| apply NoDup_singleton].
  intros x Hx Hin. apply list_elem_of_singleton in Hin as ->. auto.
Qed.

(** A list of events made from distinct keys, each event naming its key,
    has no repetition. *)
Lemma NoDup_omap_keys {B : Type} (key : B -> string)
    (f : string * A -> option B) d :
  (forall x y, f x = Some y -> key y = fst x) ->
  NoDup (dict_keys d) -> NoDup (omap f d).
Proof.
  intros Hkey. induction d as [| x d IH]; cbn; intros Hnd; [constructor |].
  apply NoDup_cons in Hnd as [Hx Hnd]. destruct (f x) as [y |] eqn:Hfx; [| auto].
  apply NoDup_cons. split; [| auto].
  intros Hin. apply list_elem_of_omap in Hin as (x' & Hx' & Hfx').
  apply Hx. apply list_elem_of_fmap. exists x'. split; [| exact Hx'].
  rewrite <- (Hkey _ _ Hfx), <- (Hkey _ _ Hfx'). reflexivity.
Qed.

End Dictionaries.

Section Filesystem.
Import DatabaseManager FilesystemMonitor.

Lemma scan_into_NoDup stated : forall d,
  NoDup (dict_keys d) -> NoDup (dict_keys (scan_into stated d)).
Proof.
  unfold scan_into. induction stated as [| [p st] stated IH]; cbn; intros d Hd;
    [exact Hd | apply IH, dict_set_NoDup, Hd].
Qed.

Lemma Qeq_bool_false x y : Qeq_bool x y = false <-> ~ (x == y)%Q.
Proof.
  rewrite <- not_true_iff_false, Qeq_bool_iff. reflexivity.
Qed.

(** C8. One tick of the filesystem collector, from the previous snapshot
    [P] (a dictionary: its keys are distinct) and the newly scanned
    snapshot [C]: the events hold no repetition and are exactly a
    [created] event for each path of [C] that [P] lacks, a [modified]
    event for each path of both whose mtime differs, and a [deleted]
    event, with size 0 and empty permissions and owner, for each path of
    [P] that [C] lacks; [C] is the stored snapshot afterwards. *)
Theorem detect_changes_events (stated : list (string * file_stat)) (s : Self) :
  NoDup (dict_keys (file_stats s)) ->
  let previous := file_stats s in
  let current := scan_into stated [] in
  let now := w_clock (self_world s) (w_time_calls (self_world s)) in
  exists events s',
    _detect_changes stated s = (Ok events, s')
    /\ file_stats s' = current
    /\ NoDup (dict_keys current)
    /\ NoDup events
    /\ forall e,
         e ∈ events <->
         (exists new_stat,
             dict_get current (path e) = Some new_stat
             /\ dict_get previous (path e) = None
             /\ e = mkEvent now "created" (path e) (fs_size new_stat)
                      (fs_permissions new_stat) (str (fs_owner new_stat)))
         \/ (exists old_stat new_stat,
                dict_get current (path e) = Some new_stat
                /\ dict_get previous (path e) = Some old_stat
                /\ ~ (fs_mtime old_stat == fs_mtime new_stat)%Q
                /\ e = mkEvent now "modified" (path e) (fs_size new_stat)
                         (fs_permissions new_stat) (str (fs_owner new_stat)))
         \/ (exists old_stat,
                dict_get previous (path e) = Some old_stat
                /\ dict_get current (path e) = None
                /\ e = mkEvent now "deleted" (path e) 0 EmptyString EmptyString).
Proof.
  intros HP previous current now.
  assert (HC : NoDup (dict_keys current)).
  { apply scan_into_NoDup. constructor. }
  unfold _detect_changes, in_world, zoom, time_time, get_state, put_state,
    mbind, mret, StE_bind, StE_ret.
  cbn [file_stats self_world world set_world Self_collector w_clock w_time_calls].
  fold previous current now.
  eexists _, _. split; [reflexivity |].
  cbn [file_stats self_world].
  split; [reflexivity |]. split; [exact HC |]. split.
  - apply NoDup_app. split; [| split; [| apply NoDup_app; split; [| split]]].
    + apply (NoDup_omap_keys path); [| exact HC].
      intros x y. destruct (dict_mem previous (fst x)); [discriminate |].
      intros [= <-]. reflexivity.
    + intros e Hc Hin. apply list_elem_of_omap in Hc as (x & _ & Hx).
      destruct (dict_mem previous (fst x)); [discriminate |]. injection Hx as <-.
      apply elem_of_app in Hin as [Hin | Hin];
        apply list_elem_of_omap in Hin as (x' & _ & Hx').
      * destruct (dict_get previous (fst x')); [| discriminate].
        destruct (negb _); discriminate.
      * destruct (dict_mem current (fst x')); discriminate.
    + apply (NoDup_omap_keys path); [| exact HC].
      intros x y. destruct (dict_get previous (fst x)); [| discriminate].
      destruct (negb _); [| discriminate]. intros [= <-]. reflexivity.
    + intros e Hm Hin. apply list_elem_of_omap in Hm as (x & _ & Hx).
      destruct (dict_get previous (fst x)); [| discriminate].
      destruct (negb _); [| discriminate]. injection Hx as <-.
      apply list_elem_of_omap in Hin as (x' & _ & Hx').
      destruct (dict_mem current (fst x')); discriminate.
    + apply (NoDup_omap_keys path); [| exact HP].
      intros x y. destruct (dict_mem current (fst x)); [discriminate |].
      intros [= <-]. reflexivity.
  - intros e. rewrite !elem_of_app.
    unfold new_files, modified_files, deleted_files. rewrite !list_elem_of_omap.
    split.
    + intros [(x & Hin & Hx) | [(x & Hin & Hx) | (x & Hin & Hx)]].
      * left. destruct (dict_mem previous (fst x)) eqn:Hmem; [discriminate |].
        injection Hx as <-. cbn [path created_event].
        exists (snd x). split; [| split; [apply dict_mem_false, Hmem | reflexivity]].
        apply elem_dict_get; [exact HC |]. destruct x; exact Hin.
      * right; left. destruct (dict_get previous (fst x)) as [old |] eqn:Hold;
          [| discriminate].
        destruct (negb _) eqn:Hneq; [| discriminate]. injection Hx as <-.
        cbn [path modified_event]. exists old, (snd x).
        split; [apply elem_dict_get; [exact HC | destruct x; exact Hin] |].
        split; [exact Hold |]. split; [| reflexivity].
        apply Qeq_bool_false. apply negb_true_iff in Hneq. exact Hneq.
      * right; right. destruct (dict_mem current (fst x)) eqn:Hmem; [discriminate |].
        injection Hx as <-. cbn [path deleted_event]. exists (snd x).
        split; [apply elem_dict_get; [exact HP | destruct x; exact Hin] |].
        split; [apply dict_mem_false, Hmem | reflexivity].
    + intros [(st & Hcur & Hprev & He) | [(old & st & Hcur & Hprev & Hne & He)
                                         | (old & Hprev & Hcur & He)]].
      * left. exists (path e, st). split; [apply dict_get_Some_elem, Hcur |].
        cbn [fst snd]. apply dict_mem_false in Hprev. rewrite Hprev.
        rewrite He at 2. reflexivity.
      * right; left. exists (path e, st). split; [apply dict_get_Some_elem, Hcur |].
        cbn [fst snd]. rewrite Hprev. apply Qeq_bool_false in Hne. rewrite Hne.
        cbn [negb]. rewrite He at 2. reflexivity.
      * right; right. exists (path e, old).
        split; [apply dict_get_Some_elem, Hprev |].
        cbn [fst snd]. apply dict_mem_false in Hcur. rewrite Hcur.
        rewrite He at 2. reflexivity.
Qed.

End Filesystem.

Section FilesystemExamples.
Import DatabaseManager FilesystemMonitor Reference Examples.

(** The example of the design document: from ["/x"] with mtime 1 to
    ["/x"] with mtime 2 and a new ["/y"]. *)
Lemma detect_changes_events_witness :
  exists s',
    _detect_changes [("/x", file 2); ("/y", file 1)] (watching [("/x", file 1)])
    = (Ok [ mkEvent 0 "created" "/y" 10 "644" "1000";
            mkEvent 0 "modified" "/x" 10 "644" "1000" ], s')
    /\ file_stats s' = [("/x", file 2); ("/y", file 1)].
Proof.
  destruct (detect_changes_events [("/x", file 2); ("/y", file 1)]
              (watching [("/x", file 1)]))
    as (events & s' & Hrun & Hstored & _).
  - apply NoDup_singleton.
  - exists s'. split; [| exact Hstored].
    rewrite Hrun. vm_compute in Hrun. injection Hrun as <- _. reflexivity.
Defined.

(** Its continuation: ["/x"] is gone at the next scan. *)
Example detect_changes_deleted :
  fst (_detect_changes [("/y", file 1)]
         (watching [("/x", file 2); ("/y", file 1)]))
  = Ok [ mkEvent 0 "deleted" "/x" 0 EmptyString EmptyString ].
Proof. vm_compute. reflexivity. Qed.

End FilesystemExamples.

Section Unchanged.
Context {S : Type}.

Lemma reads_only_ret {A} (a : A) : reads_only (mret a : StE S A).
Proof. intros s. reflexivity. Qed.

Lemma reads_only_raise {A} e : reads_only (raise e : StE S A).
Proof. intros s. reflexivity. Qed.


Lemma reads_only_getitem {A} (l : list A) i : reads_only (getitem l i : StE S A).
Proof. unfold getitem. destruct (l !! i); [apply reads_only_ret | apply reads_only_raise]. Qed.

Lemma reads_only_int_of_string str : reads_only (int_of_string str : StE S Z).
Proof.
  unfold int_of_string. destruct str; [apply reads_only_raise |].
  destruct (int_digits _ _); [apply reads_only_ret | apply reads_only_raise].
Qed.

Lemma reads_only_make_datetime y m d h mi sec :
  reads_only (make_datetime y m d h mi sec : StE S datetime).
Proof.
  unfold make_datetime. destruct (valid_datetime _);
    [apply reads_only_ret | apply reads_only_raise].
Qed.


End Unchanged.

Create HintDb reads_only.
#[local] Hint Resolve reads_only_ret reads_only_raise reads_only_getitem
  reads_only_int_of_string reads_only_make_datetime : reads_only.

Section LogcatParse.
Context {P : Platform}.
Import LogcatMonitor.


End LogcatParse.

Section AppParse.
Import AppMonitor.



End AppParse.

(** ** The push-style loops *)


Lemma tick_clock_db w : w_db (tick_clock w) = w_db w.
Proof. reflexivity. Qed.

Lemma bind_run {S A B : Type} (m : StE S A) (f : A -> StE S B) (s : S) :
  (m ≫= f) s
  = match m s with
    | (Ok a, s') => f a s'
    | (Raise e, s') => (Raise e, s')
    end.
Proof. reflexivity. Qed.

Lemma in_world_run {S A : Type} `{Collector S} (m : StE World A) (s : S) :
  in_world m s = (fst (m (world s)), set_world (snd (m (world s))) s).
Proof. unfold in_world, zoom. destruct (m (world s)); reflexivity. Qed.

Section Logcat.
Context {P : Platform}.
Import DatabaseManager LogcatMonitor.





Lemma step_finished cfg r s : step cfg r (Finished, s) = (Finished, s).
Proof. reflexivity. Qed.

Lemma run_finished cfg reads s :
  fold_left (fun ts r => step cfg r ts) reads (Finished, s) = (Finished, s).
Proof. induction reads as [| r reads IH]; [reflexivity | exact IH]. Qed.




End Logcat.

Section App.
Import DatabaseManager AppMonitor.










End App.

Section PushLoops.
Context {P : Platform}.
Import DatabaseManager.



End PushLoops.

Section PushLoopExamples.
Import DatabaseManager Reference Examples.




End PushLoopExamples.

Section StoreErrors.
Import DatabaseManager Reference Examples.

(** C2 fails on the code for the log-stream collectors. The first record
    is due for a flush (ten seconds have passed), [insert_batch] raises,
    and the handler that catches the exception is outside the [for] loop:
    the thread is past the end of [_monitor_loop] after the first line, and
    the second and third lines are never read (one entry in the ring
    buffer, one diagnostic, three readings of the clock, all made for the
    first line). *)
Lemma logcat_loop_ends_at_store_error :
  let run := LogcatMonitor._monitor_loop default_config (Ok tt)
               [Line logcat_line true; Line logcat_line true; Line logcat_line true]
               (LogcatMonitor.mkSelf [] closed_world) in
  let run1 := LogcatMonitor._monitor_loop default_config (Ok tt)
                [Line logcat_line true] (LogcatMonitor.mkSelf [] closed_world) in
  fst run = LogcatMonitor.Finished
  /\ run = run1
  /\ length (LogcatMonitor.buffer (snd run)) = 1%nat
  /\ w_errors (LogcatMonitor.self_world (snd run)) = [ProgrammingError]
  /\ w_time_calls (LogcatMonitor.self_world (snd run)) = 3%nat.
Proof. vm_compute. repeat split. Qed.

(** The App collector's loop has the same shape and ends the same way. *)
Lemma app_loop_ends_at_store_error :
  let run := AppMonitor._monitor_loop (Ok tt)
               [Line app_line true; Line app_line true; Line app_line true]
               closed_world in
  fst run = AppMonitor.Finished
  /\ w_errors (snd run) = [ProgrammingError]
  /\ w_time_calls (snd run) = 3%nat.
Proof. vm_compute. repeat split. Qed.

(** The pull-style loops have the handler inside the [while]: on the same
    store the network collector fails at each of its three passes and goes
    on to the next. *)
Lemma network_loop_survives_store_errors :
  let s := NetworkMonitor._monitor_loop default_config
             [ NetworkMonitor.mkTick true (wlan0_counters 1);
               NetworkMonitor.mkTick true (wlan0_counters 2);
               NetworkMonitor.mkTick true (wlan0_counters 3) ]
             (NetworkMonitor.mkSelf ∅ closed_world) in
  w_errors (NetworkMonitor.self_world s)
  = [ProgrammingError; ProgrammingError; ProgrammingError]
  /\ w_time_calls (NetworkMonitor.self_world s) = 3%nat.
Proof. vm_compute. repeat split. Qed.

(** In general: a pass of a pull-style loop that raises is followed by the
    next pass. *)
Lemma network_loop_continues {P : Platform} cfg t ticks s :
  NetworkMonitor.running t = true ->
  NetworkMonitor._monitor_loop cfg (t :: ticks) s
  = NetworkMonitor._monitor_loop cfg ticks
      (snd (try_except (NetworkMonitor.poll cfg t) tt s)).
Proof. intros Hrun. cbn [NetworkMonitor._monitor_loop]. rewrite Hrun. reflexivity. Qed.

End StoreErrors.

Section Strings.

Lemma append_cons c s t : String c s +:+ t = String c (s +:+ t).
Proof. reflexivity. Qed.

Lemma append_empty_l t : EmptyString +:+ t = t.
Proof. reflexivity. Qed.

Lemma append_empty_r s : s +:+ EmptyString = s.
Proof. induction s as [| c s IH]; [reflexivity |]. rewrite append_cons, IH. reflexivity. Qed.

Lemma append_assoc s t u : (s +:+ t) +:+ u = s +:+ (t +:+ u).
Proof.
  induction s as [| c s IH]; [reflexivity |]. rewrite !append_cons, IH. reflexivity.
Qed.

Lemma length_append s t : String.length (s +:+ t) = (String.length s + String.length t)%nat.
Proof.
  induction s as [| c s IH]; [reflexivity |]. rewrite append_cons. cbn [String.length].
  rewrite IH. reflexivity.
Qed.

Lemma string_take_length s : string_take (String.length s) s = s.
Proof. induction s as [| c s IH]; [reflexivity |]. cbn. rewrite IH. reflexivity. Qed.

Lemma string_take_append s t : string_take (String.length s) (s +:+ t) = s.
Proof.
  induction s as [| c s IH]; [destruct t; reflexivity |].
  rewrite append_cons. cbn. rewrite IH. reflexivity.
Qed.

Lemma string_take_consumed s t :
  string_take (String.length (s +:+ t) - String.length t) (s +:+ t) = s.
Proof.
  rewrite length_append.
  replace (String.length s + String.length t - String.length t)%nat
    with (String.length s) by lia.
  apply string_take_append.
Qed.

End Strings.

(** ** What a pattern takes from the front of a text *)

Section Takes.

Lemma takes_chr p c rest : p c = true -> takes (chr p) (String c EmptyString) [] rest.
Proof.
  intros Hc k g Hk. rewrite append_cons, append_empty_l. unfold chr.
  rewrite Hc. exact Hk.
Qed.

Lemma takes_lit t rest : takes (lit t) t [] rest.
Proof.
  induction t as [| c t IH]; intros k g Hk; [exact Hk |].
  rewrite append_cons. cbn [lit]. unfold chr, is_char. rewrite Ascii.eqb_refl.
  apply IH, Hk.
Qed.

Lemma takes_rep p t rest :
  string_forall p t = true -> takes (rep (String.length t) p) t [] rest.
Proof.
  induction t as [| c t IH]; intros Hall k g Hk; [exact Hk |].
  cbn in Hall. apply andb_true_iff in Hall as [Hc Ht].
  rewrite append_cons. cbn [String.length rep]. unfold chr. rewrite Hc.
  apply IH; assumption.
Qed.

Lemma takes_star p t rest :
  string_forall p t = true -> stops p rest -> takes (star p) t [] rest.
Proof.
  intros Hall Hstop k g Hk. induction t as [| c t IH].
  - rewrite append_empty_l. destruct rest as [| c rest]; [exact Hk |].
    cbn in Hstop |- *. rewrite Hstop. exact Hk.
  - cbn in Hall. apply andb_true_iff in Hall as [Hc Ht].
    rewrite append_cons. cbn [star]. rewrite Hc, (IH Ht). reflexivity.
Qed.

Lemma takes_plus p c t rest :
  p c = true -> string_forall p t = true -> stops p rest ->
  takes (plus p) (String c t) [] rest.
Proof.
  intros Hc Ht Hstop k g Hk. rewrite append_cons. unfold plus, chr. rewrite Hc.
  apply takes_star; assumption.
Qed.

Lemma takes_group r t rest : takes r t [] rest -> takes (group r) t [t] rest.
Proof.
  intros Hr k g Hk. unfold group.
  rewrite (Hr _ (t :: g)); [reflexivity |].
  rewrite Hk, string_take_consumed. reflexivity.
Qed.

Lemma takes_nil rest : takes (sequence []) EmptyString [] rest.
Proof. intros k g Hk. exact Hk. Qed.

Lemma takes_cons r rs t1 t2 c1 c2 rest :
  takes r t1 c1 (t2 +:+ rest) -> takes (sequence rs) t2 c2 rest ->
  takes (sequence (r :: rs)) (t1 +:+ t2) (c1 ++ c2) rest.
Proof.
  intros H1 H2 k g Hk. cbn [sequence]. rewrite append_assoc, <- app_assoc.
  apply H1. apply H2. exact Hk.
Qed.

Lemma takes_match r t caps : takes r t caps EmptyString -> re_match r t = Some caps.
Proof.
  intros H. unfold re_match. specialize (H (fun _ => Some []) [] eq_refl).
  rewrite append_empty_r, app_nil_r in H. exact H.
Qed.

End Takes.

(** ** Writing a logcat line *)

Section Digits.

Lemma is_digit_not_space c : is_digit c = true -> is_space c = false.
Proof.
  destruct c as [[] [] [] [] [] [] [] []]; vm_compute; congruence.
Qed.

Lemma is_digit_not_char c a :
  is_digit c = true -> is_digit a = false -> Ascii.eqb c a = false.
Proof.
  intros Hc Ha. destruct (Ascii.eqb_spec c a) as [-> | Hne]; congruence.
Qed.

Lemma digit_small n :
  (0 <= n <= 9)%Z ->
  is_digit (digit n) = true /\ Z.of_N (code (digit n) - 48) = n.
Proof.
  intros Hn. rewrite <- (Z2Nat.id n) by lia.
  assert (Hm : (Z.to_nat n < 10)%nat) by lia.
  revert Hm. generalize (Z.to_nat n) as m. intros m Hm.
  do 10 (destruct m as [| m]; [split; reflexivity |]). lia.
Qed.

Lemma two_digits_forall n : (0 <= n < 100)%Z -> string_forall is_digit (two_digits n) = true.
Proof.
  intros Hn. unfold two_digits. cbn [string_forall].
  destruct (digit_small (n / 10)) as [-> _]; [Z.div_mod_to_equations; lia |].
  destruct (digit_small (n mod 10)) as [-> _]; [Z.div_mod_to_equations; lia |].
  reflexivity.
Qed.

Lemma three_digits_forall n :
  (0 <= n < 1000)%Z -> string_forall is_digit (three_digits n) = true.
Proof.
  intros Hn. unfold three_digits. cbn [string_forall].
  destruct (digit_small (n / 100)) as [-> _]; [Z.div_mod_to_equations; lia |].
  apply two_digits_forall. Z.div_mod_to_equations; lia.
Qed.

Lemma int_of_two_digits {S : Type} n (s : S) :
  (0 <= n < 100)%Z -> int_of_string (two_digits n) s = (Ok n, s).
Proof.
  intros Hn. unfold int_of_string, two_digits. cbn [int_digits].
  destruct (digit_small (n / 10)) as [-> ->]; [Z.div_mod_to_equations; lia |].
  destruct (digit_small (n mod 10)) as [-> ->]; [Z.div_mod_to_equations; lia |].
  unfold mret, StE_ret. do 2 f_equal. Z.div_mod_to_equations; lia.
Qed.

Lemma int_of_three_digits {S : Type} n (s : S) :
  (0 <= n < 1000)%Z -> int_of_string (three_digits n) s = (Ok n, s).
Proof.
  intros Hn. unfold int_of_string, three_digits, two_digits. cbn [int_digits].
  destruct (digit_small (n / 100)) as [-> ->]; [Z.div_mod_to_equations; lia |].
  destruct (digit_small (n mod 100 / 10)) as [-> ->]; [Z.div_mod_to_equations; lia |].
  destruct (digit_small ((n mod 100) mod 10)) as [-> ->]; [Z.div_mod_to_equations; lia |].
  unfold mret, StE_ret. do 2 f_equal. Z.div_mod_to_equations; lia.
Qed.

End Digits.

Section StringMethods.

Lemma string_forall_impl (p q : ascii -> bool) s :
  (forall c, p c = true -> q c = true) ->
  string_forall p s = true -> string_forall q s = true.
Proof.
  intros Hpq. induction s as [| c s IH]; [reflexivity |]. cbn.
  rewrite !andb_true_iff. intros [Hc Hs]. auto.
Qed.

Lemma string_forall_append p s t :
  string_forall p (s +:+ t) = string_forall p s && string_forall p t.
Proof.
  induction s as [| c s IH]; [reflexivity |]. rewrite append_cons. cbn.
  rewrite IH, andb_assoc. reflexivity.
Qed.

Lemma digits_not_space s : string_forall is_digit s = true -> string_forall not_space s = true.
Proof.
  apply string_forall_impl. intros c Hc. unfold not_space.
  rewrite (is_digit_not_space c Hc). reflexivity.
Qed.

Lemma digits_not_char a s :
  is_digit a = false ->
  string_forall is_digit s = true -> string_forall (not_char a) s = true.
Proof.
  intros Ha. apply string_forall_impl. intros c Hc. unfold not_char.
  rewrite Ascii.eqb_sym, (is_digit_not_char c a Hc Ha). reflexivity.
Qed.

Lemma split_ws_aux_word cur s rest :
  string_forall not_space s = true ->
  split_ws_aux cur (s +:+ rest) = split_ws_aux (cur +:+ s) rest.
Proof.
  revert cur. induction s as [| c s IH]; intros cur Hs.
  - rewrite append_empty_l, append_empty_r. reflexivity.
  - cbn in Hs. apply andb_true_iff in Hs as [Hc Hs].
    rewrite append_cons. cbn [split_ws_aux].
    unfold not_space in Hc. apply negb_true_iff in Hc. rewrite Hc.
    rewrite (IH _ Hs), append_assoc. reflexivity.
Qed.

Lemma split_ws_word s rest c :
  s <> EmptyString -> string_forall not_space s = true -> is_space c = true ->
  split_ws (s +:+ String c rest) = s :: split_ws rest.
Proof.
  intros Hne Hs Hc. unfold split_ws. rewrite (split_ws_aux_word _ _ _ Hs).
  rewrite append_empty_l. cbn [split_ws_aux]. rewrite Hc.
  destruct s; [congruence | reflexivity].
Qed.

Lemma split_ws_skip b rest :
  string_forall is_space b = true -> split_ws (b +:+ rest) = split_ws rest.
Proof.
  induction b as [| c b IH]; [reflexivity |]. cbn [string_forall].
  rewrite andb_true_iff. intros [Hc Hb]. rewrite append_cons.
  unfold split_ws. cbn [split_ws_aux]. rewrite Hc. apply IH, Hb.
Qed.

Lemma split_ws_blank s b rest :
  s <> EmptyString -> string_forall not_space s = true -> is_blank b ->
  split_ws (s +:+ b +:+ rest) = s :: split_ws rest.
Proof.
  intros Hne Hs [Hb1 Hb2]. destruct b as [| c b]; [congruence |].
  cbn in Hb2. apply andb_true_iff in Hb2 as [Hc Hb]. rewrite append_cons.
  rewrite (split_ws_word s _ c Hne Hs Hc). f_equal. apply split_ws_skip, Hb.
Qed.

Lemma split_ws_last s :
  s <> EmptyString -> string_forall not_space s = true -> split_ws s = [s].
Proof.
  intros Hne Hs. unfold split_ws.
  rewrite <- (append_empty_r s) at 1. rewrite (split_ws_aux_word _ _ _ Hs).
  rewrite append_empty_l. cbn [split_ws_aux]. destruct s; [congruence | reflexivity].
Qed.

Lemma split_on_last sep s :
  string_forall (not_char sep) s = true -> split_on sep s = [s].
Proof.
  induction s as [| c s IH]; [reflexivity |]. cbn.
  rewrite andb_true_iff. intros [Hc Hs]. unfold not_char in Hc.
  apply negb_true_iff in Hc. rewrite Ascii.eqb_sym, Hc, (IH Hs). reflexivity.
Qed.

Lemma split_on_field sep s rest :
  string_forall (not_char sep) s = true ->
  split_on sep (s +:+ String sep rest) = s :: split_on sep rest.
Proof.
  induction s as [| c s IH].
  - intros _. rewrite append_empty_l. cbn. rewrite Ascii.eqb_refl. reflexivity.
  - cbn [string_forall]. rewrite andb_true_iff. intros [Hc Hs].
    rewrite append_cons. cbn [split_on]. unfold not_char in Hc.
    apply negb_true_iff in Hc. rewrite Ascii.eqb_sym, Hc, (IH Hs). reflexivity.
Qed.

Lemma replace_char_append a b s t :
  replace_char a b (s +:+ t) = replace_char a b s +:+ replace_char a b t.
Proof.
  induction s as [| c s IH]; [reflexivity |]. rewrite append_cons. cbn.
  rewrite IH. reflexivity.
Qed.

Lemma replace_char_absent a b s :
  string_forall (not_char a) s = true -> replace_char a b s = s.
Proof.
  induction s as [| c s IH]; [reflexivity |]. cbn. rewrite andb_true_iff.
  intros [Hc Hs]. unfold not_char in Hc. apply negb_true_iff in Hc.
  rewrite Ascii.eqb_sym, Hc, (IH Hs). reflexivity.
Qed.

End StringMethods.

Section LogcatRoundTrip.
Context {P : Platform}.
Import LogcatMonitor.

Lemma takes_then r rs t1 t2 c2 rest :
  takes r t1 [] (t2 +:+ rest) -> takes (sequence rs) t2 c2 rest ->
  takes (sequence (r :: rs)) (t1 +:+ t2) c2 rest.
Proof. intros H1 H2. exact (takes_cons r rs t1 t2 [] c2 rest H1 H2). Qed.

Lemma takes_then_group r rs t1 t2 c2 rest :
  takes r t1 [] (t2 +:+ rest) -> takes (sequence rs) t2 c2 rest ->
  takes (sequence (group r :: rs)) (t1 +:+ t2) (t1 :: c2) rest.
Proof.
  intros H1 H2. apply (takes_cons (group r) rs t1 t2 [t1] c2 rest); [| exact H2].
  apply takes_group, H1.
Qed.

Lemma takes_last r t caps rest : takes r t caps rest -> takes (sequence [r]) t caps rest.
Proof.
  intros H. rewrite <- (append_empty_r t), <- (app_nil_r caps).
  apply takes_cons; [rewrite append_empty_l; exact H | apply takes_nil].
Qed.

Lemma stops_digit p n s :
  (0 <= n <= 9)%Z -> (forall c, is_digit c = true -> p c = false) ->
  stops p (String (digit n) s).
Proof. intros Hn Hp. cbn. apply Hp, digit_small, Hn. Qed.

Lemma two_digits_takes n rest :
  (0 <= n < 100)%Z -> takes (rep 2 is_digit) (two_digits n) [] rest.
Proof. intros Hn. apply (takes_rep is_digit (two_digits n)), two_digits_forall, Hn. Qed.

Lemma three_digits_takes n rest :
  (0 <= n < 1000)%Z -> takes (rep 3 is_digit) (three_digits n) [] rest.
Proof. intros Hn. apply (takes_rep is_digit (three_digits n)), three_digits_forall, Hn. Qed.

Lemma blank_takes b rest :
  is_blank b -> stops is_space rest -> takes (plus is_space) b [] rest.
Proof.
  intros [Hne Hb] Hstop. destruct b as [| c b]; [congruence |].
  cbn in Hb. apply andb_true_iff in Hb as [Hc Hb]. apply takes_plus; assumption.
Qed.

Lemma format_time_takes b month day hour minute second millis rest :
  is_blank (before_time b) ->
  (0 <= month < 100)%Z -> (0 <= day < 100)%Z -> (0 <= hour < 100)%Z ->
  (0 <= minute < 100)%Z -> (0 <= second < 100)%Z -> (0 <= millis < 1000)%Z ->
  takes (sequence [ rep 2 is_digit; lit "-"; rep 2 is_digit; plus is_space;
                    rep 2 is_digit; lit ":"; rep 2 is_digit; lit ":";
                    rep 2 is_digit; lit "."; rep 3 is_digit ])
        (format_time b month day hour minute second millis) [] rest.
Proof.
  intros Hb Hmo Hd Hh Hmi Hs Hms. unfold format_time, format_date, format_clock.
  rewrite !append_assoc.
  apply takes_then; [apply two_digits_takes, Hmo |].
  apply takes_then; [apply takes_lit |].
  apply takes_then; [apply two_digits_takes, Hd |].
  apply takes_then.
  { apply blank_takes; [exact Hb |].
    unfold two_digits at 1. rewrite !append_cons.
    apply stops_digit; [Z.div_mod_to_equations; lia | apply is_digit_not_space]. }
  apply takes_then; [apply two_digits_takes, Hh |].
  apply takes_then; [apply takes_lit |].
  apply takes_then; [apply two_digits_takes, Hmi |].
  apply takes_then; [apply takes_lit |].
  apply takes_then; [apply two_digits_takes, Hs |].
  apply takes_then; [apply takes_lit |].
  apply takes_last, three_digits_takes, Hms.
Qed.

Lemma stops_number p s rest :
  is_number s -> (forall c, is_digit c = true -> p c = false) -> stops p (s +:+ rest).
Proof.
  intros [Hne Hs] Hp. destruct s as [| c s]; [congruence |].
  rewrite append_cons. cbn in Hs |- *. apply andb_true_iff in Hs as [Hc _]. auto.
Qed.

Lemma number_takes s rest :
  is_number s -> stops is_digit rest -> takes (plus is_digit) s [] rest.
Proof.
  intros [Hne Hs] Hstop. destruct s as [| c s]; [congruence |].
  cbn in Hs. apply andb_true_iff in Hs as [Hc Hs]. apply takes_plus; assumption.
Qed.

(** The pattern gives back the fields that the line was written from. *)
Lemma log_pattern_groups b month day hour minute second millis pid tid level tag message :
  are_blanks b ->
  (0 <= month < 100)%Z -> (0 <= day < 100)%Z -> (0 <= hour < 100)%Z ->
  (0 <= minute < 100)%Z -> (0 <= second < 100)%Z -> (0 <= millis < 1000)%Z ->
  is_number pid -> is_number tid -> is_level level = true ->
  is_tag tag -> is_message message ->
  re_match log_pattern
    (format_logcat_line b month day hour minute second millis pid tid level tag message)
  = Some [ format_time b month day hour minute second millis; pid; tid;
           String level EmptyString; tag; message ].
Proof.
  intros (Hb1 & Hb2 & Hb3 & Hb4 & Hb5 & Hb6) Hmo Hd Hh Hmi Hs Hms Hpid Htid
    Hlevel Htag [Hmsg1 Hmsg2].
  apply takes_match. unfold log_pattern, format_logcat_line.
  apply takes_then_group; [apply format_time_takes; assumption |].
  apply takes_then.
  { apply blank_takes; [exact Hb2 |]. rewrite append_empty_r.
    apply stops_number; [exact Hpid | apply is_digit_not_space]. }
  apply takes_then_group.
  { apply number_takes; [exact Hpid |]. rewrite append_empty_r.
    destruct Hb3 as [Hne Hb3]. destruct (before_tid b) as [| c b3]; [congruence |].
    rewrite append_cons. cbn in Hb3 |- *. apply andb_true_iff in Hb3 as [Hc _].
    destruct (is_digit c) eqn:Hd'; [| reflexivity].
    rewrite (is_digit_not_space c Hd') in Hc. discriminate. }
  apply takes_then.
  { apply blank_takes; [exact Hb3 |]. rewrite append_empty_r.
    apply stops_number; [exact Htid | apply is_digit_not_space]. }
  apply takes_then_group.
  { apply number_takes; [exact Htid |]. rewrite append_empty_r.
    destruct Hb4 as [Hne Hb4]. destruct (before_level b) as [| c b4]; [congruence |].
    rewrite append_cons. cbn in Hb4 |- *. apply andb_true_iff in Hb4 as [Hc _].
    destruct (is_digit c) eqn:Hd'; [| reflexivity].
    rewrite (is_digit_not_space c Hd') in Hc. discriminate. }
  apply takes_then.
  { apply blank_takes; [exact Hb4 |]. rewrite !append_cons. cbn.
    destruct level as [[] [] [] [] [] [] [] []]; vm_compute in Hlevel |- *; congruence. }
  apply takes_then_group; [apply takes_chr, Hlevel |].
  destruct tag as [| c tag]; [destruct Htag |]. destruct Htag as [Hc Htag].
  cbn in Htag. apply andb_true_iff in Htag as [Hc' Htag].
  apply takes_then.
  { apply blank_takes; [exact Hb5 |]. rewrite !append_cons. exact Hc. }
  apply takes_then_group; [apply takes_plus; [exact Hc' | exact Htag | reflexivity] |].
  apply takes_then; [apply takes_lit |].
  apply takes_then.
  { apply takes_star; [exact Hb6 |]. rewrite append_empty_r. exact Hmsg1. }
  apply takes_last, takes_group, takes_star; [exact Hmsg2 | exact I].
Qed.

End LogcatRoundTrip.

Section LogcatFields.
Context {P : Platform}.
Import LogcatMonitor.

Lemma two_digits_word n :
  (0 <= n < 100)%Z ->
  two_digits n <> EmptyString /\ string_forall not_space (two_digits n) = true.
Proof.
  intros Hn. split; [discriminate |]. apply digits_not_space, two_digits_forall, Hn.
Qed.

Lemma time_parts b month day hour minute second millis :
  is_blank (before_time b) ->
  (0 <= month < 100)%Z -> (0 <= day < 100)%Z -> (0 <= hour < 100)%Z ->
  (0 <= minute < 100)%Z -> (0 <= second < 100)%Z -> (0 <= millis < 1000)%Z ->
  split_ws (format_time b month day hour minute second millis)
  = [format_date month day; format_clock hour minute second millis].
Proof.
  intros Hb Hmo Hd Hh Hmi Hs Hms. unfold format_time.
  rewrite split_ws_blank; [| discriminate | | exact Hb].
  - f_equal. apply split_ws_last; [discriminate |].
    unfold format_clock. rewrite !string_forall_append.
    rewrite !(digits_not_space _ (two_digits_forall _ Hh)),
      !(digits_not_space _ (two_digits_forall _ Hmi)),
      !(digits_not_space _ (two_digits_forall _ Hs)),
      !(digits_not_space _ (three_digits_forall _ Hms)).
    reflexivity.
  - unfold format_date. rewrite !string_forall_append.
    rewrite !(digits_not_space _ (two_digits_forall _ Hmo)),
      !(digits_not_space _ (two_digits_forall _ Hd)).
    reflexivity.
Qed.

Lemma date_parts month day :
  (0 <= month < 100)%Z -> (0 <= day < 100)%Z ->
  split_on "-" (format_date month day) = [two_digits month; two_digits day].
Proof.
  intros Hmo Hd. unfold format_date.
  change ("-" +:+ two_digits day) with (String "-" (two_digits day)).
  rewrite split_on_field by (apply digits_not_char; [reflexivity | apply two_digits_forall, Hmo]).
  rewrite split_on_last by (apply digits_not_char; [reflexivity | apply two_digits_forall, Hd]).
  reflexivity.
Qed.

Lemma clock_parts hour minute second millis :
  (0 <= hour < 100)%Z -> (0 <= minute < 100)%Z -> (0 <= second < 100)%Z ->
  (0 <= millis < 1000)%Z ->
  split_ws (replace_char "." " "
              (replace_char ":" " " (format_clock hour minute second millis)))
  = [two_digits hour; two_digits minute; two_digits second; three_digits millis].
Proof.
  intros Hh Hmi Hs Hms. unfold format_clock.
  rewrite !replace_char_append.
  rewrite !(replace_char_absent ":" " " (two_digits _))
    by (apply digits_not_char; [reflexivity | apply two_digits_forall; assumption]).
  rewrite !(replace_char_absent ":" " " (three_digits _))
    by (apply digits_not_char; [reflexivity | apply three_digits_forall; assumption]).
  rewrite !(replace_char_absent "." " " (two_digits _))
    by (apply digits_not_char; [reflexivity | apply two_digits_forall; assumption]).
  rewrite !(replace_char_absent "." " " (three_digits _))
    by (apply digits_not_char; [reflexivity | apply three_digits_forall; assumption]).
  change (replace_char "." " " (replace_char ":" " " ":")) with " ".
  change (replace_char "." " " (replace_char ":" " " ".")) with " ".
  destruct (two_digits_word hour Hh) as [Hh1 Hh2].
  destruct (two_digits_word minute Hmi) as [Hmi1 Hmi2].
  destruct (two_digits_word second Hs) as [Hs1 Hs2].
  rewrite !(split_ws_blank _ " ") by (assumption || (split; [discriminate | reflexivity])).
  rewrite split_ws_last; [reflexivity | discriminate |].
  apply digits_not_space, three_digits_forall, Hms.
Qed.

Lemma list_comprehension_Ok {S A B : Type} (f : A -> StE S B) l ys (s : S) :
  Forall2 (fun x y => f x s = (Ok y, s)) l ys ->
  list_comprehension f l s = (Ok ys, s).
Proof.
  induction 1 as [| x y l ys Hxy _ IH]; [reflexivity |].
  cbn [list_comprehension]. rewrite bind_run, Hxy, bind_run, IH. reflexivity.
Qed.

Lemma valid_datetime_ranges y m d h mi s :
  valid_datetime (mkDatetime y m d h mi s) = true ->
  (0 <= m < 100)%Z /\ (0 <= d < 100)%Z /\ (0 <= h < 100)%Z
  /\ (0 <= mi < 100)%Z /\ (0 <= s < 100)%Z.
Proof.
  unfold valid_datetime. cbn [dt_year dt_month dt_day dt_hour dt_minute dt_second].
  rewrite !andb_true_iff, !Z.leb_le. intros Hvalid.
  assert (Hdim : (days_in_month y m <= 31)%Z).
  { unfold days_in_month.
    repeat match goal with |- context [if ?b then _ else _] => destruct b end; lia. }
  lia.
Qed.

(** The amended C5 for the Logcat collector: a line written from its
    fields is parsed back to them. The timestamp is the instant of the
    local date made of the year that the clock shows at parse time and of
    the month, day, hour, minute and second of the line (the milliseconds
    of the line are not used); level, tag and message are those of the
    line. *)
Lemma parse_logcat_line_fields b month day hour minute second millis
    pid_text pid tid_text level tag message w :
  are_blanks b -> (0 <= millis < 1000)%Z ->
  is_number pid_text -> int_digits 0 pid_text = Some pid -> is_number tid_text ->
  is_level level = true -> is_tag tag -> is_message message ->
  let year := local_year (w_clock w (w_time_calls w)) in
  valid_datetime (mkDatetime year month day hour minute second) = true ->
  let line := format_logcat_line b month day hour minute second millis
                pid_text tid_text level tag message in
  _parse_logcat_line line w
  = (Ok (Some (mkLogEntry
                 (local_epoch (mkDatetime year month day hour minute second))
                 (String level EmptyString) tag pid message line)),
     tick_clock w).
Proof.
  intros Hb Hms Hpid Hpidv Htid Hlevel Htag Hmsg year Hvalid line.
  destruct (valid_datetime_ranges _ _ _ _ _ _ Hvalid) as (Hmo & Hd & Hh & Hmi & Hs).
  unfold _parse_logcat_line. fold line. unfold line at 1.
  rewrite log_pattern_groups by assumption.
  rewrite bind_run. cbn [time_time]. fold (tick_clock w). fold year.
  rewrite time_parts by (assumption || apply Hb).
  rewrite bind_run. cbn [getitem lookup list_lookup]. unfold mret at 1, StE_ret at 1.
  rewrite date_parts by assumption.
  rewrite bind_run. cbn [getitem lookup list_lookup]. unfold mret at 1, StE_ret at 1.
  rewrite bind_run. cbn [getitem lookup list_lookup]. unfold mret at 1, StE_ret at 1.
  rewrite bind_run, int_of_two_digits by assumption.
  rewrite bind_run. cbn [getitem lookup list_lookup]. unfold mret at 1, StE_ret at 1.
  rewrite bind_run, int_of_two_digits by assumption.
  rewrite clock_parts by assumption.
  rewrite bind_run.
  rewrite (list_comprehension_Ok int_of_string _ [hour; minute; second; millis])
    by (repeat constructor;
        first [apply int_of_two_digits | apply int_of_three_digits]; assumption).
  change (take 3 [hour; minute; second; millis]) with [hour; minute; second].
  cbn [nth]. unfold make_datetime. rewrite Hvalid.
  rewrite bind_run. unfold mret at 1, StE_ret at 1.
  rewrite bind_run. unfold int_of_string. rewrite Hpidv.
  destruct Hpid as [Hne _]. destruct pid_text; [congruence |]. reflexivity.
Qed.

End LogcatFields.

Section AppTimestamp.
Import AppMonitor.

Lemma first_event_timestamp now line ps w r w' :
  first_event now line ps w = (Ok (Some r), w') -> timestamp r = now.
Proof.
  induction ps as [| [kind pattern] ps IH]; cbn [first_event].
  - intros [=].
  - destruct (re_search pattern line) as [groups |]; [| exact IH].
    repeat match goal with
           | |- context [if ?b then _ else _] => destruct b
           end;
      try exact IH;
      unfold getitem, mbind, StE_bind, mret, StE_ret, raise;
      repeat match goal with
             | |- context [match ?l !! ?i with _ => _ end] => destruct (l !! i)
             end;
      intros [= <- _]; reflexivity.
Qed.

(** An app event carries the reading of the clock at which its line was
    parsed. *)
Lemma parse_app_event_timestamp line w r :
  fst (_parse_app_event line w) = Ok (Some r) ->
  timestamp r = w_clock w (w_time_calls w).
Proof.
  unfold _parse_app_event. rewrite bind_run. cbn [time_time].
  destruct (first_event _ line patterns _) as [res w'] eqn:Hrun. cbn [fst].
  intros ->. eapply first_event_timestamp, Hrun.
Qed.

End AppTimestamp.

Section ParsedTimestamps.
Context {P : Platform}.

(** C5, as the code has it. The Logcat collector parses a line written
    from its fields, with any white space between them, back to those
    fields: the timestamp of the entry is the instant of the local date
    made of the year that the clock shows at parse time and of the month,
    day, hour, minute and second of the line (its milliseconds are
    dropped), and level, tag and message are those of the line. The App
    collector does not read the time of the line: the timestamp of an app
    event is the reading of the clock at which the line was parsed. *)
Theorem parsed_timestamps (w : World) :
  (forall b month day hour minute second millis pid_text pid tid_text level tag
          message,
      are_blanks b -> (0 <= millis < 1000)%Z ->
      is_number pid_text -> int_digits 0 pid_text = Some pid -> is_number tid_text ->
      LogcatMonitor.is_level level = true -> is_tag tag -> is_message message ->
      let year := local_year (w_clock w (w_time_calls w)) in
      valid_datetime (mkDatetime year month day hour minute second) = true ->
      let line := format_logcat_line b month day hour minute second millis
                    pid_text tid_text level tag message in
      LogcatMonitor._parse_logcat_line line w
      = (Ok (Some (LogcatMonitor.mkLogEntry
                     (local_epoch (mkDatetime year month day hour minute second))
                     (String level EmptyString) tag pid message line)),
         tick_clock w))
  /\ (forall line event,
        fst (AppMonitor._parse_app_event line w) = Ok (Some event) ->
        AppMonitor.timestamp event = w_clock w (w_time_calls w)).
Proof.
  split.
  - intros. apply parse_logcat_line_fields; assumption.
  - intros line event. apply parse_app_event_timestamp.
Qed.

End ParsedTimestamps.

Section ParsedTimestampExamples.
Import Reference Examples.

Lemma parsed_timestamps_witness :
  LogcatMonitor._parse_logcat_line start_proc_line morning
  = (Ok (Some (LogcatMonitor.mkLogEntry
                 (local_epoch (mkDatetime 2026 11 4 7 24 1))
                 "I" "ActivityManager" 1234 "Start proc 4321" start_proc_line)),
     tick_clock morning)
  /\ AppMonitor.timestamp
       (AppMonitor.mkAppEvent 1793777400 "com.example" "force_stop" EmptyString
          force_stop_line)
     = w_clock morning (w_time_calls morning).
Proof.
  destruct (parsed_timestamps morning) as [Hlogcat Happ]. split.
  - apply (Hlogcat single_spaces 11 4 7 24 1 123 "1234" 1234 "5678" "I"%char
             "ActivityManager" "Start proc 4321")%Z.
    + repeat split; discriminate.
    + lia.
    + split; [discriminate | reflexivity].
    + reflexivity.
    + split; [discriminate | reflexivity].
    + reflexivity.
    + split; reflexivity.
    + split; reflexivity.
    + reflexivity.
  - apply (Happ force_stop_line). vm_compute. reflexivity.
Defined.

(** C5 as stated fails for the App collector. This line has the layout
    of [log_pattern], with the time 11-04 07:24:01; it is parsed at
    07:30:00 and again one second later, within the same year. The two
    events carry the two readings of the clock: neither is the instant
    that the current year and the fields of the line make, which is what
    the Logcat collector stores for it. *)
Lemma app_event_timestamp_is_read_time :
  let later := tick_clock morning in
  fst (LogcatMonitor._parse_logcat_line force_stop_line morning)
  = Ok (Some (LogcatMonitor.mkLogEntry
                (local_epoch (mkDatetime 2026 11 4 7 24 1))
                "I" "ActivityManager" 1234 "Force stopping com.example"
                force_stop_line))
  /\ (local_epoch (mkDatetime 2026 11 4 7 24 1) == 1793777041)%Q
  /\ fst (AppMonitor._parse_app_event force_stop_line morning)
     = Ok (Some (AppMonitor.mkAppEvent (w_clock morning 0) "com.example"
                   "force_stop" EmptyString force_stop_line))
  /\ (w_clock morning 0 == 1793777400)%Q
  /\ fst (AppMonitor._parse_app_event force_stop_line later)
     = Ok (Some (AppMonitor.mkAppEvent (w_clock morning 1) "com.example"
                   "force_stop" EmptyString force_stop_line))
  /\ (w_clock morning 1 == 1793777401)%Q
  /\ local_year (w_clock morning 0) = local_year (w_clock morning 1).
Proof.
  intros later. repeat split; vm_compute; reflexivity.
Qed.

End ParsedTimestampExamples.

(** * More properties of the store and of the collectors *)

Section StoreMore.
Import DatabaseManager.



Lemma execute_keeps s db db' :
  execute s db = (Ok tt, db') ->
  (forall name cols, db_tables db !! name = Some cols ->
                     db_tables db' !! name = Some cols
                     /\ db_rows db' !! name = db_rows db !! name)
  /\ (forall name on, db_indexes db !! name = Some on ->
                      db_indexes db' !! name = Some on).
Proof.
  unfold execute, check_open, log_op, mbind, StE_bind.
  destruct (db_closed db) eqn:Hc; [discriminate |].
  destruct s as [name cols | name table col]; cbn.
  - unfold create_table; cbn. destruct (db_tables db !! name) eqn:Ht.
    + intros [= <-]; cbn. auto.
    + destruct (db_indexes db !! name) eqn:Hi; [discriminate |].
      intros [= <-]; cbn. split; [| auto].
      intros n c Hn. assert (name <> n) by congruence.
      rewrite !lookup_insert_ne by done. auto.
  - unfold create_index; cbn.
    destruct (db_tables db !! table) eqn:Ht; [| discriminate].
    destruct (db_tables db !! name) eqn:Hn; [discriminate |].
    destruct (db_indexes db !! name) eqn:Hi.
    + intros [= <-]; cbn. auto.
    + destruct (has_column l col); [| discriminate].
      intros [= <-]; cbn. split; [auto |].
      intros n on Hon. assert (name <> n) by congruence.
      rewrite lookup_insert_ne by done. exact Hon.
Qed.

Lemma execute_all_keeps ss : forall db db',
  execute_all ss db = (Ok tt, db') ->
  (forall name cols, db_tables db !! name = Some cols ->
                     db_tables db' !! name = Some cols
                     /\ db_rows db' !! name = db_rows db !! name)
  /\ (forall name on, db_indexes db !! name = Some on ->
                      db_indexes db' !! name = Some on).
Proof.
  induction ss as [| s ss IH]; intros db db' H.
  - injection H as <-. auto.
  - unfold execute_all in H; cbn in H.
    apply bind_Ok in H as ([] & db1 & H1 & H2).
    apply execute_keeps in H1 as [Ht1 Hi1]. apply IH in H2 as [Ht2 Hi2].
    split.
    + intros n c Hn. destruct (Ht1 n c Hn) as [Ha Hb].
      destruct (Ht2 n c Ha) as [Hc Hd]. split; [exact Hc | congruence].
    + intros n on Hn. auto.
Qed.

(** X2. Schema initialisation is safe on a store that holds data. When
    [init_database] returns, also on a connection that had been closed,
    the connection is open, every table and index that existed is still
    there with the same definition, the rows of every existing table are
    untouched, and every table of [schemas] and every index of [indexes]
    exists. *)
Theorem init_database_keeps_existing (db db' : Database) :
  init_database db = (Ok tt, db') ->
  db_closed db' = false
  /\ (forall name cols, db_tables db !! name = Some cols ->
                        db_tables db' !! name = Some cols
                        /\ db_rows db' !! name = db_rows db !! name)
  /\ (forall name on, db_indexes db !! name = Some on ->
                      db_indexes db' !! name = Some on)
  /\ (forall name, name ∈ dict_keys schemas -> is_Some (db_tables db' !! name))
  /\ (forall name table col, (name, table, col) ∈ indexes ->
                             is_Some (db_indexes db' !! name)).
Proof.
  intros H. unfold init_database in H.
  apply bind_Ok in H as ([] & d0 & H0 & H).
  apply bind_Ok in H as ([] & d1 & Ht & H).
  apply bind_Ok in H as ([] & d2 & Hi & H).
  injection H0 as <-.
  pose proof (execute_all_Ok _ _ _ Ht) as (Hc1 & Hts & _). specialize (Hc1 eq_refl).
  pose proof (execute_all_Ok _ _ _ Hi) as (Hc2 & His & Hmono). specialize (Hc2 Hc1).
  apply execute_all_keeps in Ht as [Hkt1 Hki1].
  apply execute_all_keeps in Hi as [Hkt2 Hki2].
  unfold commit, check_open, log_op, mbind, StE_bind in H. rewrite Hc2 in H.
  injection H as <-. cbn [db_closed db_tables db_rows db_indexes].
  split; [exact Hc2 |]. split; [| split; [| split]].
  - intros n c Hn. destruct (Hkt1 n c Hn) as [Ha Hb].
    destruct (Hkt2 n c Ha) as [Hc Hd]. split; [exact Hc |]. rewrite Hd, Hb. reflexivity.
  - intros n on Hn. apply Hki2, Hki1, Hn.
  - intros name Hin. apply list_elem_of_fmap in Hin as ([n cols] & -> & Hin).
    assert (Hs : settled (CreateTableIfNotExists n cols) d1).
    { rewrite Forall_forall in Hts. apply Hts. unfold table_stmts.
      apply list_elem_of_fmap. exists (n, cols). split; [reflexivity | exact Hin]. }
    apply Hmono in Hs. exact Hs.
  - intros name table col Hin.
    assert (Hs : settled (CreateIndexIfNotExists name table col) d2).
    { rewrite Forall_forall in His. apply His. unfold index_stmts.
      apply list_elem_of_fmap. exists (name, table, col). split; [reflexivity | exact Hin]. }
    apply Hs.
Qed.

End StoreMore.

Section StoreRejects.
Import DatabaseManager.



End StoreRejects.

Section MemoryMore.
Context {P : Platform}.
Import DatabaseManager MemoryMonitor.









End MemoryMore.

Section MemoryLoop.
Context {P : Platform}.
Import DatabaseManager MemoryMonitor.





End MemoryLoop.


Section NetworkPoll.
Context {P : Platform}.
Import DatabaseManager NetworkMonitor.

Lemma collect_network_stats_run cfg io s :
  exists samples,
    _collect_network_stats cfg (Ok io) s
    = (Ok samples, mkSelf (last_stats s) (tick_clock (self_world s)))
    /\ map interface samples
       = filter (fun i => dict_mem io i = true) (polled_interfaces cfg io)
    /\ Forall (sample_of io (w_clock (self_world s) (w_time_calls (self_world s)))) samples.
Proof.
  set (now := w_clock (self_world s) (w_time_calls (self_world s))).
  exists (omap (fun iface =>
                  match dict_get io iface with
                  | Some c => Some (mkSample now iface (c_bytes_sent c) (c_bytes_recv c)
                                      (c_packets_sent c) (c_packets_recv c)
                                      (c_errin c) (c_errout c))
                  | None => None
                  end) (polled_interfaces cfg io)).
  split; [reflexivity |].
  induction (polled_interfaces cfg io) as [| i l [IHm IHf]].
  - split; [reflexivity | apply Forall_nil_2].
  - cbn [omap list_omap]. rewrite filter_cons.
    destruct (dict_get io i) as [c |] eqn:Hc.
    + rewrite decide_True by (unfold dict_mem; rewrite Hc; reflexivity).
      cbn [map interface]. split.
      * f_equal. exact IHm.
      * apply Forall_cons_2; [| exact IHf].
        split; [reflexivity |]. exists c. cbn. rewrite Hc. repeat split.
    + rewrite decide_False by (unfold dict_mem; rewrite Hc; discriminate).
      split; assumption.
Qed.

Lemma check_stat_run cfg stat s :
  store_ready (w_db (self_world s)) ->
  exists s' new,
    check_stat cfg stat s = (Ok tt, s')
    /\ last_stats s' = <[interface stat := stat]> (last_stats s)
    /\ store_ready (w_db (self_world s'))
    /\ w_errors (self_world s') = w_errors (self_world s)
    /\ alerts s' = alerts s ++ new
    /\ (length new <= 1)%nat
    /\ Forall (fun a => row_get a "module" = VStr "network") new
    /\ forall t, t <> "alerts" ->
         table_rows t (w_db (self_world s')) = table_rows t (w_db (self_world s)).
Proof.
  intros Hready.
  assert (Hquiet : exists s' new,
             (Ok tt, remember stat s) = (Ok tt, s')
             /\ last_stats s' = <[interface stat := stat]> (last_stats s)
             /\ store_ready (w_db (self_world s'))
             /\ w_errors (self_world s') = w_errors (self_world s)
             /\ alerts s' = alerts s ++ new
             /\ (length new <= 1)%nat
             /\ Forall (fun a => row_get a "module" = VStr "network") new
             /\ forall t, t <> "alerts" ->
                  table_rows t (w_db (self_world s')) = table_rows t (w_db (self_world s))).
  { exists (remember stat s), []. split; [reflexivity |]. split; [reflexivity |].
    split; [exact Hready |]. split; [reflexivity |].
    split; [symmetry; apply app_nil_r |]. split; [cbn; lia |].
    split; [apply Forall_nil_2 | reflexivity]. }
  destruct (last_stats s !! interface stat) as [last |] eqn:Hlast.
  - destruct (Qlt_le_dec 0 (time_diff last stat)) as [Hdt | Hdt].
    + destruct (Qlt_le_dec (alert_network_threshold cfg) (mb_rate last stat))
        as [Habove | Hbelow].
      * apply Qgtb_true in Hdt, Habove.
        unfold check_stat, get_state, mbind, StE_bind. rewrite Hlast, Hdt, Habove.
        unfold _create_alert, in_world, zoom, mbind, StE_bind, time_time.
        cbn [world set_world Self_collector self_world last_stats].
        match goal with
        | |- context [db_insert_batch "alerts" [?a] ?w1] =>
            destruct (db_insert_batch_ready "alerts"
                        (default [] (dict_get schemas "alerts")) a [] w1)
              as (db' & Hrun & Hready' & Hrows & Hother);
              [exact Hready | reflexivity | reflexivity
              | apply Forall_cons_2; [reflexivity | apply Forall_nil_2] |];
              replace (db_insert_batch "alerts" [a] w1) with (Ok tt, set_db db' w1)
                by (symmetry; exact Hrun);
              eexists; exists [a]
        end.
        cbn [set_world Self_collector self_world last_stats].
        split; [reflexivity |].
        unfold alerts. cbn [self_world last_stats w_db set_db w_errors].
        split; [reflexivity |]. split; [exact Hready' |]. split; [reflexivity |].
        split; [exact Hrows |]. split; [cbn; lia |].
        split; [apply Forall_cons_2; [reflexivity | apply Forall_nil_2] | exact Hother].
      * rewrite (check_stat_quiet cfg stat last s Hlast Hbelow). exact Hquiet.
    + rewrite (check_stat_no_elapsed_time cfg stat last s Hlast Hdt). exact Hquiet.
  - rewrite (check_stat_first cfg stat s Hlast). exact Hquiet.
Qed.

Lemma check_thresholds_run cfg stats : forall s,
  store_ready (w_db (self_world s)) ->
  exists s' new,
    _check_thresholds cfg stats s = (Ok tt, s')
    /\ last_stats s' = remember_all stats (last_stats s)
    /\ store_ready (w_db (self_world s'))
    /\ w_errors (self_world s') = w_errors (self_world s)
    /\ alerts s' = alerts s ++ new
    /\ (length new <= length stats)%nat
    /\ Forall (fun a => row_get a "module" = VStr "network") new
    /\ forall t, t <> "alerts" ->
         table_rows t (w_db (self_world s')) = table_rows t (w_db (self_world s)).
Proof.
  induction stats as [| stat stats IH]; intros s Hready.
  - exists s, []. split; [reflexivity |]. split; [reflexivity |].
    split; [exact Hready |]. split; [reflexivity |].
    split; [symmetry; apply app_nil_r |]. split; [reflexivity |].
    split; [apply Forall_nil_2 | reflexivity].
  - destruct (check_stat_run cfg stat s Hready)
      as (s1 & new1 & Hrun1 & Hlast1 & Hready1 & Herr1 & Hal1 & Hlen1 & Hmod1 & Hother1).
    destruct (IH s1 Hready1)
      as (s' & new & Hrun & Hlast & Hready' & Herr & Hal & Hlen & Hmod & Hother).
    exists s', (new1 ++ new).
    unfold _check_thresholds. cbn [for_each]. rewrite bind_run, Hrun1.
    split; [exact Hrun |].
    split; [rewrite Hlast, Hlast1; reflexivity |].
    split; [exact Hready' |]. split; [congruence |].
    split; [rewrite Hal, Hal1, <- app_assoc; reflexivity |].
    split; [rewrite length_app; cbn [length]; lia |].
    split; [apply Forall_app; split; assumption |].
    intros t Ht. rewrite (Hother t Ht). apply Hother1, Ht.
Qed.

(** A pass up to the threshold check: the samples are collected and, if
    there are any, stored. *)
Lemma poll_until_check cfg t io s :
  store_ready (w_db (self_world s)) ->
  net_io t = Ok io ->
  exists samples s1,
    poll cfg t s = match samples with
                   | [] => (Ok tt, s1)
                   | _ => _check_thresholds cfg samples s1
                   end
    /\ map interface samples
       = filter (fun i => dict_mem io i = true) (polled_interfaces cfg io)
    /\ Forall (sample_of io (w_clock (self_world s) (w_time_calls (self_world s))))
         samples
    /\ table_rows "network_stats" (w_db (self_world s1))
       = table_rows "network_stats" (w_db (self_world s)) ++ map to_row samples
    /\ last_stats s1 = last_stats s
    /\ alerts s1 = alerts s
    /\ w_errors (self_world s1) = w_errors (self_world s)
    /\ store_ready (w_db (self_world s1)).
Proof.
  intros Hready Hio.
  destruct (collect_network_stats_run cfg io s) as (samples & Hcollect & Hifaces & Hsamples).
  set (s0 := mkSelf (last_stats s) (tick_clock (self_world s))) in *.
  destruct samples as [| first rest].
  - exists [], s0. split.
    { unfold poll. rewrite Hio, bind_run, Hcollect. reflexivity. }
    split; [exact Hifaces |].
    split; [exact Hsamples |]. split; [symmetry; apply app_nil_r |].
    split; [reflexivity |]. split; [reflexivity |].
    split; [reflexivity | exact Hready].
  - destruct (db_insert_batch_ready "network_stats"
                (default [] (dict_get schemas "network_stats")) (to_row first)
                (map to_row rest) (world s0))
      as (db' & Hrun & Hready' & Hrows & Hother);
      [exact Hready | reflexivity | reflexivity | |].
    { change (to_row first :: map to_row rest) with (map to_row (first :: rest)).
      apply Forall_forall. intros r Hr.
      apply list_elem_of_fmap in Hr as (x & -> & _). reflexivity. }
    exists (first :: rest), (set_world (set_db db' (world s0)) s0). split.
    { unfold poll. rewrite Hio, bind_run, Hcollect, bind_run, in_world_run. cbn [map].
      replace (db_insert_batch "network_stats" (to_row first :: map to_row rest) (world s0))
        with (Ok tt, set_db db' (world s0)) by (symmetry; exact Hrun).
      reflexivity. }
    split; [exact Hifaces |]. split; [exact Hsamples |].
    split; [exact Hrows |]. split; [reflexivity |].
    split; [apply (Hother "alerts"); discriminate |].
    split; [reflexivity | exact Hready'].
Qed.

(** X5. On a store that accepts the batches, a pass of the network
    collector with a reading from [psutil] never fails. It appends one row
    to [network_stats] per polled interface that is reported, in the order
    of the polled interfaces and all with the timestamp read at the start
    of the pass; a configured interface that is not reported is skipped
    silently. Every sample is then the remembered one of its interface,
    and at most one alert per sample is stored. *)
Theorem network_poll_stores_reported (cfg : MonitorConfig) (t : tick)
    (io : list (string * counters)) (s : Self) :
  store_ready (w_db (self_world s)) ->
  net_io t = Ok io ->
  exists s' samples new,
    poll cfg t s = (Ok tt, s')
    /\ map interface samples
       = filter (fun i => dict_mem io i = true) (polled_interfaces cfg io)
    /\ Forall (sample_of io (w_clock (self_world s) (w_time_calls (self_world s))))
         samples
    /\ table_rows "network_stats" (w_db (self_world s'))
       = table_rows "network_stats" (w_db (self_world s)) ++ map to_row samples
    /\ last_stats s' = remember_all samples (last_stats s)
    /\ alerts s' = alerts s ++ new
    /\ (length new <= length samples)%nat
    /\ w_errors (self_world s') = w_errors (self_world s)
    /\ store_ready (w_db (self_world s')).
Proof.
  intros Hready Hio.
  destruct (poll_until_check cfg t io s Hready Hio)
    as (samples & s1 & Hpoll & Hifaces & Hsamples & Hrows & Hlast1 & Hal1 & Herr1 & Hready1).
  destruct (check_thresholds_run cfg samples s1 Hready1)
    as (s' & new & Hcheck & Hlast & Hready' & Herr & Hal & Hlen & _ & Hrest).
  exists s', samples, new. split.
  { rewrite Hpoll. destruct samples; [| exact Hcheck].
    cbn in Hcheck. exact Hcheck. }
  split; [exact Hifaces |]. split; [exact Hsamples |].
  split; [rewrite (Hrest "network_stats") by discriminate; exact Hrows |].
  split; [rewrite Hlast, Hlast1; reflexivity |].
  split; [rewrite Hal, Hal1; reflexivity |].
  split; [exact Hlen |]. split; [congruence | exact Hready'].
Qed.

Lemma check_thresholds_same_instant cfg now stats : forall s,
  Forall (fun st => timestamp st = now) stats ->
  (forall st last, st ∈ stats -> last_stats s !! interface st = Some last ->
                   timestamp last = now) ->
  _check_thresholds cfg stats s
  = (Ok tt, mkSelf (remember_all stats (last_stats s)) (self_world s)).
Proof.
  induction stats as [| stat stats IH]; intros s Hnow Hseen.
  - destruct s; reflexivity.
  - apply Forall_cons in Hnow as [Hstat Hnow].
    assert (Hone : check_stat cfg stat s = (Ok tt, remember stat s)).
    { destruct (last_stats s !! interface stat) as [last |] eqn:Hlast.
      - apply (check_stat_no_elapsed_time cfg stat last s Hlast).
        unfold time_diff.
        rewrite Hstat, (Hseen stat last (list_elem_of_here _ _) Hlast).
        unfold Qminus. rewrite Qplus_opp_r. apply Qle_refl.
      - apply check_stat_first, Hlast. }
    unfold _check_thresholds. cbn [for_each]. rewrite bind_run, Hone.
    apply (IH (remember stat s) Hnow).
    intros st last Hin. cbn [remember last_stats].
    destruct (decide (interface stat = interface st)) as [-> | Hne].
    + rewrite lookup_insert_eq. intros [= <-]. exact Hstat.
    + rewrite lookup_insert_ne by exact Hne.
      apply Hseen. apply list_elem_of_further, Hin.
Qed.

(** X6. A pass of the network collector raises no alert for interfaces it
    has no earlier sample of, whatever their counters are, also when an
    interface is polled more than once in the pass: in particular the
    first pass of the loop stores its samples and no alert. *)
Theorem network_poll_quiet_at_first_sight (cfg : MonitorConfig) (t : tick)
    (io : list (string * counters)) (s : Self) :
  store_ready (w_db (self_world s)) ->
  net_io t = Ok io ->
  (forall i, i ∈ polled_interfaces cfg io -> last_stats s !! i = None) ->
  exists s' samples,
    poll cfg t s = (Ok tt, s')
    /\ table_rows "network_stats" (w_db (self_world s'))
       = table_rows "network_stats" (w_db (self_world s)) ++ map to_row samples
    /\ length samples
       = length (filter (fun i => dict_mem io i = true) (polled_interfaces cfg io))
    /\ alerts s' = alerts s
    /\ last_stats s' = remember_all samples (last_stats s).
Proof.
  intros Hready Hio Hnew.
  destruct (poll_until_check cfg t io s Hready Hio)
    as (samples & s1 & Hpoll & Hifaces & Hsamples & Hrows & Hlast1 & Hal1 & _ & _).
  assert (Hcheck : _check_thresholds cfg samples s1
                   = (Ok tt, mkSelf (remember_all samples (last_stats s1)) (self_world s1))).
  { apply (check_thresholds_same_instant cfg
             (w_clock (self_world s) (w_time_calls (self_world s)))).
    - eapply Forall_impl; [exact Hsamples |]. intros st [Hst _]. exact Hst.
    - intros st last Hin. rewrite Hlast1, Hnew; [discriminate |].
      assert (Hi : interface st ∈ map interface samples)
        by (apply list_elem_of_fmap; exists st; auto).
      rewrite Hifaces in Hi. apply list_elem_of_filter in Hi as [_ Hi]. exact Hi. }
  exists (mkSelf (remember_all samples (last_stats s1)) (self_world s1)), samples.
  split.
  { rewrite Hpoll. destruct samples; [destruct s1; reflexivity | exact Hcheck]. }
  split; [exact Hrows |].
  split; [rewrite <- Hifaces, length_map; reflexivity |].
  split; [exact Hal1 |]. cbn [last_stats]. rewrite Hlast1. reflexivity.
Qed.

End NetworkPoll.


Section FilesystemMore.
Import DatabaseManager FilesystemMonitor.

Lemma omap_nil {A B : Type} (f : A -> option B) (l : list A) :
  omap f l = [] <-> forall x, x ∈ l -> f x = None.
Proof.
  induction l as [| y l IH]; cbn.
  - split; [intros _ x Hx; apply elem_of_nil in Hx as [] | reflexivity].
  - destruct (f y) eqn:Hy.
    + split; [discriminate |]. intros H. specialize (H y (list_elem_of_here _ _)). congruence.
    + rewrite IH. split.
      * intros H x Hx. apply elem_of_cons in Hx as [-> | Hx]; auto.
      * intros H x Hx. apply H. right. exact Hx.
Qed.

Lemma elem_dict_mem {A : Type} (d : list (string * A)) k v :
  (k, v) ∈ d -> dict_mem d k = true.
Proof.
  intros Hin. destruct (dict_mem d k) eqn:Hm; [reflexivity |].
  apply dict_mem_false, dict_get_None_keys in Hm. exfalso. apply Hm.
  apply list_elem_of_fmap. exists (k, v). split; [reflexivity | exact Hin].
Qed.

Lemma detect_changes_run stated s :
  _detect_changes stated s
  = (Ok (new_files (w_clock (self_world s) (w_time_calls (self_world s)))
           (file_stats s) (scan_into stated [])
         ++ modified_files (w_clock (self_world s) (w_time_calls (self_world s)))
              (file_stats s) (scan_into stated [])
         ++ deleted_files (w_clock (self_world s) (w_time_calls (self_world s)))
              (file_stats s) (scan_into stated [])),
     mkSelf (scan_into stated []) (tick_clock (self_world s))).
Proof. reflexivity. Qed.

Lemma no_events_iff now previous current :
  NoDup (dict_keys current) ->
  new_files now previous current ++ modified_files now previous current
    ++ deleted_files now previous current = []
  <-> same_mtimes previous current.
Proof.
  intros HC. split.
  - intros Hnil. apply app_eq_nil in Hnil as [Hnew Hrest].
    apply app_eq_nil in Hrest as [Hmod Hdel].
    unfold new_files in Hnew. unfold modified_files in Hmod. unfold deleted_files in Hdel.
    rewrite omap_nil in Hnew, Hmod, Hdel. split.
    + intros p. destruct (dict_mem current p) eqn:Hc.
      * apply dict_mem_true in Hc as [st Hst]. apply dict_get_Some_elem in Hst.
        specialize (Hnew _ Hst). cbn [fst snd] in Hnew.
        destruct (dict_mem previous p); [reflexivity | discriminate].
      * destruct (dict_mem previous p) eqn:Hp; [| reflexivity].
        apply dict_mem_true in Hp as [st Hst]. apply dict_get_Some_elem in Hst.
        specialize (Hdel _ Hst). cbn [fst snd] in Hdel. rewrite Hc in Hdel. discriminate.
    + intros p a b Ha Hb. apply dict_get_Some_elem in Hb.
      specialize (Hmod _ Hb). cbn [fst snd] in Hmod. rewrite Ha in Hmod.
      destruct (Qeq_bool (fs_mtime a) (fs_mtime b)) eqn:Heq; [| discriminate].
      apply Qeq_bool_iff, Heq.
  - intros [Hmem Hmt].
    assert (Hnew : new_files now previous current = []).
    { apply omap_nil. intros [p st] Hin. cbn [fst snd].
      rewrite Hmem, (elem_dict_mem _ _ _ Hin). reflexivity. }
    assert (Hmod : modified_files now previous current = []).
    { apply omap_nil. intros [p st] Hin. cbn [fst snd].
      destruct (dict_get previous p) as [old |] eqn:Hold; [| reflexivity].
      assert (Heq : Qeq_bool (fs_mtime old) (fs_mtime st) = true).
      { apply Qeq_bool_iff, (Hmt p); [exact Hold |]. apply elem_dict_get; assumption. }
      rewrite Heq. reflexivity. }
    assert (Hdel : deleted_files now previous current = []).
    { apply omap_nil. intros [p st] Hin. cbn [fst snd].
      rewrite <- Hmem, (elem_dict_mem _ _ _ Hin). reflexivity. }
    rewrite Hnew, Hmod, Hdel. reflexivity.
Qed.

(** X7. A scan is reported as free of changes exactly when it found the
    paths of the previous snapshot, each with the mtime it had: a change
    of size, permissions or owner that leaves the mtime alone raises no
    event. *)
Theorem detect_changes_silent_iff_same_mtimes (stated : list (string * file_stat))
    (s : Self) :
  fst (_detect_changes stated s) = Ok []
  <-> same_mtimes (file_stats s) (scan_into stated []).
Proof.
  rewrite detect_changes_run. cbn [fst].
  rewrite <- (no_events_iff (w_clock (self_world s) (w_time_calls (self_world s)))
                (file_stats s) (scan_into stated []))
    by (apply scan_into_NoDup; constructor).
  split; [intros [= H]; exact H | intros ->; reflexivity].
Qed.

Lemma same_mtimes_refl d : same_mtimes d d.
Proof.
  split; [reflexivity |]. intros p a b Ha Hb. rewrite Ha in Hb. injection Hb as <-.
  apply Qeq_refl.
Qed.

Lemma poll_silent t s :
  same_mtimes (file_stats s) (scan_into (stated t) []) ->
  poll t s = (Ok tt, mkSelf (scan_into (stated t) []) (tick_clock (self_world s))).
Proof.
  intros Hsame. unfold poll. rewrite bind_run, detect_changes_run.
  assert (HC : NoDup (dict_keys (scan_into (stated t) [])))
    by (apply scan_into_NoDup; constructor).
  rewrite (proj2 (no_events_iff _ _ _ HC) Hsame). reflexivity.
Qed.

(** X8. Watching a tree that does not change writes nothing: when every
    pass finds what the initial scan found, the loop leaves the store and
    the error log as they were, whatever the state of the store is, and
    reads the clock once per pass. *)
Theorem filesystem_loop_unchanged_tree (initial : list (string * file_stat))
    (ticks : list tick) (s : Self) :
  file_stats s = [] ->
  Forall (fun t => stated t = initial) ticks ->
  let s' := _monitor_loop initial ticks s in
  w_db (self_world s') = w_db (self_world s)
  /\ w_errors (self_world s') = w_errors (self_world s)
  /\ file_stats s' = scan_into initial []
  /\ (w_time_calls (self_world s') <= w_time_calls (self_world s) + length ticks)%nat.
Proof.
  intros Hempty Hticks. cbn zeta. unfold _monitor_loop, _scan_directories. cbn [snd].
  rewrite Hempty.
  generalize (self_world s). intros w.
  assert (Hgen : forall w0,
             let s' := loop ticks (mkSelf (scan_into initial []) w0) in
             w_db (self_world s') = w_db w0
             /\ w_errors (self_world s') = w_errors w0
             /\ file_stats s' = scan_into initial []
             /\ (w_time_calls (self_world s') <= w_time_calls w0 + length ticks)%nat).
  { clear w. induction Hticks as [| t ticks Ht _ IH]; intros w0; cbn zeta.
    - cbn. repeat split. lia.
    - cbn [loop]. destruct (running t); [| cbn; repeat split; lia].
      unfold try_except. rewrite poll_silent; cbn [file_stats self_world];
        rewrite Ht; [| apply same_mtimes_refl].
      cbn [snd]. destruct (IH (tick_clock w0)) as (Hdb & Herr & Hfs & Hcalls).
      split; [exact Hdb |]. split; [exact Herr |]. split; [exact Hfs |].
      cbn [tick_clock w_time_calls length] in *. lia. }
  apply Hgen.
Qed.

(** X9. On a store that accepts the batches, a pass of the filesystem
    collector appends the events of its scan to [filesystem_events], in
    their order, and makes the scan the snapshot; a pass without events
    does not touch the store. *)
Theorem filesystem_poll_stores_events (t : tick) (s : Self) :
  store_ready (w_db (self_world s)) ->
  exists events s1 s',
    _detect_changes (stated t) s = (Ok events, s1)
    /\ poll t s = (Ok tt, s')
    /\ table_rows "filesystem_events" (w_db (self_world s'))
       = table_rows "filesystem_events" (w_db (self_world s)) ++ map to_row events
    /\ file_stats s' = scan_into (stated t) []
    /\ w_errors (self_world s') = w_errors (self_world s)
    /\ store_ready (w_db (self_world s'))
    /\ (events = [] -> s' = s1).
Proof.
  intros Hready. rewrite detect_changes_run.
  set (events := new_files _ _ _ ++ _).
  set (s1 := mkSelf (scan_into (stated t) []) (tick_clock (self_world s))).
  destruct events as [| first rest] eqn:Hev.
  - exists [], s1, s1. split; [reflexivity |]. split.
    { unfold poll. rewrite bind_run, detect_changes_run. fold events. rewrite Hev.
      reflexivity. }
    split; [symmetry; apply app_nil_r |]. split; [reflexivity |].
    split; [reflexivity |]. split; [exact Hready | reflexivity].
  - destruct (db_insert_batch_ready "filesystem_events"
                (default [] (dict_get schemas "filesystem_events")) (to_row first)
                (map to_row rest) (world s1))
      as (db' & Hrun & Hready' & Hrows & _);
      [exact Hready | reflexivity | reflexivity | |].
    { change (to_row first :: map to_row rest) with (map to_row (first :: rest)).
      apply Forall_forall. intros r Hr.
      apply list_elem_of_fmap in Hr as (x & -> & _). reflexivity. }
    exists (first :: rest), s1, (set_world (set_db db' (world s1)) s1).
    split; [reflexivity |]. split.
    { unfold poll. rewrite bind_run, detect_changes_run. fold events. rewrite Hev.
      fold s1. rewrite in_world_run. cbn [map].
      replace (db_insert_batch "filesystem_events" (to_row first :: map to_row rest)
                 (world s1))
        with (Ok tt, set_db db' (world s1)) by (symmetry; exact Hrun).
      reflexivity. }
    split; [exact Hrows |]. split; [reflexivity |]. split; [reflexivity |].
    split; [exact Hready' | discriminate].
Qed.

End FilesystemMore.



Section LogcatBuffer.
Context {P : Platform}.
Import DatabaseManager LogcatMonitor.


Lemma length_keep_last {A : Type} n (l : list A) :
  length (keep_last n l) = Nat.min n (length l).
Proof. unfold keep_last. rewrite length_drop. lia. Qed.



(** X10. [get_recent_logs(count)] gives the newest [count] entries of the
    ring buffer, oldest first, or all of them when there are fewer; with
    [count = 0] it gives the whole buffer, not an empty list. *)
Theorem get_recent_logs_newest (count : Z) (s : Self) :
  (exists older, buffer s = older ++ get_recent_logs count s)
  /\ ((0 < count)%Z ->
        length (get_recent_logs count s)
        = Nat.min (Z.to_nat count) (length (buffer s)))
  /\ get_recent_logs 0 s = buffer s.
Proof.
  unfold get_recent_logs, slice_from. cbv zeta. split; [| split].
  - eexists. symmetry. apply take_drop.
  - intros Hpos. rewrite length_drop.
    replace (- count <? 0)%Z with true by (symmetry; apply Z.ltb_lt; lia). lia.
  - change (- 0 <? 0)%Z with false. cbv iota.
    replace (Z.to_nat _) with 0%nat by lia. reflexivity.
Qed.

End LogcatBuffer.

Section LogcatConservation.
Context {P : Platform}.
Import DatabaseManager LogcatMonitor.






End LogcatConservation.

Section LogcatInvalidDate.
Context {P : Platform}.
Import DatabaseManager LogcatMonitor.

Lemma parse_logcat_line_invalid_date b month day hour minute second millis
    pid_text tid_text level tag message w :
  are_blanks b ->
  (0 <= month < 100)%Z -> (0 <= day < 100)%Z -> (0 <= hour < 100)%Z ->
  (0 <= minute < 100)%Z -> (0 <= second < 100)%Z -> (0 <= millis < 1000)%Z ->
  is_number pid_text -> is_number tid_text ->
  is_level level = true -> is_tag tag -> is_message message ->
  valid_datetime (mkDatetime (local_year (w_clock w (w_time_calls w)))
                    month day hour minute second) = false ->
  _parse_logcat_line
    (format_logcat_line b month day hour minute second millis
       pid_text tid_text level tag message) w
  = (Raise ValueError, tick_clock w).
Proof.
  intros Hb Hmo Hd Hh Hmi Hs Hms Hpid Htid Hlevel Htag Hmsg Hvalid.
  unfold _parse_logcat_line.
  rewrite log_pattern_groups by assumption.
  rewrite bind_run. cbn [time_time]. fold (tick_clock w).
  rewrite time_parts by (assumption || apply Hb).
  rewrite bind_run. cbn [getitem lookup list_lookup]. unfold mret at 1, StE_ret at 1.
  rewrite date_parts by assumption.
  rewrite bind_run. cbn [getitem lookup list_lookup]. unfold mret at 1, StE_ret at 1.
  rewrite bind_run. cbn [getitem lookup list_lookup]. unfold mret at 1, StE_ret at 1.
  rewrite bind_run, int_of_two_digits by assumption.
  rewrite bind_run. cbn [getitem lookup list_lookup]. unfold mret at 1, StE_ret at 1.
  rewrite bind_run, int_of_two_digits by assumption.
  rewrite clock_parts by assumption.
  rewrite bind_run.
  rewrite (list_comprehension_Ok int_of_string _ [hour; minute; second; millis])
    by (repeat constructor;
        first [apply int_of_two_digits | apply int_of_three_digits]; assumption).
  change (take 3 [hour; minute; second; millis]) with [hour; minute; second].
  cbn [nth]. unfold make_datetime. rewrite Hvalid.
  rewrite bind_run. reflexivity.
Qed.

(** X12. A line in the layout of [log_pattern] whose date and time fields
    do not make a date of the current year (month 13, the 30th of
    February, hour 24, ...) is not skipped: the parser raises
    [ValueError], which ends the collector thread. The error is logged,
    the batch that was pending is never stored and no later line is
    read. *)
Theorem logcat_invalid_date_ends_collector (cfg : MonitorConfig) (b : blanks)
    (month day hour minute second millis : Z) (pid_text tid_text : string)
    (level : ascii) (tag message raw : string) (batch : list LogEntry)
    (last_flush : Q) (later : list read) (s : Self) :
  are_blanks b ->
  (0 <= month < 100)%Z -> (0 <= day < 100)%Z -> (0 <= hour < 100)%Z ->
  (0 <= minute < 100)%Z -> (0 <= second < 100)%Z -> (0 <= millis < 1000)%Z ->
  is_number pid_text -> is_number tid_text ->
  is_level level = true -> is_tag tag -> is_message message ->
  strip raw = format_logcat_line b month day hour minute second millis
                pid_text tid_text level tag message ->
  valid_datetime
    (mkDatetime (local_year (w_clock (self_world s) (w_time_calls (self_world s))))
       month day hour minute second) = false ->
  exists s',
    fold_left (fun ts r => step cfg r ts) (Line raw true :: later)
      (Active batch last_flush, s) = (Finished, s')
    /\ w_errors (self_world s') = w_errors (self_world s) ++ [ValueError]
    /\ w_db (self_world s') = w_db (self_world s)
    /\ buffer s' = buffer s.
Proof.
  intros Hb Hmo Hd Hh Hmi Hs Hms Hpid Htid Hlevel Htag Hmsg Hraw Hvalid.
  cbn [fold_left].
  assert (Hstep : step cfg (Line raw true) (Active batch last_flush, s)
                  = (Finished,
                     mkSelf (buffer s)
                       (snd (logging_error ValueError (tick_clock (self_world s)))))).
  { unfold step, try_except, iteration.
    rewrite bind_run, in_world_run. cbn [world set_world Self_collector].
    rewrite Hraw, parse_logcat_line_invalid_date by assumption.
    cbn [fst snd]. rewrite in_world_run. reflexivity. }
  rewrite Hstep, run_finished. eexists. split; [reflexivity |].
  cbn. repeat split.
Qed.

End LogcatInvalidDate.

Section PatternRuns.

Lemma chr_run p c (k : cont) s : p c = true -> chr p k (String c s) = k s.
Proof. intros H. cbn. rewrite H. reflexivity. Qed.

Lemma chr_stops p (k : cont) s : stops p s -> chr p k s = None.
Proof. destruct s as [| c s]; cbn; [reflexivity | intros ->; reflexivity]. Qed.

Lemma lit_run t (k : cont) s : lit t k (t +:+ s) = k s.
Proof.
  induction t as [| c t IH]; [reflexivity |].
  rewrite append_cons. cbn [lit]. rewrite chr_run by apply Ascii.eqb_refl. exact IH.
Qed.

Lemma rep_run p t (k : cont) s :
  string_forall p t = true -> rep (String.length t) p k (t +:+ s) = k s.
Proof.
  induction t as [| c t IH]; cbn [string_forall]; [reflexivity |].
  intros H. apply andb_true_iff in H as [Hc Ht].
  rewrite append_cons. cbn [String.length rep]. rewrite chr_run by exact Hc. auto.
Qed.

(** A greedy run over [t] that the rest of the pattern can only leave at
    the end of [t]. *)
Lemma star_run p t (k : cont) s :
  string_forall p t = true -> stops p s ->
  (forall c s', p c = true -> k (String c s') = None) ->
  star p k (t +:+ s) = k s.
Proof.
  intros Ht Hs Hk. induction t as [| c t IH].
  - rewrite append_empty_l. destruct s as [| c s]; [reflexivity |].
    cbn in Hs |- *. rewrite Hs. reflexivity.
  - cbn [string_forall] in Ht. apply andb_true_iff in Ht as [Hc Ht].
    rewrite append_cons. cbn [star]. rewrite Hc, (IH Ht).
    destruct (k s); [reflexivity |]. apply Hk, Hc.
Qed.

Lemma plus_run p t (k : cont) s :
  t <> EmptyString -> string_forall p t = true -> stops p s ->
  (forall c s', p c = true -> k (String c s') = None) ->
  plus p k (t +:+ s) = k s.
Proof.
  intros Hne Ht Hs Hk. destruct t as [| c t]; [congruence |].
  cbn [string_forall] in Ht. apply andb_true_iff in Ht as [Hc Ht].
  rewrite append_cons. unfold plus. rewrite chr_run by exact Hc.
  apply star_run; assumption.
Qed.

End PatternRuns.

Section LogcatOtherLayout.
Context {P : Platform}.
Import DatabaseManager LogcatMonitor.

Lemma digits_then_fail (k : cont) c s n :
  is_digit c = false -> rep (S n) is_digit k (String c s) = None.
Proof. intros H. cbn. rewrite H. reflexivity. Qed.

Lemma two_digits_run (k : cont) n s :
  (0 <= n < 100)%Z -> rep 2 is_digit k (two_digits n +:+ s) = k s.
Proof. intros Hn. apply (rep_run is_digit (two_digits n)), two_digits_forall, Hn. Qed.

Lemma three_digits_run (k : cont) n s :
  (0 <= n < 1000)%Z -> rep 3 is_digit k (three_digits n +:+ s) = k s.
Proof. intros Hn. apply (rep_run is_digit (three_digits n)), three_digits_forall, Hn. Qed.

Lemma space_not_digit c : is_space c = true -> is_digit c = false.
Proof.
  intros Hs. destruct (is_digit c) eqn:Hd; [| reflexivity].
  rewrite (is_digit_not_space c Hd) in Hs. discriminate.
Qed.

(** A line whose date and time are not followed by a process id does
    not match, and the loop goes on as it was. *)
Lemma time_layout_step cfg raw batch last_flush s :
  time_layout raw ->
  _parse_logcat_line (strip raw) (self_world s) = (Ok None, self_world s)
  /\ step cfg (Line raw true) (Active batch last_flush, s)
     = (Active batch last_flush, s).
Proof.
  intros (b & month & day & hour & minute & second & millis & c & rest
          & [Hb1n Hb1] & [Hb2n Hb2] & Hmo & Hd & Hh & Hmi & Hs & Hms & Hcd & Hcs & Hraw).
  assert (Hnone : re_match log_pattern (strip raw) = None).
  { rewrite Hraw. unfold re_match, log_pattern, format_time, format_date, format_clock.
    rewrite !append_assoc.
    cbn [sequence]. unfold group at 1. cbn [sequence].
    rewrite two_digits_run by assumption.
    rewrite (lit_run "-").
    rewrite two_digits_run by assumption.
    rewrite (plus_run is_space (before_time b));
      [| exact Hb1n | exact Hb1 | |].
    2: { unfold two_digits at 1. rewrite !append_cons.
         apply stops_digit; [Z.div_mod_to_equations; lia | apply is_digit_not_space]. }
    2: { intros c0 s0 Hc0. apply digits_then_fail, space_not_digit, Hc0. }
    rewrite two_digits_run by assumption. rewrite (lit_run ":").
    rewrite two_digits_run by assumption. rewrite (lit_run ":").
    rewrite two_digits_run by assumption. rewrite (lit_run ".").
    rewrite three_digits_run by assumption.
    rewrite (plus_run is_space (before_pid b));
      [| exact Hb2n | exact Hb2 | exact Hcs |].
    - unfold group at 1, plus at 1. rewrite chr_stops by exact Hcd. reflexivity.
    - intros c0 s0 Hc0. unfold group at 1, plus at 1.
      rewrite chr_stops by (apply space_not_digit, Hc0). reflexivity. }
  assert (Hparse : _parse_logcat_line (strip raw) (self_world s) = (Ok None, self_world s)).
  { unfold _parse_logcat_line. rewrite Hnone. reflexivity. }
  split; [exact Hparse |].
  unfold step, try_except, iteration.
  rewrite bind_run, in_world_run. cbn [world set_world Self_collector].
  rewrite Hparse. destruct s; reflexivity.
Qed.

(** X13. The log collector gets nothing out of a stream whose lines do
    not carry a process id after the date and time, such as the lines of
    the layout [MM-DD HH:MM:SS.mmm L/TAG(PID): MESSAGE], in which the
    priority letter comes next: no line matches [log_pattern], so that,
    however many lines are read, nothing is buffered, stored or logged,
    the store is not touched, and the clock is read only once, when the
    loop starts. *)
Theorem logcat_stream_without_pid_stores_nothing (cfg : MonitorConfig)
    (reads : list read) (s : Self) :
  Forall unparsed_read reads ->
  exists thr,
    _monitor_loop cfg (Ok tt) reads s
    = (thr, mkSelf (buffer s) (tick_clock (self_world s)))
    /\ pending thr = [].
Proof.
  intros Hreads. unfold _monitor_loop.
  change (start (Ok tt) s)
    with (Active [] (w_clock (self_world s) (w_time_calls (self_world s))),
          mkSelf (buffer s) (tick_clock (self_world s))).
  generalize (w_clock (self_world s) (w_time_calls (self_world s))).
  generalize (mkSelf (buffer s) (tick_clock (self_world s))).
  clear s. intros s last_flush.
  assert (Hgen : forall thr, pending thr = [] ->
            exists thr', fold_left (fun ts r => step cfg r ts) reads (thr, s) = (thr', s)
                         /\ pending thr' = []).
  { induction Hreads as [| r reads Hr _ IH]; intros thr Hthr; [eauto |].
    cbn [fold_left]. destruct thr as [batch lf |].
    - cbn [pending] in Hthr. subst batch.
      assert (Hstep : exists thr1, step cfg r (Active [] lf, s) = (thr1, s)
                                   /\ pending thr1 = []).
      { destruct r as [raw [|] |].
        - exists (Active [] lf). split; [| reflexivity].
          apply (time_layout_step cfg raw [] lf s Hr).
        - exists Finished. split; reflexivity.
        - exists Finished. split; reflexivity. }
      destruct Hstep as (thr1 & Hstep & Hthr1). rewrite Hstep. apply IH, Hthr1.
    - rewrite step_finished. apply IH. reflexivity. }
  apply (Hgen (Active [] last_flush)). reflexivity.
Qed.

End LogcatOtherLayout.



Section GroupCounts.

Lemma adds_chr p : adds 0 (chr p).
Proof.
  intros n k Hk s g. destruct s as [| c s]; cbn; [discriminate |].
  destruct (p c); [apply Hk | discriminate].
Qed.

Lemma adds_lit t : adds 0 (lit t).
Proof.
  induction t as [| c t IH]; intros n k Hk; cbn [lit]; [exact Hk |].
  apply (adds_chr _ n), (IH n), Hk.
Qed.

Lemma adds_star p : adds 0 (star p).
Proof.
  intros n k Hk s. induction s as [| c s IH]; intros g; cbn [star]; [apply Hk |].
  destruct (p c); [| apply Hk].
  destruct (star p k s) as [g' |]; [| apply Hk].
  intros [= <-]. apply IH. reflexivity.
Qed.

Lemma adds_plus p : adds 0 (plus p).
Proof. intros n k Hk. apply (adds_chr _ n), (adds_star _ n), Hk. Qed.

Lemma adds_group m r : adds m r -> adds (S m) (group r).
Proof.
  intros Hr n k Hk s g. unfold group. intros Hg.
  replace (S m + n)%nat with (m + S n)%nat by lia.
  revert Hg. apply Hr. intros rest g'.
  destruct (k rest) as [g0 |] eqn:Hk0; [| discriminate].
  intros [= <-]. cbn [length]. f_equal. eapply Hk, Hk0.
Qed.

Lemma adds_nil : adds 0 (sequence []).
Proof. intros n k Hk. exact Hk. Qed.

Lemma adds_cons a b r rs : adds a r -> adds b (sequence rs) -> adds (a + b) (sequence (r :: rs)).
Proof.
  intros Hr Hrs n k Hk. cbn [sequence].
  replace (a + b + n)%nat with (a + (b + n))%nat by lia.
  apply Hr, Hrs, Hk.
Qed.

Lemma re_search_groups m r : adds m r -> forall s g, re_search r s = Some g -> length g = m.
Proof.
  intros Hr s. induction s as [| c s IH]; intros g; cbn [re_search]; unfold re_match.
  - destruct (r _ EmptyString) as [g' |] eqn:Hm; [| discriminate].
    intros [= <-]. rewrite <- (Nat.add_0_r m).
    eapply (Hr 0%nat); [| exact Hm]. intros ? ? [= <-]. reflexivity.
  - destruct (r _ (String c s)) as [g' |] eqn:Hm; [| apply IH].
    intros [= <-]. rewrite <- (Nat.add_0_r m).
    eapply (Hr 0%nat); [| exact Hm]. intros ? ? [= <-]. reflexivity.
Qed.

Lemma split_on_nonempty sep s : split_on sep s <> [].
Proof.
  destruct s as [| c s]; cbn; [discriminate |].
  destruct (Ascii.eqb c sep); [discriminate |].
  destruct (split_on sep s); discriminate.
Qed.

End GroupCounts.

Section AppParser.
Import DatabaseManager AppMonitor.

Ltac count_groups :=
  repeat first
    [ apply adds_nil
    | apply (adds_cons 0 _ _ _ (adds_lit _))
    | apply (adds_cons 0 _ _ _ (adds_star _))
    | apply (adds_cons 0 _ _ _ (adds_plus _))
    | apply (adds_cons 1 _ _ _ (adds_group 0 _ (adds_plus _))) ].

Lemma patterns_groups :
  Forall2 (fun p n => adds n (snd p)) patterns [2; 2; 1; 1; 1]%nat.
Proof.
  unfold patterns.
  repeat apply Forall2_cons_2; [| | | | | apply Forall2_nil_2]; cbn [snd].
  - change 2%nat with (0 + (0 + (0 + (1 + (0 + (1 + 0))))))%nat. count_groups.
  - change 2%nat with (0 + (1 + (0 + (1 + (0 + 0)))))%nat. count_groups.
  - change 1%nat with (0 + (1 + 0))%nat. count_groups.
  - change 1%nat with (0 + (1 + (0 + (0 + 0))))%nat. count_groups.
  - change 1%nat with (0 + (1 + 0))%nat. count_groups.
Qed.

Lemma first_event_total now line w :
  exists r,
    first_event now line patterns w = (Ok r, w)
    /\ forall ev, r = Some ev ->
         timestamp ev = now
         /\ event_type ev ∈ app_event_types
         /\ (event_type ev <> "activity_displayed" -> data ev = line).
Proof.
  pose proof patterns_groups as Hp. unfold patterns in *.
  repeat match type of Hp with
         | Forall2 _ (_ :: _) (_ :: _) =>
             let H := fresh "Hg" in apply Forall2_cons in Hp as [H Hp]; cbn [snd] in H
         end.
  clear Hp.
  cbn [first_event].
  repeat match goal with
  | Hg : adds ?n ?r |- context [re_search ?r line] =>
      let groups := fresh "groups" in
      let Hs := fresh "Hs" in
      destruct (re_search r line) as [groups |] eqn:Hs;
      [ apply (re_search_groups _ _ Hg) in Hs | clear Hg ]
  end.
  all: cbn [String.eqb Ascii.eqb Bool.eqb existsb orb].
  all: repeat match goal with
         | H : length ?g = _ |- _ =>
             destruct g as [| ? g]; cbn [length] in H; try discriminate H;
             try (injection H as H)
         end.
  all: cbn [getitem lookup list_lookup]; rewrite ?bind_run.
  all: try (eexists; split; [reflexivity |]; intros ev [= <-];
            cbn [timestamp event_type data]; unfold app_event_types;
            split; [reflexivity |]; split; [set_solver | reflexivity]).
  all: try (exists None; split; [reflexivity |]; intros ev [=]).
  all: unfold mbind, StE_bind, mret, StE_ret; cbv beta iota.
  all: match goal with
       | |- context [split_on "/" ?a] =>
           pose proof (split_on_nonempty "/" a);
           destruct (split_on "/" a) as [| pkg ?]; [congruence |]
       end.
  all: cbn [getitem lookup list_lookup]; unfold mret, StE_ret; cbv beta iota.
  all: eexists; split; [reflexivity |]; intros ev [= <-];
       cbn [timestamp event_type data]; unfold app_event_types;
       split; [reflexivity |]; split; [set_solver | intros Hne; congruence].
Qed.

(** X14. [_parse_app_event] never raises: each pattern has the groups
    that its branch reads, and [split('/')] always has a first field. It
    reads the clock once, and an event that it returns carries that
    reading and one of the five event types; but for a displayed activity
    its [data] is the line itself. *)
Theorem parse_app_event_never_raises (line : string) (w : World) :
  exists r,
    _parse_app_event line w = (Ok r, tick_clock w)
    /\ forall ev, r = Some ev ->
         timestamp ev = w_clock w (w_time_calls w)
         /\ event_type ev ∈ app_event_types
         /\ (event_type ev <> "activity_displayed" -> data ev = line).
Proof.
  unfold _parse_app_event. rewrite bind_run. cbn [time_time]. fold (tick_clock w).
  apply first_event_total.
Qed.

End AppParser.

Section AppLoop.
Import DatabaseManager AppMonitor.





End AppLoop.

Section Sorting.
Context {A : Type} (key : A -> Q).

Lemma insert_descending_perm x l : insert_descending key x l ≡ₚ x :: l.
Proof.
  induction l as [| y l IH]; cbn; [reflexivity |].
  destruct (Qgtb (key y) (key x)); [| reflexivity].
  rewrite IH. apply Permutation_swap.
Qed.

Lemma sort_descending_perm l : sort_descending key l ≡ₚ l.
Proof.
  induction l as [| x l IH]; cbn; [reflexivity |].
  rewrite insert_descending_perm, IH. reflexivity.
Qed.

Lemma insert_descending_sorted x l :
  StronglySorted (fun a b => (key b <= key a)%Q) l ->
  StronglySorted (fun a b => (key b <= key a)%Q) (insert_descending key x l).
Proof.
  induction 1 as [| y l Hl IH Hy]; cbn.
  - repeat constructor.
  - destruct (Qgtb (key y) (key x)) eqn:Hgt.
    + apply Qgtb_true in Hgt. constructor; [exact IH |].
      apply Forall_forall. intros z Hz.
      rewrite (insert_descending_perm x l) in Hz.
      apply elem_of_cons in Hz as [-> | Hz].
      * apply Qlt_le_weak, Hgt.
      * rewrite Forall_forall in Hy. apply Hy, Hz.
    + apply Qgtb_false in Hgt. constructor; [constructor; assumption |].
      constructor; [exact Hgt |].
      eapply Forall_impl; [exact Hy |]. intros z Hz. cbn in Hz.
      eapply Qle_trans; eassumption.
Qed.

Lemma sort_descending_sorted l :
  StronglySorted (fun a b => (key b <= key a)%Q) (sort_descending key l).
Proof.
  induction l as [| x l IH]; cbn; [constructor |].
  apply insert_descending_sorted, IH.
Qed.

End Sorting.

Section Process.
Context {P : Platform}.
Import DatabaseManager ProcessMonitor.

Lemma slice_to_take {A : Type} n (l : list A) :
  (0 <= n)%Z -> slice_to n l = take (Z.to_nat n) l.
Proof.
  intros Hn. unfold slice_to. cbv zeta.
  replace (n <? 0)%Z with false by (symmetry; apply Z.ltb_ge; lia).
  destruct (Z.le_ge_cases n (Z.of_nat (length l))) as [Hle | Hge].
  - rewrite Z.min_l by exact Hle. reflexivity.
  - rewrite Z.min_r by lia. rewrite Nat2Z.id, firstn_all.
    symmetry. apply take_ge. lia.
Qed.

Lemma omap_sorted {B C : Type} (f : B -> option C) (RB : B -> B -> Prop)
    (RC : C -> C -> Prop) l :
  (forall a b a' b', f a = Some a' -> f b = Some b' -> RB a b -> RC a' b') ->
  StronglySorted RB l -> StronglySorted RC (omap f l).
Proof.
  intros Hf. induction 1 as [| a l Hl IH Ha]; cbn; [constructor |].
  destruct (f a) as [a' |] eqn:Hfa; [| exact IH].
  constructor; [exact IH |]. apply Forall_forall. intros b' Hb'.
  apply list_elem_of_omap in Hb' as (b & Hb & Hfb).
  rewrite Forall_forall in Ha. eapply Hf; eauto.
Qed.

Lemma length_omap_le {B C : Type} (f : B -> option C) l :
  (length (omap f l) <= length l)%nat.
Proof.
  induction l as [| a l IH]; cbn; [lia |]. destruct (f a); cbn; lia.
Qed.

Lemma stat_of_fields cfg now i s :
  stat_of cfg now i = Some s ->
  timestamp s = now /\ pid s = p_pid (i_proc i) /\ name s = p_name (i_proc i)
  /\ cpu_percent s = i_cpu_percent i
  /\ memory_percent s = p_memory_percent (i_proc i)
  /\ num_threads s = (if process_track_threads cfg
                      then num_threads s else None)
  /\ (process_track_threads cfg = true -> is_Some (num_threads s)).
Proof.
  unfold stat_of. destruct (p_details (i_proc i)) as [d |]; [| discriminate].
  intros [= <-]. cbn. destruct (process_track_threads cfg); repeat split; eauto.
  discriminate.
Qed.

(** X16. What the process collector samples. The processes whose CPU
    usage could be read are ranked by it; with [process_top_n] not
    negative, the first [process_top_n] of the ranking are selected (all,
    when there are fewer): no process left out has a higher usage than a
    selected one. Each selected process whose details can still be read
    gives one sample, with the timestamp read at the start, in the order
    of the ranking, so that the samples come with non-increasing usage
    and are at most [process_top_n]; the place of a selected process that
    has gone is not given to another. *)
Theorem process_stats_are_the_top_n (cfg : ProcessConfig) (procs : list proc)
    (w : World) :
  (0 <= process_top_n cfg)%Z ->
  exists selected rest stats,
    _collect_process_stats cfg procs w = (Ok stats, tick_clock w)
    /\ measured procs ≡ₚ selected ++ rest
    /\ length selected
       = Nat.min (Z.to_nat (process_top_n cfg)) (length (measured procs))
    /\ (forall a b, a ∈ selected -> b ∈ rest ->
                    (i_cpu_percent b <= i_cpu_percent a)%Q)
    /\ stats = omap (stat_of cfg (w_clock w (w_time_calls w))) selected
    /\ StronglySorted (fun a b => (cpu_percent b <= cpu_percent a)%Q) stats
    /\ Forall (fun s => timestamp s = w_clock w (w_time_calls w)) stats
    /\ (Z.of_nat (length stats) <= process_top_n cfg)%Z.
Proof.
  intros Hn.
  set (ranked := sort_descending i_cpu_percent (measured procs)).
  assert (Hsorted : StronglySorted (fun a b => (i_cpu_percent b <= i_cpu_percent a)%Q)
                      ranked) by apply sort_descending_sorted.
  assert (Hperm : ranked ≡ₚ measured procs) by apply sort_descending_perm.
  exists (take (Z.to_nat (process_top_n cfg)) ranked),
    (drop (Z.to_nat (process_top_n cfg)) ranked).
  eexists. split.
  { unfold _collect_process_stats. rewrite bind_run. cbn [time_time].
    fold (tick_clock w). fold ranked. rewrite slice_to_take by exact Hn. reflexivity. }
  split; [rewrite take_drop; symmetry; exact Hperm |].
  split; [rewrite length_take, (Permutation_length Hperm); reflexivity |].
  split.
  { intros a b Ha Hb. rewrite <- (take_drop (Z.to_nat (process_top_n cfg)) ranked) in Hsorted.
    exact (StronglySorted_app_1_elem_of _ _ _ _ _ Hsorted Ha Hb). }
  split; [reflexivity |].
  split.
  { apply (omap_sorted _ (fun a b => (i_cpu_percent b <= i_cpu_percent a)%Q)).
    - intros a b a' b' Ha Hb Hab.
      apply stat_of_fields in Ha as (_ & _ & _ & -> & _).
      apply stat_of_fields in Hb as (_ & _ & _ & -> & _). exact Hab.
    - rewrite <- (take_drop (Z.to_nat (process_top_n cfg)) ranked) in Hsorted.
      apply StronglySorted_app_1_l in Hsorted. exact Hsorted. }
  split.
  { apply Forall_forall. intros s Hs. apply list_elem_of_omap in Hs as (i & _ & Hi).
    apply stat_of_fields in Hi as (Ht & _). exact Ht. }
  pose proof (length_omap_le (stat_of cfg (w_clock w (w_time_calls w)))
                (take (Z.to_nat (process_top_n cfg)) ranked)) as Hle.
  rewrite length_take in Hle. lia.
Qed.

End Process.

Section ProcessPoll.
Context {P : Platform}.
Import DatabaseManager ProcessMonitor.

Lemma process_alert_run alert_type message data w :
  store_ready (w_db w) ->
  exists w',
    _create_alert alert_type message data w = (Ok tt, w')
    /\ store_ready (w_db w')
    /\ w_errors w' = w_errors w
    /\ table_rows "alerts" (w_db w')
       = table_rows "alerts" (w_db w)
         ++ [alert_row (w_clock w (w_time_calls w)) "process" message (json_dumps data)]
    /\ forall t, t <> "alerts" -> table_rows t (w_db w') = table_rows t (w_db w).
Proof.
  intros Hready. unfold _create_alert. rewrite bind_run. cbn [time_time].
  fold (tick_clock w).
  destruct (db_insert_batch_ready "alerts" (default [] (dict_get schemas "alerts"))
              (alert_row (w_clock w (w_time_calls w)) "process" message (json_dumps data))
              [] (tick_clock w))
    as (db' & Hrun & Hready' & Hrows & Hother);
    [exact Hready | reflexivity | reflexivity
    | apply Forall_cons_2; [reflexivity | apply Forall_nil_2] |].
  exists (set_db db' (tick_clock w)). split; [exact Hrun |].
  split; [exact Hready' |]. split; [reflexivity |]. split; [exact Hrows | exact Hother].
Qed.

Lemma process_check_stat_run cfg stat w :
  store_ready (w_db w) ->
  exists w' new,
    check_stat cfg stat w = (Ok tt, w')
    /\ store_ready (w_db w')
    /\ w_errors w' = w_errors w
    /\ table_rows "alerts" (w_db w') = table_rows "alerts" (w_db w) ++ new
    /\ length new = process_breaches cfg stat
    /\ Forall (fun a => row_get a "module" = VStr "process"
                        /\ row_get a "severity" = VStr "WARNING"
                        /\ row_get a "data" = VStr (json_dumps (to_row stat))) new
    /\ forall t, t <> "alerts" -> table_rows t (w_db w') = table_rows t (w_db w).
Proof.
  intros Hready. unfold check_stat, process_breaches. rewrite bind_run.
  destruct (Qgtb (cpu_percent stat) (alert_cpu_threshold cfg)).
  - match goal with
    | |- context [_create_alert ?ty ?msg ?data w] =>
        destruct (process_alert_run ty msg data w Hready)
          as (w1 & Hrun1 & Hready1 & Herr1 & Hrows1 & Hother1); rewrite Hrun1
    end.
    destruct (Qgtb (memory_percent stat) (process_alert_memory_threshold cfg)).
    + match goal with
      | |- context [_create_alert ?ty ?msg ?data w1] =>
          destruct (process_alert_run ty msg data w1 Hready1)
            as (w2 & Hrun2 & Hready2 & Herr2 & Hrows2 & Hother2)
      end.
      exists w2. eexists [_; _]. split; [exact Hrun2 |]. split; [exact Hready2 |].
      split; [congruence |].
      split; [rewrite Hrows2, Hrows1, <- app_assoc; reflexivity |].
      split; [reflexivity |].
      split; [repeat constructor |].
      intros t Ht. rewrite (Hother2 t Ht). apply Hother1, Ht.
    + exists w1. eexists [_]. split; [reflexivity |]. split; [exact Hready1 |].
      split; [exact Herr1 |]. split; [exact Hrows1 |]. split; [reflexivity |].
      split; [repeat constructor | exact Hother1].
  - unfold mret at 1, StE_ret at 1.
    destruct (Qgtb (memory_percent stat) (process_alert_memory_threshold cfg)).
    + match goal with
      | |- context [_create_alert ?ty ?msg ?data w] =>
          destruct (process_alert_run ty msg data w Hready)
            as (w1 & Hrun1 & Hready1 & Herr1 & Hrows1 & Hother1)
      end.
      exists w1. eexists [_]. split; [exact Hrun1 |]. split; [exact Hready1 |].
      split; [exact Herr1 |]. split; [exact Hrows1 |]. split; [reflexivity |].
      split; [repeat constructor | exact Hother1].
    + exists w, []. split; [reflexivity |]. split; [exact Hready |].
      split; [reflexivity |]. split; [symmetry; apply app_nil_r |].
      split; [reflexivity |]. split; [constructor | reflexivity].
Qed.

Lemma process_check_thresholds_run cfg stats : forall w,
  store_ready (w_db w) ->
  exists w' new,
    _check_thresholds cfg stats w = (Ok tt, w')
    /\ store_ready (w_db w')
    /\ w_errors w' = w_errors w
    /\ table_rows "alerts" (w_db w') = table_rows "alerts" (w_db w) ++ new
    /\ length new = sum_list (map (process_breaches cfg) stats)
    /\ Forall (fun a => row_get a "module" = VStr "process"
                        /\ row_get a "severity" = VStr "WARNING") new
    /\ forall t, t <> "alerts" -> table_rows t (w_db w') = table_rows t (w_db w).
Proof.
  induction stats as [| stat stats IH]; intros w Hready.
  - exists w, []. split; [reflexivity |]. split; [exact Hready |].
    split; [reflexivity |]. split; [symmetry; apply app_nil_r |].
    split; [reflexivity |]. split; [constructor | reflexivity].
  - destruct (process_check_stat_run cfg stat w Hready)
      as (w1 & new1 & Hrun1 & Hready1 & Herr1 & Hal1 & Hlen1 & Hmod1 & Hother1).
    destruct (IH w1 Hready1)
      as (w' & new & Hrun & Hready' & Herr & Hal & Hlen & Hmod & Hother).
    exists w', (new1 ++ new).
    unfold _check_thresholds. cbn [for_each]. rewrite bind_run, Hrun1.
    split; [exact Hrun |]. split; [exact Hready' |]. split; [congruence |].
    split; [rewrite Hal, Hal1, <- app_assoc; reflexivity |].
    split; [rewrite length_app, Hlen1, Hlen; reflexivity |].
    split.
    { apply Forall_app. split; [| exact Hmod].
      eapply Forall_impl; [exact Hmod1 |]. intros a (Ha & Hb & _). auto. }
    intros t Ht. rewrite (Hother t Ht). apply Hother1, Ht.
Qed.

Lemma process_rows_storable cfg now l first :
  (exists i, stat_of cfg now i = Some first) ->
  Forall (fun r => stored_row (dict_keys (to_row first)) r = r)
    (map to_row (omap (stat_of cfg now) l)).
Proof.
  intros (i0 & Hfirst). apply Forall_forall. intros r Hr.
  apply list_elem_of_fmap in Hr as (s & -> & Hs).
  apply list_elem_of_omap in Hs as (i & _ & Hi).
  unfold stat_of in Hfirst, Hi.
  destruct (p_details (i_proc i0)); [| discriminate].
  destruct (p_details (i_proc i)); [| discriminate].
  injection Hfirst as <-. injection Hi as <-.
  unfold to_row. cbn [num_threads].
  destruct (process_track_threads cfg); reflexivity.
Qed.

Lemma process_row_columns cfg now i first :
  stat_of cfg now i = Some first ->
  forallb (has_column (default [] (dict_get schemas "process_stats")))
    (dict_keys (to_row first)) = true.
Proof.
  unfold stat_of. destruct (p_details (i_proc i)); [| discriminate].
  intros [= <-]. unfold to_row. cbn [num_threads].
  destruct (process_track_threads cfg); reflexivity.
Qed.

(** X17. On a store that accepts the batches, a pass of the process
    collector never fails. It appends its samples to [process_stats], in
    their order, and then, sample by sample, one WARNING alert of module
    process when the CPU usage of the process is above
    [alert_cpu_threshold] and one more when its memory usage is above
    [alert_memory_threshold]; nothing is written to the error log. *)
Theorem process_poll_rows_and_alerts (cfg : ProcessConfig) (t : tick) (w : World) :
  store_ready (w_db w) ->
  exists stats w' new,
    fst (_collect_process_stats cfg (procs t) w) = Ok stats
    /\ poll cfg t w = (Ok tt, w')
    /\ table_rows "process_stats" (w_db w')
       = table_rows "process_stats" (w_db w) ++ map to_row stats
    /\ table_rows "alerts" (w_db w') = table_rows "alerts" (w_db w) ++ new
    /\ length new = sum_list (map (process_breaches cfg) stats)
    /\ Forall (fun a => row_get a "module" = VStr "process"
                        /\ row_get a "severity" = VStr "WARNING") new
    /\ w_errors w' = w_errors w
    /\ store_ready (w_db w').
Proof.
  intros Hready.
  set (now := w_clock w (w_time_calls w)).
  set (top := slice_to (process_top_n cfg)
                (sort_descending i_cpu_percent (measured (procs t)))).
  assert (Hcollect : _collect_process_stats cfg (procs t) w
                     = (Ok (omap (stat_of cfg now) top), tick_clock w)) by reflexivity.
  exists (omap (stat_of cfg now) top).
  destruct (omap (stat_of cfg now) top) as [| first rest] eqn:Hstats.
  - exists (tick_clock w), []. rewrite Hcollect. split; [reflexivity |].
    split; [unfold poll; rewrite bind_run, Hcollect; reflexivity |].
    split; [symmetry; apply app_nil_r |]. split; [symmetry; apply app_nil_r |].
    split; [reflexivity |]. split; [constructor |]. split; [reflexivity | exact Hready].
  - assert (Hfirst : exists i, stat_of cfg now i = Some first).
    { assert (Hin : first ∈ omap (stat_of cfg now) top) by (rewrite Hstats; left).
      apply list_elem_of_omap in Hin as (i & _ & Hi). eauto. }
    destruct (db_insert_batch_ready "process_stats"
                (default [] (dict_get schemas "process_stats")) (to_row first)
                (map to_row rest) (tick_clock w))
      as (db' & Hrun & Hready' & Hrows & Hother);
      [exact Hready | reflexivity | | |].
    { destruct Hfirst as (i & Hi). exact (process_row_columns cfg now i first Hi). }
    { change (to_row first :: map to_row rest) with (map to_row (first :: rest)).
      rewrite <- Hstats. apply process_rows_storable. exact Hfirst. }
    destruct (process_check_thresholds_run cfg (first :: rest) (set_db db' (tick_clock w))
                Hready')
      as (w' & new & Hcheck & Hready'' & Herr & Hal & Hlen & Hmod & Hrest).
    exists w', new. rewrite Hcollect. split; [reflexivity |].
    split.
    { unfold poll. rewrite bind_run, Hcollect, bind_run. cbn [map].
      replace (db_insert_batch "process_stats" (to_row first :: map to_row rest)
                 (tick_clock w))
        with (Ok tt, set_db db' (tick_clock w)) by (symmetry; exact Hrun).
      exact Hcheck. }
    split; [rewrite (Hrest "process_stats") by discriminate; exact Hrows |].
    split; [rewrite Hal; f_equal; apply (Hother "alerts"); discriminate |].
    split; [exact Hlen |]. split; [exact Hmod |]. split; [exact Herr | exact Hready''].
Qed.

End ProcessPoll.

Section DictionariesMore.
Context {A : Type}.
Implicit Types (d : list (string * A)) (k : string) (v : A).


End DictionariesMore.

Section RowsMore.


End RowsMore.

Section Battery.
Context {P : Platform} {F : FloatStr}.
Import DatabaseManager BatteryMonitor.















End Battery.

Section StripLemmas.

Lemma lstrip_stops s : stops is_space s -> lstrip s = s.
Proof. destruct s as [| c s]; cbn; [reflexivity | intros ->; reflexivity]. Qed.

Lemma lstrip_blank b s : string_forall is_space b = true -> lstrip (b +:+ s) = lstrip s.
Proof.
  induction b as [| c b IH]; cbn [string_forall]; [reflexivity |].
  intros H. apply andb_true_iff in H as [Hc Hb].
  rewrite append_cons. cbn [lstrip]. rewrite Hc. auto.
Qed.

Lemma rstrip_ends s c :
  is_space c = false -> rstrip (s +:+ String c EmptyString) = s +:+ String c EmptyString.
Proof.
  intros Hc. induction s as [| a s IH].
  - rewrite append_empty_l. cbn. rewrite Hc. reflexivity.
  - rewrite append_cons. cbn [rstrip]. rewrite IH.
    destruct s; reflexivity.
Qed.

Lemma rstrip_blank_tail s :
  string_forall is_space s = true -> rstrip s = EmptyString.
Proof.
  induction s as [| c s IH]; cbn [string_forall]; [reflexivity |].
  intros H. apply andb_true_iff in H as [Hc Hs]. cbn [rstrip].
  rewrite (IH Hs), Hc. reflexivity.
Qed.

Lemma rstrip_word s : string_forall not_space s = true -> rstrip s = s.
Proof.
  induction s as [| c s IH]; cbn [string_forall]; [reflexivity |].
  intros H. apply andb_true_iff in H as [Hc Hs].
  unfold not_space in Hc. apply negb_true_iff in Hc.
  cbn [rstrip]. rewrite (IH Hs). destruct s; [rewrite Hc |]; reflexivity.
Qed.

Lemma strip_word s : string_forall not_space s = true -> strip s = s.
Proof.
  intros Hs. unfold strip. rewrite lstrip_stops; [apply rstrip_word, Hs |].
  destruct s as [| c s]; [exact I |]. cbn in Hs |- *.
  apply andb_true_iff in Hs as [Hc _]. apply negb_true_iff in Hc. exact Hc.
Qed.

End StripLemmas.

Section IntOfText.

Lemma int_literal_digits s : forall acc,
  string_forall is_digit s = true -> int_literal acc true s = int_digits acc s.
Proof.
  induction s as [| c s IH]; intros acc; cbn [string_forall int_literal int_digits];
    [reflexivity |].
  intros H. apply andb_true_iff in H as [Hc Hs]. rewrite Hc. apply IH, Hs.
Qed.

Lemma int_of_text_number {S : Type} text n (s : S) :
  is_number text -> int_digits 0 text = Some n -> int_of_text text s = (Ok n, s).
Proof.
  intros [Hne Hd] Hn. unfold int_of_text. cbv zeta.
  rewrite strip_word by (apply digits_not_space, Hd).
  destruct text as [| c text]; [congruence |].
  pose proof Hd as Hd'. cbn [string_forall] in Hd'. apply andb_true_iff in Hd' as [Hc Ht].
  assert (Hlit : int_literal 0 false (String c text) = Some n).
  { cbn [int_literal]. rewrite Hc, int_literal_digits by exact Ht.
    cbn [int_digits] in Hn. rewrite Hc in Hn. exact Hn. }
  clear Hd Hn Hne.
  destruct c as [[] [] [] [] [] [] [] []]; try discriminate Hc;
    cbv beta iota; rewrite Hlit; reflexivity.
Qed.

End IntOfText.

Section Meminfo.
Import MemoryMonitor.

Lemma rstrip_append_blank s b :
  string_forall is_space b = true -> rstrip (s +:+ b) = rstrip s.
Proof.
  intros Hb. induction s as [| a s IH].
  - rewrite append_empty_l. apply rstrip_blank_tail, Hb.
  - rewrite append_cons. cbn [rstrip]. rewrite IH. reflexivity.
Qed.

Lemma space_not_colon c : is_space c = true -> not_char ":" c = true.
Proof.
  intros Hc. unfold not_char. destruct (Ascii.eqb_spec ":" c) as [<- | _]; [| reflexivity].
  discriminate Hc.
Qed.

Lemma key_stops key rest : is_meminfo_key key -> stops is_space (key +:+ String ":" rest).
Proof.
  intros [_ Hk]. destruct key as [| c key]; [reflexivity |].
  rewrite append_cons. exact Hk.
Qed.

Lemma for_each_app {S A : Type} (l1 l2 : list A) (body : A -> StE S unit) s :
  for_each (l1 ++ l2) body s
  = match for_each l1 body s with
    | (Ok _, s1) => for_each l2 body s1
    | (Raise e, s1) => (Raise e, s1)
    end.
Proof.
  revert s. induction l1 as [| x l1 IH]; intros s; [reflexivity |].
  cbn [for_each app]. rewrite !bind_run.
  destruct (body x s) as [[[] | e] s1]; [apply IH | reflexivity].
Qed.

(** A well-formed line gives its key the number of the line, in bytes. *)
Lemma parse_meminfo_line_entry e meminfo :
  well_formed_entry e ->
  parse_meminfo_line (entry_line e) meminfo
  = (Ok tt, dict_set (e_key e) (e_kilobytes e * 1024)%Z meminfo).
Proof.
  intros (Hkey & Hblank & Hnum & Hval).
  destruct e as [key blank number kb]. cbn [e_key e_blank e_number e_kilobytes] in *.
  unfold parse_meminfo_line, entry_line.
  assert (Hstrip : strip (format_meminfo_line key blank number
                            +:+ String newline EmptyString)
                   = key +:+ String ":" (blank +:+ number +:+ " kB")).
  { unfold strip, format_meminfo_line. rewrite !append_assoc.
    rewrite lstrip_stops by (apply (key_stops key), Hkey).
    replace (key +:+ ":" +:+ blank +:+ number +:+ " kB" +:+ String newline EmptyString)
      with ((key +:+ ":" +:+ blank +:+ number +:+ " k")
              +:+ String "B" EmptyString +:+ String newline EmptyString)
      by (rewrite !append_assoc; reflexivity).
    rewrite <- append_assoc, rstrip_append_blank by reflexivity.
    rewrite rstrip_ends by reflexivity. rewrite !append_assoc. reflexivity. }
  cbn [e_key e_blank e_number e_kilobytes]. rewrite Hstrip.
  rewrite split_on_field by apply Hkey.
  rewrite split_on_last.
  2: { rewrite !string_forall_append.
       rewrite (string_forall_impl is_space (not_char ":") blank space_not_colon Hblank).
       rewrite (digits_not_char ":" number eq_refl (proj2 Hnum)). reflexivity. }
  assert (Hvalue : strip (blank +:+ number +:+ " kB") = number +:+ String " " "kB").
  { unfold strip. rewrite lstrip_blank by exact Hblank.
    rewrite lstrip_stops by (apply stops_number; [exact Hnum | apply is_digit_not_space]).
    replace (number +:+ " kB") with ((number +:+ " k") +:+ String "B" EmptyString)
      by (rewrite append_assoc; reflexivity).
    rewrite rstrip_ends by reflexivity. rewrite append_assoc. reflexivity. }
  rewrite Hvalue.
  rewrite split_ws_word;
    [| apply Hnum | apply digits_not_space, Hnum | reflexivity].
  rewrite bind_run. cbn [getitem lookup list_lookup]. unfold mret at 1, StE_ret at 1.
  rewrite bind_run, (int_of_text_number number kb) by assumption.
  reflexivity.
Qed.

Lemma for_each_entries entries : forall meminfo,
  Forall well_formed_entry entries ->
  for_each (map entry_line entries) parse_meminfo_line meminfo
  = (Ok tt, fold_left (fun d e => dict_set (e_key e) (e_kilobytes e * 1024)%Z d)
              entries meminfo).
Proof.
  induction entries as [| e entries IH]; intros meminfo Hwf; [reflexivity |].
  apply Forall_cons in Hwf as [He Hwf].
  cbn [map for_each fold_left]. rewrite bind_run, parse_meminfo_line_entry by exact He.
  apply IH, Hwf.
Qed.

(** X20. A /proc/meminfo made of well-formed lines, [KEY:  NUMBER kB], is
    read back to its fields: [_parse_meminfo] gives each key the number
    of its line times 1024, the keys in the order of the file and a key
    that comes twice with its last number; nothing is logged. *)
Theorem parse_meminfo_reads_the_entries (entries : list meminfo_entry) (w : World) :
  Forall well_formed_entry entries ->
  _parse_meminfo (Ok (map entry_line entries)) w = (Ok (meminfo_of entries), w).
Proof.
  intros Hwf. unfold _parse_meminfo. rewrite bind_run. unfold outcome at 1.
  rewrite for_each_entries by exact Hwf. reflexivity.
Qed.

(** X21. A line of /proc/meminfo with nothing after its colon does not
    get skipped: [split()[0]] raises [IndexError], which ends the reading
    of the file. The error is logged, the entries read so far are
    returned, and the lines after it are never read. *)
Theorem parse_meminfo_stops_at_empty_value (entries : list meminfo_entry)
    (key blank : string) (later : list string) (w : World) :
  Forall well_formed_entry entries ->
  is_meminfo_key key ->
  string_forall is_space blank = true ->
  _parse_meminfo
    (Ok (map entry_line entries ++ (key +:+ ":" +:+ blank) :: later)) w
  = (Ok (meminfo_of entries), snd (logging_error IndexError w)).
Proof.
  intros Hwf Hkey Hblank. unfold _parse_meminfo. rewrite bind_run. unfold outcome at 1.
  rewrite for_each_app, for_each_entries by exact Hwf.
  cbn [for_each]. rewrite bind_run.
  assert (Hbad : forall m, parse_meminfo_line (key +:+ ":" +:+ blank) m
                           = (Raise IndexError, m)).
  { intros m. unfold parse_meminfo_line.
    assert (Hstrip : strip (key +:+ ":" +:+ blank) = key +:+ String ":" EmptyString).
    { unfold strip. rewrite lstrip_stops by (apply (key_stops key), Hkey).
      rewrite <- append_assoc, rstrip_append_blank by exact Hblank.
      apply rstrip_ends. reflexivity. }
    rewrite Hstrip, split_on_field by apply Hkey. reflexivity. }
  rewrite Hbad. reflexivity.
Qed.

End Meminfo.

Section Orchestrator.
Import AndroidMonitor.

(** X22. The command line and the configuration file do not reach the
    collectors. Whatever the arguments are and whatever the file holds,
    the orchestrator that [main] runs has the seven collectors of the
    default configuration, each made with the default configuration: it
    is built by [AndroidMonitor()] before [main] assigns the
    configuration it has prepared, which nothing reads afterwards. So a
    collector disabled on the command line, by a preset or in the file is
    started all the same. *)
Theorem main_runs_the_default_collectors (args : Args) (file : option (result config))
    (m : Self) :
  main args file = Ok m ->
  map fst (monitors m) = all_collectors
  /\ Forall (fun mon => snd mon = MonitorConfig) (monitors m)
  /\ (a_config args = None -> self_config m = command_line_config args).
Proof.
  unfold main. cbv zeta. intros Hmain.
  assert (Hnew : new None file = Ok (mkSelf MonitorConfig (_init_monitors MonitorConfig)))
    by reflexivity.
  rewrite Hnew in Hmain.
  match type of Hmain with
  | match ?chosen with _ => _ end = _ => destruct chosen as [cfg |] eqn:Hchosen
  end; [| discriminate].
  injection Hmain as <-. cbn [monitors self_config].
  split; [reflexivity |]. split; [repeat constructor |].
  intros Hnone. rewrite Hnone in Hchosen. injection Hchosen as <-. reflexivity.
Qed.

End Orchestrator.

Section BatteryFallback.
Context {P : Platform} {F : FloatStr}.
Import DatabaseManager BatteryMonitor.

(** X19. The fallback on [psutil] is inside the [try] block that runs
    [dumpsys]: when [dumpsys] cannot be run, the exception is logged and
    [psutil] is never asked. On a store that accepts the batches the pass
    then stores a row that holds the timestamp only and no alert,
    whatever the state of the battery is. *)
Theorem battery_without_dumpsys (threshold : Q) (t : tick) (e : exn) (w : World) :
  store_ready (w_db w) ->
  dumpsys (battery t) = Raise e ->
  exists w',
    poll threshold t w = (Ok tt, w')
    /\ table_rows "battery_stats" (w_db w')
       = table_rows "battery_stats" (w_db w)
         ++ [[("timestamp", VFloat (w_clock w (w_time_calls w)))]]
    /\ table_rows "alerts" (w_db w') = table_rows "alerts" (w_db w)
    /\ w_errors w' = w_errors w ++ [e].
Proof.
  intros Hready Hdump.
  set (now := w_clock w (w_time_calls w)).
  set (w1 := snd (logging_error e (tick_clock w))).
  assert (Hcollect : _collect_battery_stats (battery t) w
                     = (Ok [("timestamp", VFloat now)], w1)).
  { unfold _collect_battery_stats, collect. rewrite bind_run. cbn [time_time].
    fold now. rewrite bind_run, Hdump. reflexivity. }
  destruct (db_insert_batch_ready "battery_stats"
              (default [] (dict_get schemas "battery_stats"))
              [("timestamp", VFloat now)] [] w1)
    as (db' & Hrun & Hready' & Hrows & Hother);
    [exact Hready | reflexivity | reflexivity
    | apply Forall_cons_2; [reflexivity | apply Forall_nil_2] |].
  exists (set_db db' w1). split.
  { unfold poll. rewrite bind_run, Hcollect, bind_run.
    match goal with
    | |- context [db_insert_batch ?a ?b ?c] =>
        replace (db_insert_batch a b c) with (Ok tt, set_db db' w1)
          by (symmetry; exact Hrun)
    end.
    reflexivity. }
  split; [exact Hrows |]. split; [| reflexivity].
  apply (Hother "alerts"). discriminate.
Qed.

End BatteryFallback.

Section MoreExamples.
Import DatabaseManager Reference Examples.

Lemma new_world_ready t0 dt : store_ready (w_db (new_world t0 dt)).
Proof. exact fresh_db_ready. Qed.

Lemma init_database_keeps_existing_witness :
  let db' := snd (init_database one_alert_db) in
  db_closed db' = false
  /\ db_rows db' !! "alerts" = db_rows one_alert_db !! "alerts"
  /\ length (table_rows "alerts" db') = 1%nat.
Proof.
  intros db'.
  assert (Hrun : init_database one_alert_db = (Ok tt, db')) by (vm_compute; reflexivity).
  assert (Htable : db_tables one_alert_db !! "alerts"
                   = Some (default [] (dict_get schemas "alerts")))
    by (vm_compute; reflexivity).
  destruct (init_database_keeps_existing one_alert_db db' Hrun) as (Hopen & Hkeep & _).
  destruct (Hkeep _ _ Htable) as [_ Hrows].
  split; [exact Hopen |]. split; [exact Hrows |].
  unfold table_rows. rewrite Hrows. vm_compute. reflexivity.
Defined.



Lemma network_poll_stores_reported_witness :
  exists s' samples,
    NetworkMonitor.poll default_config (NetworkMonitor.mkTick true (wlan0_counters 5))
      (NetworkMonitor.mkSelf ∅ (new_world 0 1)) = (Ok tt, s')
    /\ map NetworkMonitor.interface samples = ["wlan0"]
    /\ table_rows "network_stats" (w_db (NetworkMonitor.self_world s'))
       = map NetworkMonitor.to_row samples.
Proof.
  assert (Hready : store_ready
                     (w_db (NetworkMonitor.self_world
                              (NetworkMonitor.mkSelf ∅ (new_world 0 1)))))
    by exact (new_world_ready 0 1).
  assert (Hio : NetworkMonitor.net_io (NetworkMonitor.mkTick true (wlan0_counters 5))
                = Ok [("wlan0", NetworkMonitor.mkCounters 5 0 0 0 0 0)]) by reflexivity.
  destruct (network_poll_stores_reported default_config _ _ _ Hready Hio)
    as (s' & samples & new & Hrun & Hifaces & _ & Hrows & _).
  exists s', samples. split; [exact Hrun |]. split; [exact Hifaces | exact Hrows].
Defined.

Lemma network_poll_quiet_at_first_sight_witness :
  exists s',
    NetworkMonitor.poll default_config
      (NetworkMonitor.mkTick true (wlan0_counters 1099511627776))
      (NetworkMonitor.mkSelf ∅ (new_world 0 1)) = (Ok tt, s')
    /\ alerts s' = [].
Proof.
  assert (Hready : store_ready
                     (w_db (NetworkMonitor.self_world
                              (NetworkMonitor.mkSelf ∅ (new_world 0 1)))))
    by exact (new_world_ready 0 1).
  assert (Hio : NetworkMonitor.net_io
                  (NetworkMonitor.mkTick true (wlan0_counters 1099511627776))
                = Ok [("wlan0", NetworkMonitor.mkCounters 1099511627776 0 0 0 0 0)])
    by reflexivity.
  assert (Hnew : forall i,
             i ∈ polled_interfaces default_config
                   [("wlan0", NetworkMonitor.mkCounters 1099511627776 0 0 0 0 0)] ->
             NetworkMonitor.last_stats (NetworkMonitor.mkSelf ∅ (new_world 0 1)) !! i
             = None)
    by (intros i _; apply lookup_empty).
  destruct (network_poll_quiet_at_first_sight default_config _ _ _ Hready Hio Hnew)
    as (s' & samples & Hrun & _ & _ & Halerts & _).
  exists s'. split; [exact Hrun | exact Halerts].
Defined.

Lemma filesystem_loop_unchanged_tree_witness :
  let tree := [("/x", file 1); ("/y", file 2)] in
  let s' := FilesystemMonitor._monitor_loop tree
              [ FilesystemMonitor.mkTick true tree; FilesystemMonitor.mkTick true tree ]
              (FilesystemMonitor.mkSelf [] closed_world) in
  w_db (FilesystemMonitor.self_world s') = w_db closed_world
  /\ w_errors (FilesystemMonitor.self_world s') = [].
Proof.
  intros tree s'.
  assert (Hempty : FilesystemMonitor.file_stats (FilesystemMonitor.mkSelf [] closed_world)
                   = []) by reflexivity.
  assert (Hticks : Forall (fun t => FilesystemMonitor.stated t = tree)
                     [ FilesystemMonitor.mkTick true tree;
                       FilesystemMonitor.mkTick true tree ])
    by (repeat constructor).
  destruct (filesystem_loop_unchanged_tree tree _ _ Hempty Hticks) as (Hdb & Herr & _).
  split; [exact Hdb | exact Herr].
Defined.

Lemma filesystem_poll_stores_events_witness :
  exists s',
    FilesystemMonitor.poll
      (FilesystemMonitor.mkTick true [("/x", file 2); ("/y", file 1)])
      (watching [("/x", file 1)]) = (Ok tt, s')
    /\ length (table_rows "filesystem_events" (w_db (FilesystemMonitor.self_world s')))
       = 2%nat.
Proof.
  assert (Hready : store_ready
                     (w_db (FilesystemMonitor.self_world (watching [("/x", file 1)]))))
    by exact (new_world_ready 0 1).
  destruct (filesystem_poll_stores_events
              (FilesystemMonitor.mkTick true [("/x", file 2); ("/y", file 1)])
              (watching [("/x", file 1)]) Hready)
    as (events & s1 & s' & Hscan & Hrun & Hrows & _).
  exists s'. split; [exact Hrun |]. rewrite Hrows.
  vm_compute in Hscan. injection Hscan as <- _. reflexivity.
Defined.


Lemma logcat_invalid_date_ends_collector_witness :
  exists s',
    fold_left (fun ts r => LogcatMonitor.step default_config r ts)
      [Line bad_month_line true; Line start_proc_line true]
      (LogcatMonitor.Active [] 0, LogcatMonitor.mkSelf [] morning)
    = (LogcatMonitor.Finished, s')
    /\ w_errors (LogcatMonitor.self_world s') = [ValueError]
    /\ LogcatMonitor.buffer s' = [].
Proof.
  assert (Hb : are_blanks single_spaces) by (repeat split; discriminate).
  assert (Hpid : is_number "1234") by (split; [discriminate | reflexivity]).
  assert (Htid : is_number "5678") by (split; [discriminate | reflexivity]).
  assert (Hlevel : LogcatMonitor.is_level "I" = true) by reflexivity.
  assert (Htag : is_tag "ActivityManager") by (split; reflexivity).
  assert (Hmsg : is_message "Start proc 4321") by (split; reflexivity).
  assert (Hraw : strip bad_month_line
                 = format_logcat_line single_spaces 13 4 7 24 1 123 "1234" "5678" "I"
                     "ActivityManager" "Start proc 4321") by (vm_compute; reflexivity).
  assert (Hvalid : valid_datetime
                     (mkDatetime
                        (local_year
                           (w_clock (LogcatMonitor.self_world (LogcatMonitor.mkSelf [] morning))
                              (w_time_calls
                                 (LogcatMonitor.self_world (LogcatMonitor.mkSelf [] morning)))))
                        13 4 7 24 1) = false) by (vm_compute; reflexivity).
  destruct (logcat_invalid_date_ends_collector default_config single_spaces
              13 4 7 24 1 123 "1234" "5678" "I"%char "ActivityManager"
              "Start proc 4321" bad_month_line [] 0 [Line start_proc_line true]
              (LogcatMonitor.mkSelf [] morning) Hb ltac:(lia) ltac:(lia) ltac:(lia)
              ltac:(lia) ltac:(lia) ltac:(lia) Hpid Htid Hlevel Htag Hmsg Hraw Hvalid)
    as (s' & Hrun & Herr & _ & Hbuf).
  exists s'. split; [exact Hrun |]. split; [exact Herr | exact Hbuf].
Defined.

Lemma time_layout_line_layout : time_layout time_layout_line.
Proof.
  exists single_spaces, 11%Z, 4%Z, 7%Z, 24%Z, 1%Z, 123%Z, "I"%char,
    "/ActivityManager( 1234): Start proc 4321".
  split; [split; [discriminate | reflexivity] |].
  split; [split; [discriminate | reflexivity] |].
  repeat (split; [lia |]).
  split; [reflexivity |]. split; [reflexivity |]. vm_compute. reflexivity.
Qed.

Lemma logcat_stream_without_pid_stores_nothing_witness :
  exists thr,
    LogcatMonitor._monitor_loop default_config (Ok tt)
      [Line time_layout_line true; Line time_layout_line true; EOF]
      (LogcatMonitor.mkSelf [] closed_world)
    = (thr, LogcatMonitor.mkSelf [] (tick_clock closed_world))
    /\ pending thr = [].
Proof.
  assert (Hreads : Forall unparsed_read
                     [Line time_layout_line true; Line time_layout_line true; EOF]).
  { repeat constructor; exact time_layout_line_layout. }
  exact (logcat_stream_without_pid_stores_nothing default_config _
           (LogcatMonitor.mkSelf [] closed_world) Hreads).
Defined.


End MoreExamples.

Section YetMoreExamples.
Import DatabaseManager Reference Examples MemoryMonitor.

(** A pass of the battery collector over the output of [dumpsys]: the six
    fields are read, the level is below the default threshold and one
    alert is stored. *)
Example battery_pass_at_15_percent :
  let w := snd (try_except (BatteryMonitor.poll 20 (BatteryMonitor.mkTick true battery_at_15))
                  tt (new_world 0 1)) in
  table_rows "battery_stats" (w_db w)
  = [[ ("timestamp", VFloat 0); ("level", VInt 15); ("status", VStr "3");
       ("health", VStr "2"); ("voltage", VFloat (3900 / 1000));
       ("temperature", VFloat (285 / 10)); ("technology", VStr "Li-ion") ]]
  /\ length (table_rows "alerts" (w_db w)) = 1%nat
  /\ w_errors w = [].
Proof. vm_compute. repeat split. Qed.

(** The lines of a /proc/meminfo are read into bytes. *)
Example parse_meminfo_two_lines :
  fst (_parse_meminfo
         (Ok [ "MemTotal:       16384 kB" +:+ String newline EmptyString;
               "MemFree:         1024 kB" +:+ String newline EmptyString ])
         (new_world 0 1))
  = Ok [("MemTotal", 16777216%Z); ("MemFree", 1048576%Z)].
Proof. vm_compute. reflexivity. Qed.

Lemma process_stats_are_the_top_n_witness :
  exists stats,
    ProcessMonitor._collect_process_stats (ProcessMonitor.mkProcessConfig 1 true 80 85)
      three_processes (new_world 0 1) = (Ok stats, tick_clock (new_world 0 1))
    /\ map ProcessMonitor.name stats = ["app"].
Proof.
  assert (Hn : (0 <= ProcessMonitor.process_top_n
                       (ProcessMonitor.mkProcessConfig 1 true 80 85))%Z) by (cbn; lia).
  destruct (process_stats_are_the_top_n (ProcessMonitor.mkProcessConfig 1 true 80 85)
              three_processes (new_world 0 1) Hn)
    as (selected & rest & stats & Hrun & _).
  exists stats. split; [exact Hrun |].
  vm_compute in Hrun. injection Hrun as <-. reflexivity.
Defined.

Lemma process_poll_rows_and_alerts_witness :
  exists w' new,
    ProcessMonitor.poll ProcessMonitor.default_process_config
      (ProcessMonitor.mkTick true three_processes) (new_world 0 1) = (Ok tt, w')
    /\ table_rows "alerts" (w_db w') = new
    /\ length new = 2%nat
    /\ w_errors w' = [].
Proof.
  destruct (process_poll_rows_and_alerts ProcessMonitor.default_process_config
              (ProcessMonitor.mkTick true three_processes) (new_world 0 1)
              (new_world_ready 0 1))
    as (stats & w' & new & Hstats & Hrun & _ & Halerts & Hlen & _ & Herr & _).
  exists w', new. split; [exact Hrun |]. split; [exact Halerts |].
  split; [| exact Herr]. rewrite Hlen.
  vm_compute in Hstats. injection Hstats as <-. reflexivity.
Defined.


Lemma battery_without_dumpsys_witness :
  exists w',
    BatteryMonitor.poll 20 (BatteryMonitor.mkTick true battery_without_dumpsys_reading)
      (new_world 0 1) = (Ok tt, w')
    /\ table_rows "battery_stats" (w_db w') = [[("timestamp", VFloat 0)]]
    /\ table_rows "alerts" (w_db w') = []
    /\ w_errors w' = [OSError].
Proof.
  assert (Hdump : BatteryMonitor.dumpsys
                    (BatteryMonitor.battery
                       (BatteryMonitor.mkTick true battery_without_dumpsys_reading))
                  = Raise OSError) by reflexivity.
  destruct (battery_without_dumpsys 20 _ OSError (new_world 0 1) (new_world_ready 0 1)
              Hdump)
    as (w' & Hrun & Hrows & Halerts & Herr).
  exists w'. split; [exact Hrun |]. split; [exact Hrows |].
  split; [exact Halerts | exact Herr].
Defined.

Lemma two_meminfo_entries_well_formed : Forall well_formed_entry two_meminfo_entries.
Proof.
  repeat constructor; try reflexivity; discriminate.
Qed.

Lemma parse_meminfo_reads_the_entries_witness :
  _parse_meminfo (Ok (map entry_line two_meminfo_entries)) (new_world 0 1)
  = (Ok [("MemTotal", 16777216%Z); ("MemFree", 1048576%Z)], new_world 0 1).
Proof.
  exact (parse_meminfo_reads_the_entries two_meminfo_entries (new_world 0 1)
           two_meminfo_entries_well_formed).
Defined.

Lemma parse_meminfo_stops_at_empty_value_witness :
  _parse_meminfo
    (Ok (map entry_line two_meminfo_entries
           ++ ("HugePages_Total:" +:+ String newline EmptyString)
           :: map entry_line two_meminfo_entries))
    (new_world 0 1)
  = (Ok [("MemTotal", 16777216%Z); ("MemFree", 1048576%Z)],
     snd (logging_error IndexError (new_world 0 1))).
Proof.
  assert (Hkey : is_meminfo_key "HugePages_Total") by (split; reflexivity).
  assert (Hblank : string_forall is_space (String newline EmptyString) = true)
    by reflexivity.
  exact (parse_meminfo_stops_at_empty_value two_meminfo_entries "HugePages_Total"
           (String newline EmptyString) (map entry_line two_meminfo_entries)
           (new_world 0 1) two_meminfo_entries_well_formed Hkey Hblank).
Defined.

Lemma main_runs_the_default_collectors_witness :
  exists m,
    AndroidMonitor.main disable_logcat_args None = Ok m
    /\ dict_get (AndroidMonitor.self_config m) "enable_logcat"
       = Some (AndroidMonitor.SBool false)
    /\ map fst (AndroidMonitor.monitors m) = all_collectors.
Proof.
  assert (Hmain : AndroidMonitor.main disable_logcat_args None
                  = Ok (AndroidMonitor.mkSelf
                          (AndroidMonitor.command_line_config disable_logcat_args)
                          (AndroidMonitor._init_monitors AndroidMonitor.MonitorConfig)))
    by reflexivity.
  destruct (main_runs_the_default_collectors disable_logcat_args None _ Hmain)
    as (Hall & _ & _).
  eexists. split; [exact Hmain |]. split; [reflexivity | exact Hall].
Defined.

End YetMoreExamples.
